(** * The task processing pipeline of the A2A multi-agent server

    A shallow embedding of [main.go] (and of the part of [trtc_api.go] that
    [detectIntent] calls) together with the properties of the pipeline:
    text validation, intent classification, the streaming and the
    non-streaming execution paths, the artifact emission protocol and the
    status updates.

    The pipeline talks to four collaborators that are not part of the
    program: the task runtime ([taskmanager.TaskHandle]), the language-model
    client ([openai.Client]), the voice backend ([trtc.Client]) and the
    ambient [context.Context] and clock.  Each of them is an oracle of the
    environment [Env]; every call is recorded, with what it returned, in the
    trace of the run. *)

From Stdlib Require Import ZArith Ascii String List.
From stdpp Require Import base decidable option list strings pretty gmap.

Local Open Scope string_scope.
Local Open Scope list_scope.
Local Open Scope Z_scope.

(** ** Go's [int]

    [int] is 64 bits wide on the platforms the server is built for
    (the Dockerfile builds for linux).  Arithmetic wraps around. *)

Module GoInt.

Definition min_int : Z := - 2 ^ 63.
Definition max_int : Z := 2 ^ 63 - 1.

Definition wrap (z : Z) : Z := (z + 2 ^ 63) mod 2 ^ 64 - 2 ^ 63.

Definition add (a b : Z) : Z := wrap (a + b).
Definition sub (a b : Z) : Z := wrap (a - b).

(** [len(s)] of a string: its number of bytes. *)
Definition len (s : string) : Z := Z.of_nat (String.length s).

End GoInt.

(** ** Strings

    A Go string is a sequence of bytes; so is a [string] here. *)

Module Strings.

Definition dquote : string := String (ascii_of_nat 34) EmptyString.

Definition code (a : ascii) : N := N_of_ascii a.

(** [spaceRune bs]: the bytes [bs] are the UTF-8 encoding of a rune for
    which [unicode.IsSpace] holds: tab, line feed, vertical tab, form feed,
    carriage return, space, U+0085, U+00A0, U+1680, U+2000..U+200A, U+2028,
    U+2029, U+202F, U+205F and U+3000. *)
Definition spaceRune (bs : list N) : bool :=
  match bs with
  | [a] => ((9 <=? a) && (a <=? 13) || (a =? 32))%N
  | [a; b] => ((a =? 194) && ((b =? 133) || (b =? 160)))%N
  | [a; b; c] =>
      ((a =? 225) && (b =? 154) && (c =? 128)
       || (a =? 226) && (b =? 128)
          && ((128 <=? c) && (c <=? 138) || (c =? 168) || (c =? 169) || (c =? 175))
       || (a =? 226) && (b =? 129) && (c =? 159)
       || (a =? 227) && (b =? 128) && (c =? 128))%N
  | _ => false
  end.

(** Drops white-space runes from the front of [l].  With [fwd = false] the
    list is a reversed string, and a rune's bytes come last byte first. *)
Fixpoint trimFront (fwd : bool) (l : list ascii) : list ascii :=
  let enc (bs : list ascii) := code <$> (if fwd then bs else rev bs) in
  match l with
  | [] => []
  | a :: l1 =>
      if spaceRune (enc [a]) then trimFront fwd l1
      else match l1 with
           | [] => l
           | b :: l2 =>
               if spaceRune (enc [a; b]) then trimFront fwd l2
               else match l2 with
                    | [] => l
                    | c :: l3 =>
                        if spaceRune (enc [a; b; c]) then trimFront fwd l3
                        else l
                    end
           end
  end.

(** [strings.TrimSpace]: all leading and trailing white space removed. *)
Definition TrimSpace (s : string) : string :=
  string_of_list_ascii
    (rev (trimFront false (rev (trimFront true (list_ascii_of_string s))))).

(** [%d] of [fmt.Sprintf]. *)
Definition itoa (z : Z) : string := pretty z.

End Strings.

(** ** Errors

    A Go [error] value.  [io_EOF], [context_Canceled] and
    [context_DeadlineExceeded] are the sentinel values of the standard
    library, compared by identity; [errorString] is what [errors.New] and
    [fmt.Errorf] without [%w] build, and also stands for the errors the
    model client and the task runtime return; [wrapError] is what
    [fmt.Errorf] with [%w] builds; [TencentCloudSDKError] is the error type
    [UpdateAIConversation] tests for. *)

Inductive error : Type :=
| io_EOF
| context_Canceled
| context_DeadlineExceeded
| errorString (s : string)
| wrapError (msg : string) (err : error)
| TencentCloudSDKError (s : string).

Global Instance error_eq_dec : EqDecision error.
Proof. solve_decision. Defined.

(** The [Error()] method, which [%v], [%s] and [%w] print. *)
Definition Error (e : error) : string :=
  match e with
  | io_EOF => "EOF"
  | context_Canceled => "context canceled"
  | context_DeadlineExceeded => "context deadline exceeded"
  | errorString s => s
  | wrapError msg _ => msg
  | TencentCloudSDKError s => s
  end.

(** [fmt.Errorf(prefix + "%w", err)]. *)
Definition Errorf_w (prefix : string) (err : error) : error :=
  wrapError (prefix +:+ Error err) err.

(** ** The [protocol] package: the types the pipeline reads and builds,
    with the fields it uses. *)

Module protocol.

Inductive TaskState : Type :=
| TaskStateSubmitted
| TaskStateWorking
| TaskStateInputRequired
| TaskStateCompleted
| TaskStateCanceled
| TaskStateFailed
| TaskStateUnknown.

Global Instance TaskState_eq_dec : EqDecision TaskState.
Proof. solve_decision. Defined.

Inductive MessageRole : Type := MessageRoleUser | MessageRoleAgent.

Global Instance MessageRole_eq_dec : EqDecision MessageRole.
Proof. solve_decision. Defined.

(** A part of a message.  [OtherPart] is a part of any dynamic type other
    than the struct [TextPart] (a file part, a data part), named by its
    kind. *)
Inductive Part : Type :=
| TextPart (Text : string)
| OtherPart (kind : string).

Global Instance Part_eq_dec : EqDecision Part.
Proof. solve_decision. Defined.

Definition NewTextPart (text : string) : Part := TextPart text.

Record Message : Type := { Role : MessageRole; Parts : list Part }.

Global Instance Message_eq_dec : EqDecision Message.
Proof. solve_decision. Defined.

Definition NewMessage (role : MessageRole) (parts : list Part) : Message :=
  {| Role := role; Parts := parts |}.

End protocol.

(** A value of type [interface{}]: an argument of [log.Printf] or an entry
    of an artifact's metadata. *)
Inductive Value : Type :=
| VString (s : string)
| VInt (n : Z)
| VBool (b : bool)
| VError (e : error)
| VMessage (m : protocol.Message)
| VDuration (d : Z).

Global Instance Value_eq_dec : EqDecision Value.
Proof. solve_decision. Defined.

Module artifact.

(** [protocol.Artifact].  The pointer fields are options. *)
Record Artifact : Type := {
  Name : option string;
  Description : option string;
  Parts : list protocol.Part;
  Index : Z;
  Append : option bool;
  LastChunk : option bool;
  Metadata : gmap string Value
}.

Global Instance Artifact_eq_dec : EqDecision Artifact.
Proof. solve_decision. Defined.

End artifact.

(** ** The [openai] package *)

Module openai.

Definition ChatMessageRoleSystem : string := "system".
Definition ChatMessageRoleUser : string := "user".

Record ChatCompletionMessage : Type := { Role : string; Content : string }.

Record ChatCompletionRequest : Type := {
  Model : string;
  Messages : list ChatCompletionMessage;
  Stream : bool
}.

Record ChatCompletionChoice : Type := { Message : ChatCompletionMessage }.

Record ChatCompletionResponse : Type := { Choices : list ChatCompletionChoice }.

Record ChatCompletionStreamChoiceDelta : Type := { DeltaContent : string }.

Record ChatCompletionStreamChoice : Type := { Delta : ChatCompletionStreamChoiceDelta }.

Record ChatCompletionStreamResponse : Type :=
  { StreamChoices : list ChatCompletionStreamChoice }.

(** What a [ChatCompletionStream] will deliver: [Recv] returns the
    responses of [frames] one after the other and then fails with [final],
    which is [io_EOF] when the stream ends normally.  A stream is the body
    of one HTTP response, hence finite. *)
Record ChatCompletionStream : Type := {
  frames : list ChatCompletionStreamResponse;
  final : error
}.

Global Instance ChatCompletionMessage_eq_dec : EqDecision ChatCompletionMessage.
Proof. solve_decision. Defined.
Global Instance ChatCompletionRequest_eq_dec : EqDecision ChatCompletionRequest.
Proof. solve_decision. Defined.

End openai.

(** ** Traces

    One event per call the pipeline makes on a collaborator, with the
    arguments of the call and what it returned. *)

Inductive Event : Type :=
| EvLog (format : string) (args : list Value)
| EvIsStreamingRequest (ret : bool)
| EvUpdateStatus (state : protocol.TaskState) (message : option protocol.Message)
    (ret : option error)
| EvAddArtifact (a : artifact.Artifact) (ret : option error)
| EvCreateChatCompletion (req : openai.ChatCompletionRequest)
    (ret : openai.ChatCompletionResponse + error)
| EvCreateChatCompletionStream (req : openai.ChatCompletionRequest) (ret : option error)
| EvRecv (ret : openai.ChatCompletionStreamResponse + error)
| EvStreamClose
| EvCtxErr (ret : option error)
| EvTimeNow (ret : Z)
| EvUpdateAIConversation (taskID ttsConfig : string) (ret : option error).

Module Ev.

Definition isUpdateStatus (e : Event) : bool :=
  match e with EvUpdateStatus _ _ _ => true | _ => false end.
Definition isAddArtifact (e : Event) : bool :=
  match e with EvAddArtifact _ _ => true | _ => false end.
Definition isCreateChatCompletion (e : Event) : bool :=
  match e with EvCreateChatCompletion _ _ => true | _ => false end.
Definition isCreateChatCompletionStream (e : Event) : bool :=
  match e with EvCreateChatCompletionStream _ _ => true | _ => false end.
Definition isCtxErr (e : Event) : bool :=
  match e with EvCtxErr _ => true | _ => false end.
Definition isTimeNow (e : Event) : bool :=
  match e with EvTimeNow _ => true | _ => false end.
Definition isUpdateAIConversation (e : Event) : bool :=
  match e with EvUpdateAIConversation _ _ _ => true | _ => false end.
Definition isLog (e : Event) : bool :=
  match e with EvLog _ _ => true | _ => false end.

(** How many events of a kind a trace holds. *)
Fixpoint count (p : Event -> bool) (h : list Event) : nat :=
  match h with
  | [] => 0
  | e :: h' => (if p e then 1 else 0) + count p h'
  end.

End Ev.

(** ** The environment of a run

    Each oracle gives what the collaborator returns on the call with the
    given arguments; its first argument is the number of earlier calls of
    that operation. *)

Record Env : Type := {
  openaiModel : string;
  handle_IsStreamingRequest : bool;
  handle_UpdateStatus :
    nat -> protocol.TaskState -> option protocol.Message -> option error;
  handle_AddArtifact : nat -> artifact.Artifact -> option error;
  openai_CreateChatCompletion :
    nat -> openai.ChatCompletionRequest -> openai.ChatCompletionResponse + error;
  openai_CreateChatCompletionStream :
    nat -> openai.ChatCompletionRequest -> openai.ChatCompletionStream + error;
  ctx_Err : nat -> option error;
  time_Now : nat -> Z;
  trtc_UpdateAIConversation : nat -> string -> string -> option error;
  TTS_APP_ID : Z;
  TTS_SECRET_ID : string;
  TTS_SECRET_KEY : string
}.

(** ** The monad of the pipeline

    A computation reads the history of the run so far and gives an outcome
    and the events it adds.  A Go function either returns or panics. *)

Inductive Outcome (A : Type) : Type :=
| Done (a : A)
| Panic (msg : string).
Arguments Done {A} a.
Arguments Panic {A} msg.

Definition M (A : Type) : Type := list Event -> Outcome A * list Event.

Definition ret {A} (a : A) : M A := fun _ => (Done a, []).

Definition bind {A B} (m : M A) (f : A -> M B) : M B := fun h =>
  match m h with
  | (Done a, t1) => let '(r, t2) := f a (h ++ t1) in (r, t1 ++ t2)
  | (Panic msg, t1) => (Panic msg, t1)
  end.

Definition panic {A} (msg : string) : M A := fun _ => (Panic msg, []).

(** A call on a collaborator: [f] computes what it returns from the history,
    [ev] is the event recorded. *)
Definition call {A} (f : list Event -> A) (ev : A -> Event) : M A := fun h =>
  let r := f h in (Done r, [ev r]).

(** [defer d] before [m]: [d] runs when [m] returns and when it panics. *)
Definition defer {A} (d : M ()) (m : M A) : M A := fun h =>
  let '(r, t1) := m h in
  let '(_, t2) := d (h ++ t1) in (r, t1 ++ t2).

Declare Scope go_scope.
Delimit Scope go_scope with go.
Notation "x <- c1 ;; c2" := (bind c1 (fun x => c2))
  (at level 100, c1 at next level, right associativity) : go_scope.
Notation "c1 ;;; c2" := (bind c1 (fun _ => c2))
  (at level 100, right associativity) : go_scope.
Local Open Scope go_scope.

(** ** The program *)

Definition index_out_of_range : string :=
  "runtime error: index out of range [0] with length 0".

(** How the streaming receive loop is left: by [break], with the values of
    [chunkIndex] and [fullResponse], or by [return err]. *)
Inductive LoopExit : Type :=
| Break (chunkIndex : Z) (fullResponse : string)
| Return (err : error).

Section Pipeline.

Context (env : Env).

Import protocol.

(** *** Calls on the collaborators *)

Definition emit (e : Event) : M () := call (fun _ => ()) (fun _ => e).

Definition logPrintf (format : string) (args : list Value) : M () :=
  emit (EvLog format args).

Definition IsStreamingRequest : M bool :=
  call (fun _ => handle_IsStreamingRequest env) EvIsStreamingRequest.

Definition UpdateStatus (state : TaskState) (message : option Message)
  : M (option error) :=
  call (fun h => handle_UpdateStatus env (Ev.count Ev.isUpdateStatus h) state message)
       (EvUpdateStatus state message).

Definition AddArtifact (a : artifact.Artifact) : M (option error) :=
  call (fun h => handle_AddArtifact env (Ev.count Ev.isAddArtifact h) a)
       (EvAddArtifact a).

Definition CreateChatCompletion (req : openai.ChatCompletionRequest)
  : M (openai.ChatCompletionResponse + error) :=
  call (fun h => openai_CreateChatCompletion env
                   (Ev.count Ev.isCreateChatCompletion h) req)
       (EvCreateChatCompletion req).

Definition CreateChatCompletionStream (req : openai.ChatCompletionRequest)
  : M (openai.ChatCompletionStream + error) :=
  call (fun h => openai_CreateChatCompletionStream env
                   (Ev.count Ev.isCreateChatCompletionStream h) req)
       (fun r => EvCreateChatCompletionStream req
                   (match r with inl _ => None | inr err => Some err end)).

Definition ctxErr : M (option error) :=
  call (fun h => ctx_Err env (Ev.count Ev.isCtxErr h)) EvCtxErr.

(** [time.Now()], in nanoseconds; [time.Since(t)] is a second reading of
    the clock minus [t]. *)
Definition timeNow : M Z :=
  call (fun h => time_Now env (Ev.count Ev.isTimeNow h)) EvTimeNow.

(** *** trtc_api.go

    The client [getTRTCClient] returns is taken as constructed:
    [trtc.NewClient] only fills in a struct.  [TTS_APP_ID env] is what
    [strconv.Atoi] makes of the environment variable. *)

Definition VoiceTypeXiaoMei : Z := 601005.
Definition VoiceTypeXiaoShuai : Z := 601008.

Definition UpdateAIConversation (taskID ttsConfig : string) : M (option error) :=
  err <- call (fun h => trtc_UpdateAIConversation env
                          (Ev.count Ev.isUpdateAIConversation h) taskID ttsConfig)
              (EvUpdateAIConversation taskID ttsConfig) ;;
  match err with
  | Some (TencentCloudSDKError _ as sdkErr) =>
      ret (Some (errorString ("API error: " +:+ Error sdkErr)))
  | Some err => ret (Some (Errorf_w "update failed: " err))
  | None => ret None
  end.

Definition ttsConfig (voiceType : Z) : string :=
  let nl := String (ascii_of_nat 10) EmptyString in
  let tab := String (ascii_of_nat 9) EmptyString in
  let q := Strings.dquote in
  let line (key value : string) := tab +:+ tab +:+ q +:+ key +:+ q +:+ ": " +:+ value in
  "{" +:+ nl
  +:+ line "TTSType" (q +:+ "tencent" +:+ q) +:+ "," +:+ nl
  +:+ line "AppId" (Strings.itoa (TTS_APP_ID env)) +:+ "," +:+ nl
  +:+ line "SecretId" (q +:+ TTS_SECRET_ID env +:+ q) +:+ "," +:+ nl
  +:+ line "SecretKey" (q +:+ TTS_SECRET_KEY env +:+ q) +:+ "," +:+ nl
  +:+ line "VoiceType" (Strings.itoa voiceType) +:+ "," +:+ nl
  +:+ line "Speed" "1" +:+ nl
  +:+ tab +:+ "}".

Definition UpdateAIConversationXiaoMei (taskID : string) : M (option error) :=
  UpdateAIConversation taskID (ttsConfig VoiceTypeXiaoMei).

Definition UpdateAIConversationXiaoShuai (taskID : string) : M (option error) :=
  UpdateAIConversation taskID (ttsConfig VoiceTypeXiaoShuai).

(** *** main.go *)

(** [extractText]: the text of the first part that is a [TextPart]. *)
Fixpoint extractTextParts (parts : list Part) : string :=
  match parts with
  | [] => ""
  | TextPart text :: _ => text
  | OtherPart _ :: rest => extractTextParts rest
  end.

Definition extractText (message : Message) : string :=
  extractTextParts (Parts message).

Definition stringPtr (s : string) : option string := Some s.
Definition boolPtr (b : bool) : option bool := Some b.

Definition intentPrompt : string :=
  let nl := String (ascii_of_nat 10) EmptyString in
  let q := Strings.dquote in
  let xiao := String (ascii_of_nat 229) (String (ascii_of_nat 176) (String (ascii_of_nat 143) "")) in
  let mei := String (ascii_of_nat 231) (String (ascii_of_nat 190) (String (ascii_of_nat 142) "")) in
  let shuai := String (ascii_of_nat 229) (String (ascii_of_nat 184) (String (ascii_of_nat 133) "")) in
  "You are an intent detection assistant. You need to determine which AI assistant the user wants to talk to."
  +:+ nl +:+ "Options are:" +:+ nl
  +:+ "1. XiaoMei(" +:+ xiao +:+ mei
  +:+ "): Female assistant, lively and cute personality, can solve female-related issues."
  +:+ nl
  +:+ "2. XiaoShuai(" +:+ xiao +:+ shuai
  +:+ "): Male assistant, sunny and cheerful personality, can solve male-related issues."
  +:+ nl
  +:+ "Please only reply with " +:+ q +:+ "XiaoMei" +:+ q +:+ " or " +:+ q +:+ "XiaoShuai" +:+ q.

(** The request [detectIntent] sends. *)
Definition intentRequest (text : string) : openai.ChatCompletionRequest :=
  {| openai.Model := openaiModel env;
     openai.Messages :=
       [ {| openai.Role := openai.ChatMessageRoleSystem; openai.Content := intentPrompt |};
         {| openai.Role := openai.ChatMessageRoleUser; openai.Content := text |} ];
     openai.Stream := false |}.

Definition detectIntent (text taskID : string) : M (string * option error) :=
  r <- CreateChatCompletion (intentRequest text) ;;
  match r with
  | inr err => ret ("", Some (Errorf_w "intent detection failed: " err))
  | inl resp =>
      match openai.Choices resp with
      | [] => panic index_out_of_range
      | choice :: _ =>
          let intent := Strings.TrimSpace (openai.Content (openai.Message choice)) in
          intent <-
            (if bool_decide (intent <> "XiaoMei") && bool_decide (intent <> "XiaoShuai")
             then logPrintf "Could not clearly identify intent, defaulting to XiaoMei" [] ;;;
                  ret "XiaoMei"
             else logPrintf "Intent detection result: User wants to talk to %s"
                    [VString intent] ;;;
                  ret intent) ;;
          (if bool_decide (intent = "XiaoMei")
           then
             logPrintf "Starting TTS update for XiaoMei, taskid: %s" [VString taskID] ;;;
             if GoInt.len taskID >? 64
             then
               err <- UpdateAIConversationXiaoMei taskID ;;
               match err with
               | Some err => logPrintf "Failed to update TTS for XiaoMei: %v" [VError err]
               | None => logPrintf "Successfully updated TTS for XiaoMei" []
               end
             else logPrintf "Invalid taskID length for XiaoMei: %s" [VString taskID]
           else
             logPrintf "Starting TTS update for XiaoShuai, taskid: %s" [VString taskID] ;;;
             if GoInt.len taskID >? 64
             then
               err <- UpdateAIConversationXiaoShuai taskID ;;
               match err with
               | Some err => logPrintf "Failed to update TTS for XiaoShuai: %v" [VError err]
               | None => logPrintf "Successfully updated TTS for XiaoShuai" []
               end
             else logPrintf "Invalid taskID length for XiaoShuai: %s" [VString taskID]) ;;;
          ret (intent, None)
      end
  end.

Definition prompts : gmap string string :=
  let xiao := String (ascii_of_nat 229) (String (ascii_of_nat 176) (String (ascii_of_nat 143) "")) in
  let mei := String (ascii_of_nat 231) (String (ascii_of_nat 190) (String (ascii_of_nat 142) "")) in
  let shuai := String (ascii_of_nat 229) (String (ascii_of_nat 184) (String (ascii_of_nat 133) "")) in
  list_to_map
    [ ("XiaoMei",
       "You are an AI assistant named XiaoMei(" +:+ xiao +:+ mei
       +:+ "). Keep the conversation casual, lively, and concise");
      ("XiaoShuai",
       "You are an AI assistant named XiaoShuai(" +:+ xiao +:+ shuai
       +:+ "). Keep the conversation casual, humorous, and concise") ].

(** A key the map does not hold reads as the zero value. *)
Definition getAssistantPrompt (intent : string) : string :=
  default "" (prompts !! intent).

Definition completionRequest (intent text : string) (stream : bool)
  : openai.ChatCompletionRequest :=
  {| openai.Model := openaiModel env;
     openai.Messages :=
       [ {| openai.Role := openai.ChatMessageRoleSystem;
            openai.Content := getAssistantPrompt intent |};
         {| openai.Role := openai.ChatMessageRoleUser; openai.Content := text |} ];
     openai.Stream := stream |}.

Definition chunkArtifact (chunkIndex : Z) (content fullResponse : string) (now : Z)
  : artifact.Artifact :=
  {| artifact.Name := stringPtr ("Chunk " +:+ Strings.itoa (GoInt.add chunkIndex 1));
     artifact.Description := stringPtr "Streaming chunk from OpenAI";
     artifact.Index := chunkIndex;
     artifact.Parts := [NewTextPart content];
     artifact.Append := boolPtr (chunkIndex >? 0);
     artifact.LastChunk := None;
     artifact.Metadata :=
       list_to_map
         [ ("timestamp", VInt now);
           ("chunk_size", VInt (GoInt.len content));
           ("chunk_index", VInt chunkIndex);
           ("total_length", VInt (GoInt.len fullResponse));
           ("model", VString (openaiModel env));
           ("is_streaming", VBool true) ] |}.

Definition lastChunkArtifact (chunkIndex : Z) (fullResponse : string) (now : Z)
  : artifact.Artifact :=
  {| artifact.Name := stringPtr ("Chunk " +:+ Strings.itoa chunkIndex);
     artifact.Description := stringPtr "Final chunk from OpenAI";
     artifact.Index := GoInt.sub chunkIndex 1;
     artifact.Parts := [];
     artifact.Append := None;
     artifact.LastChunk := boolPtr true;
     artifact.Metadata :=
       list_to_map
         [ ("timestamp", VInt now);
           ("total_chunks", VInt chunkIndex);
           ("total_length", VInt (GoInt.len fullResponse));
           ("model", VString (openaiModel env));
           ("is_streaming", VBool true);
           ("is_last_chunk", VBool true) ] |}.

(** The [for] loop of [processWithOpenAIStreaming].  [frames] and [final]
    are what is left of the stream; one iteration takes one [Recv]. *)
Fixpoint recvLoop (taskID : string)
    (frames : list openai.ChatCompletionStreamResponse) (final : error)
    (startTime chunkIndex : Z) (fullResponse : string) (firstTokenReceived : bool)
    {struct frames} : M LoopExit :=
  cerr <- ctxErr ;;
  match cerr with
  | Some err =>
      logPrintf "Task %s canceled during OpenAI streaming: %v"
        [VString taskID; VError err] ;;;
      UpdateStatus TaskStateCanceled None ;;;
      ret (Return err)
  | None =>
      match frames with
      | [] =>
          emit (EvRecv (inr final)) ;;;
          if decide (final = io_EOF)
          then ret (Break chunkIndex fullResponse)
          else ret (Return
                 (Errorf_w "failed to receive OpenAI streaming response: " final))
      | response :: rest =>
          emit (EvRecv (inl response)) ;;;
          match openai.StreamChoices response with
          | [] => panic index_out_of_range
          | choice :: _ =>
              let content := openai.DeltaContent (openai.Delta choice) in
              if decide (content = "")
              then recvLoop taskID rest final startTime chunkIndex fullResponse
                     firstTokenReceived
              else
                firstTokenReceived <-
                  (if negb firstTokenReceived
                   then
                     now <- timeNow ;;
                     logPrintf "Task %s: Time to first token: %v"
                       [VString taskID; VDuration (now - startTime)] ;;;
                     ret true
                   else ret firstTokenReceived) ;;
                let fullResponse := fullResponse +:+ content in
                logPrintf "Task %s: Sending chunk %d, content length: %d"
                  [VString taskID; VInt (GoInt.add chunkIndex 1);
                   VInt (GoInt.len content)] ;;;
                let statusMsg := NewMessage MessageRoleAgent [NewTextPart content] in
                err <- UpdateStatus TaskStateWorking (Some statusMsg) ;;
                match err with
                | Some err =>
                    logPrintf "Error updating progress status for task %s: %v"
                      [VString taskID; VError err]
                | None => ret ()
                end ;;;
                now <- timeNow ;;
                err <- AddArtifact (chunkArtifact chunkIndex content fullResponse now) ;;
                match err with
                | Some err =>
                    logPrintf "Error adding artifact for chunk %d of task %s: %v"
                      [VInt (GoInt.add chunkIndex 1); VString taskID; VError err]
                | None => ret ()
                end ;;;
                recvLoop taskID rest final startTime (GoInt.add chunkIndex 1)
                  fullResponse firstTokenReceived
          end
      end
  end.

Definition processWithOpenAIStreaming (taskID text : string) : M (option error) :=
  res <- detectIntent text taskID ;;
  let '(intent, err) := res in
  match err with
  | Some err =>
      logPrintf "Task %s intent detection failed: %v" [VString taskID; VError err] ;;;
      ret (Some (Errorf_w "intent detection failed: " err))
  | None =>
      logPrintf "Task %s will be processed by %s" [VString taskID; VString intent] ;;;
      r <- CreateChatCompletionStream (completionRequest intent text true) ;;
      match r with
      | inr err =>
          ret (Some (Errorf_w "failed to create OpenAI streaming request: " err))
      | inl stream =>
          defer (emit EvStreamClose)
            (startTime <- timeNow ;;
             exit <- recvLoop taskID (openai.frames stream) (openai.final stream)
                       startTime 0 "" false ;;
             match exit with
             | Return err => ret (Some err)
             | Break chunkIndex fullResponse =>
                 (if chunkIndex >? 0
                  then
                    now <- timeNow ;;
                    err <- AddArtifact (lastChunkArtifact chunkIndex fullResponse now) ;;
                    match err with
                    | Some err =>
                        logPrintf "Error adding final chunk marker for task %s: %v"
                          [VString taskID; VError err]
                    | None => ret ()
                    end
                  else ret ()) ;;;
                 let completeMessage :=
                   NewMessage MessageRoleAgent
                     [NewTextPart ("Processing complete. Received "
                                   +:+ Strings.itoa chunkIndex +:+ " chunks.")] in
                 err <- UpdateStatus TaskStateCompleted (Some completeMessage) ;;
                 match err with
                 | Some err =>
                     logPrintf "Error updating final status for task %s: %v"
                       [VString taskID; VError err] ;;;
                     ret (Some (Errorf_w "failed to update final task status: " err))
                 | None => ret None
                 end
             end)
      end
  end.

Definition processWithOpenAINonStreaming (text taskID : string)
  : M (string * option error) :=
  res <- detectIntent text taskID ;;
  let '(intent, err) := res in
  match err with
  | Some err => ret ("", Some (Errorf_w "intent detection failed: " err))
  | None =>
      resp <- CreateChatCompletion (completionRequest intent text false) ;;
      match resp with
      | inr err => ret ("", Some (Errorf_w "failed to create OpenAI request: " err))
      | inl resp =>
          match openai.Choices resp with
          | [] => ret ("", Some (errorString "no choices in OpenAI response"))
          | choice :: _ => ret (openai.Content (openai.Message choice), None)
          end
      end
  end.

Definition processedArtifact (processedText : string) (now : Z) : artifact.Artifact :=
  {| artifact.Name := stringPtr "Processed Text";
     artifact.Description := stringPtr "Complete processed text from OpenAI";
     artifact.Index := 0;
     artifact.Parts := [NewTextPart processedText];
     artifact.Append := None;
     artifact.LastChunk := boolPtr true;
     artifact.Metadata :=
       list_to_map
         [ ("timestamp", VInt now);
           ("total_length", VInt (GoInt.len processedText));
           ("model", VString (openaiModel env));
           ("is_streaming", VBool false) ] |}.

Definition failedToProcess (err : error) : Message :=
  NewMessage MessageRoleAgent
    [NewTextPart ("Failed to process with OpenAI: " +:+ Error err)].

Definition processNonStreaming (taskID text : string) : M (option error) :=
  let initialMessage :=
    NewMessage MessageRoleAgent [NewTextPart "Processing your text with OpenAI..."] in
  err <- UpdateStatus TaskStateWorking (Some initialMessage) ;;
  match err with
  | Some err =>
      logPrintf "Error updating initial status for task %s: %v"
        [VString taskID; VError err] ;;;
      ret (Some err)
  | None =>
      res <- processWithOpenAINonStreaming text taskID ;;
      let '(processedText, err) := res in
      match err with
      | Some err =>
          logPrintf "Error processing with OpenAI for task %s: %v"
            [VString taskID; VError err] ;;;
          UpdateStatus TaskStateFailed (Some (failedToProcess err)) ;;;
          ret (Some err)
      | None =>
          now <- timeNow ;;
          err <- AddArtifact (processedArtifact processedText now) ;;
          match err with
          | Some err =>
              logPrintf "Error adding artifact for task %s: %v"
                [VString taskID; VError err]
          | None => ret ()
          end ;;;
          let completeMessage :=
            NewMessage MessageRoleAgent
              [NewTextPart "Processing complete. OpenAI response received."] in
          err <- UpdateStatus TaskStateCompleted (Some completeMessage) ;;
          match err with
          | Some err =>
              logPrintf "Error updating final status for task %s: %v"
                [VString taskID; VError err] ;;;
              ret (Some (Errorf_w "failed to update final task status: " err))
          | None =>
              logPrintf "Task %s non-streaming completed successfully." [VString taskID] ;;;
              ret None
          end
      end
  end.

Definition errMsg : string := "input message must contain text".

Definition Process (taskID : string) (message : Message) : M (option error) :=
  logPrintf "Processing streaming task %s..." [VString taskID] ;;;
  logPrintf "Task %s received message: %s" [VString taskID; VMessage message] ;;;
  let text := extractText message in
  if decide (text = "")
  then
    logPrintf "Task %s failed: %s" [VString taskID; VString errMsg] ;;;
    let failedMessage := NewMessage MessageRoleAgent [NewTextPart errMsg] in
    UpdateStatus TaskStateFailed (Some failedMessage) ;;;
    ret (Some (errorString errMsg))
  else
    isStreaming <- IsStreamingRequest ;;
    if negb isStreaming
    then
      logPrintf "Task %s using non-streaming mode" [VString taskID] ;;;
      processNonStreaming taskID text
    else
      logPrintf "Task %s using streaming mode" [VString taskID] ;;;
      let initialMessage :=
        NewMessage MessageRoleAgent
          [NewTextPart "Starting to process your streaming data with OpenAI..."] in
      err <- UpdateStatus TaskStateWorking (Some initialMessage) ;;
      match err with
      | Some err =>
          logPrintf "Error updating initial status for task %s: %v"
            [VString taskID; VError err] ;;;
          ret (Some err)
      | None =>
          err <- processWithOpenAIStreaming taskID text ;;
          match err with
          | Some err =>
              logPrintf "Error processing with OpenAI for task %s: %v"
                [VString taskID; VError err] ;;;
              UpdateStatus TaskStateFailed (Some (failedToProcess err)) ;;;
              ret (Some err)
          | None =>
              logPrintf "Task %s streaming completed successfully." [VString taskID] ;;;
              ret None
          end
      end.

End Pipeline.

Arguments ret : simpl never.
Arguments bind : simpl never.
Arguments panic : simpl never.
Arguments call : simpl never.
Arguments defer : simpl never.

(** ** What a trace shows *)

Module Trace.

(** The artifacts appended through the handle, in order. *)
Definition artifacts (tr : list Event) : list artifact.Artifact :=
  omap (fun e => match e with EvAddArtifact a _ => Some a | _ => None end) tr.

(** The status updates made through the handle, in order. *)
Definition statuses (tr : list Event)
  : list (protocol.TaskState * option protocol.Message) :=
  omap (fun e => match e with EvUpdateStatus s m _ => Some (s, m) | _ => None end) tr.

(** The non-empty content increments received from the stream. *)
Definition increment (e : Event) : option string :=
  match e with
  | EvRecv (inl response) =>
      match openai.StreamChoices response with
      | choice :: _ =>
          let content := openai.DeltaContent (openai.Delta choice) in
          if decide (content = "") then None else Some content
      | [] => None
      end
  | _ => None
  end.

Definition increments (tr : list Event) : list string := omap increment tr.

(** What the calls of [Recv] returned, in order. *)
Definition received (tr : list Event)
  : list (openai.ChatCompletionStreamResponse + error) :=
  omap (fun e => match e with EvRecv r => Some r | _ => None end) tr.

(** The calls on the model backend: completions, stream openings and
    receives. *)
Definition isModelCall (e : Event) : bool :=
  match e with
  | EvCreateChatCompletion _ _ | EvCreateChatCompletionStream _ _ | EvRecv _ => true
  | _ => false
  end.

Definition modelCalls (tr : list Event) : nat := Ev.count isModelCall tr.

(** The blocking completion calls, with what they returned. *)
Definition chatCalls (tr : list Event)
  : list (openai.ChatCompletionRequest * (openai.ChatCompletionResponse + error)) :=
  omap (fun e => match e with
                 | EvCreateChatCompletion req r => Some (req, r)
                 | _ => None
                 end) tr.

(** The calls on the voice backend: task identifier and configuration. *)
Definition voiceCalls (tr : list Event) : list (string * string) :=
  omap (fun e => match e with
                 | EvUpdateAIConversation taskID cfg _ => Some (taskID, cfg)
                 | _ => None
                 end) tr.

(** The log lines that report a failure of the handle which the pipeline
    absorbs: of a progress update, or of an artifact append. *)
Definition absorbedFormats : list string :=
  [ "Error updating progress status for task %s: %v";
    "Error adding artifact for chunk %d of task %s: %v";
    "Error adding final chunk marker for task %s: %v";
    "Error adding artifact for task %s: %v" ].

(** The calls of a trace, log lines included, without what the handle
    returned and without the reports of the failures it absorbs. *)
Definition skeleton (e : Event) : option Event :=
  match e with
  | EvLog format _ =>
      if bool_decide (format ∈ absorbedFormats) then None else Some e
  | EvUpdateStatus s m _ => Some (EvUpdateStatus s m None)
  | EvAddArtifact a _ => Some (EvAddArtifact a None)
  | e => Some e
  end.

Definition calls (tr : list Event) : list Event := omap skeleton tr.

(** What the claims say of an artifact. *)
Record Shape : Type := {
  index : Z;
  append : option bool;
  lastChunk : option bool;
  parts : list protocol.Part
}.

Definition shape (a : artifact.Artifact) : Shape :=
  {| index := artifact.Index a;
     append := artifact.Append a;
     lastChunk := artifact.LastChunk a;
     parts := artifact.Parts a |}.

(** The [i]-th content artifact of a stream, carrying [content]. *)
Definition contentShape (i : nat) (content : string) : Shape :=
  {| index := Z.of_nat i;
     append := Some (bool_decide (0 < i)%nat);
     lastChunk := None;
     parts := [protocol.TextPart content] |}.

(** The artifact that closes a stream of [n] increments. *)
Definition closingShape (n : nat) : Shape :=
  {| index := Z.of_nat n - 1;
     append := None;
     lastChunk := Some true;
     parts := [] |}.

(** The content artifacts of the increments [contents], the first of them
    with index [chunkIndex]. *)
Fixpoint shapesFrom (chunkIndex : Z) (contents : list string) : list Shape :=
  match contents with
  | [] => []
  | content :: rest =>
      {| index := chunkIndex;
         append := Some (chunkIndex >? 0);
         lastChunk := None;
         parts := [protocol.TextPart content] |}
      :: shapesFrom (chunkIndex + 1) rest
  end.

(** The progress update that carries an increment. *)
Definition progress (content : string) : protocol.TaskState * option protocol.Message :=
  (protocol.TaskStateWorking,
   Some (protocol.NewMessage protocol.MessageRoleAgent [protocol.TextPart content])).

(** A failure of an artifact append, or of a status update to working or
    completed, is followed by a log line that prints the error. *)
Definition reported (e : Event) : option error :=
  match e with
  | EvAddArtifact _ (Some err) => Some err
  | EvUpdateStatus protocol.TaskStateWorking _ (Some err) => Some err
  | EvUpdateStatus protocol.TaskStateCompleted _ (Some err) => Some err
  | _ => None
  end.

Fixpoint failuresLogged (tr : list Event) : Prop :=
  match tr with
  | [] => True
  | e :: tr' =>
      match reported e with
      | Some err =>
          match tr' with
          | EvLog _ args :: _ => In (VError err) args
          | _ => False
          end
      | None => True
      end /\ failuresLogged tr'
  end.

End Trace.

(** ** Weakest preconditions

    [wp m h Q]: run after the history [h], [m] ends with an outcome and a
    trace for which [Q] holds. *)

Definition wp {A} (m : M A) (h : list Event) (Q : Outcome A -> list Event -> Prop) : Prop :=
  Q (m h).1 (m h).2.
Arguments wp : simpl never.

(** The outcome and the trace of a run of [m] after the history [h]. *)
Definition outcome {A} (m : M A) (h : list Event) : Outcome A := (m h).1.
Definition trace {A} (m : M A) (h : list Event) : list Event := (m h).2.

(** How a run that fails validation ends: the validation error is returned,
    the one status update is to failed with a message that quotes the error,
    and the model backend is not called. *)
Definition validationFailure (o : Outcome (option error)) (tr : list Event) : Prop :=
  o = Done (Some (errorString "input message must contain text"))
  /\ Trace.statuses tr
     = [ (protocol.TaskStateFailed,
          Some (protocol.NewMessage protocol.MessageRoleAgent
                  [protocol.TextPart "input message must contain text"])) ]
  /\ Trace.modelCalls tr = 0%nat.

(** Replaces the oracles of the task handle. *)
Definition withHandle (env : Env)
    (us : nat -> protocol.TaskState -> option protocol.Message -> option error)
    (aa : nat -> artifact.Artifact -> option error) : Env :=
  {| openaiModel := openaiModel env;
     handle_IsStreamingRequest := handle_IsStreamingRequest env;
     handle_UpdateStatus := us;
     handle_AddArtifact := aa;
     openai_CreateChatCompletion := openai_CreateChatCompletion env;
     openai_CreateChatCompletionStream := openai_CreateChatCompletionStream env;
     ctx_Err := ctx_Err env;
     time_Now := time_Now env;
     trtc_UpdateAIConversation := trtc_UpdateAIConversation env;
     TTS_APP_ID := TTS_APP_ID env;
     TTS_SECRET_ID := TTS_SECRET_ID env;
     TTS_SECRET_KEY := TTS_SECRET_KEY env |}.


(** The persona [detectIntent] resolves a classifier answer to. *)
Definition resolvedIntent (content : string) : string :=
  let intent := Strings.TrimSpace content in
  if bool_decide (intent <> "XiaoMei") && bool_decide (intent <> "XiaoShuai")
  then "XiaoMei" else intent.

Definition voiceTypeOf (intent : string) : Z :=
  if bool_decide (intent = "XiaoMei") then VoiceTypeXiaoMei else VoiceTypeXiaoShuai.

(** What the classification call of [detectIntent] returns after [h]. *)
Definition classified (env : Env) (text : string) (h : list Event)
  : openai.ChatCompletionResponse + error :=
  openai_CreateChatCompletion env (Ev.count Ev.isCreateChatCompletion h)
    (intentRequest env text).


(** ** Sample runs *)

Module Sample.

Definition choice (s : string) : openai.ChatCompletionChoice :=
  {| openai.Message := {| openai.Role := "assistant"; openai.Content := s |} |}.

Definition answer (s : string) : openai.ChatCompletionResponse :=
  {| openai.Choices := [choice s] |}.

Definition frame (s : string) : openai.ChatCompletionStreamResponse :=
  {| openai.StreamChoices :=
       [ {| openai.Delta := {| openai.DeltaContent := s |} |} ] |}.

Definition noChoices : openai.ChatCompletionResponse := {| openai.Choices := [] |}.

Definition noStreamChoices : openai.ChatCompletionStreamResponse :=
  {| openai.StreamChoices := [] |}.

(** A run in which every collaborator succeeds: the classifier answers
    [classified], the completion call answers ["Hi there"], the stream
    delivers [deltas]. *)
Definition env (streaming : bool) (classified : string) (deltas : list string) : Env :=
  {| openaiModel := "gpt-3.5-turbo";
     handle_IsStreamingRequest := streaming;
     handle_UpdateStatus := fun _ _ _ => None;
     handle_AddArtifact := fun _ _ => None;
     openai_CreateChatCompletion := fun n _ =>
       match n with
       | O => inl (answer classified)
       | _ => inl (answer "Hi there")
       end;
     openai_CreateChatCompletionStream := fun _ _ =>
       inl {| openai.frames := frame <$> deltas; openai.final := io_EOF |};
     ctx_Err := fun _ => None;
     time_Now := fun n => 1700000000000000000 + Z.of_nat n;
     trtc_UpdateAIConversation := fun _ _ _ => None;
     TTS_APP_ID := 1300000000;
     TTS_SECRET_ID := "id";
     TTS_SECRET_KEY := "key" |}.

(** The same with other answers of the model backend. *)
Definition withChat (e : Env)
    (chat : nat -> openai.ChatCompletionRequest -> openai.ChatCompletionResponse + error)
    (stream : nat -> openai.ChatCompletionRequest -> openai.ChatCompletionStream + error)
  : Env :=
  {| openaiModel := openaiModel e;
     handle_IsStreamingRequest := handle_IsStreamingRequest e;
     handle_UpdateStatus := handle_UpdateStatus e;
     handle_AddArtifact := handle_AddArtifact e;
     openai_CreateChatCompletion := chat;
     openai_CreateChatCompletionStream := stream;
     ctx_Err := ctx_Err e;
     time_Now := time_Now e;
     trtc_UpdateAIConversation := trtc_UpdateAIConversation e;
     TTS_APP_ID := TTS_APP_ID e;
     TTS_SECRET_ID := TTS_SECRET_ID e;
     TTS_SECRET_KEY := TTS_SECRET_KEY e |}.

(** The same with a context that is canceled from the [k]-th poll on. *)
Definition canceledFrom (k : nat) (e : Env) : Env :=
  {| openaiModel := openaiModel e;
     handle_IsStreamingRequest := handle_IsStreamingRequest e;
     handle_UpdateStatus := handle_UpdateStatus e;
     handle_AddArtifact := handle_AddArtifact e;
     openai_CreateChatCompletion := openai_CreateChatCompletion e;
     openai_CreateChatCompletionStream := openai_CreateChatCompletionStream e;
     ctx_Err := fun n => if (k <=? n)%nat then Some context_Canceled else None;
     time_Now := time_Now e;
     trtc_UpdateAIConversation := trtc_UpdateAIConversation e;
     TTS_APP_ID := TTS_APP_ID e;
     TTS_SECRET_ID := TTS_SECRET_ID e;
     TTS_SECRET_KEY := TTS_SECRET_KEY e |}.

Definition hello : protocol.Message :=
  protocol.NewMessage protocol.MessageRoleUser [protocol.TextPart "hello"].

Definition transport : error := errorString "transport: connection reset".

Definition shortID : string := "task-00001".

End Sample.

(** What [detectIntent] returns after [h]: it depends on the classification
    call only. *)
Definition detectIntentOutcome (env : Env) (text : string) (h : list Event)
  : Outcome (string * option error) :=
  match classified env text h with
  | inr err => Done ("", Some (Errorf_w "intent detection failed: " err))
  | inl resp =>
      match openai.Choices resp with
      | [] => Panic index_out_of_range
      | choice :: _ =>
          Done (resolvedIntent (openai.Content (openai.Message choice)), None)
      end
  end.

(** The summary message of a stream of [n] increments. *)
Definition completeMessage (n : nat) : protocol.Message :=
  protocol.NewMessage protocol.MessageRoleAgent
    [protocol.TextPart
       ("Processing complete. Received " +:+ Strings.itoa (Z.of_nat n) +:+ " chunks.")].

(** The closing artifact of a stream of [n] increments: none when [n = 0]. *)
Definition closing (n : nat) : list Trace.Shape :=
  match n with
  | O => []
  | S _ => [Trace.closingShape n]
  end.

(** The message of the first status update of a streaming run. *)
Definition startingMessage : protocol.Message :=
  protocol.NewMessage protocol.MessageRoleAgent
    [protocol.TextPart "Starting to process your streaming data with OpenAI..."].

(** The artifact of a non-streaming run that carries [content]. *)
Definition processedShape (content : string) : Trace.Shape :=
  {| Trace.index := 0;
     Trace.append := None;
     Trace.lastChunk := Some true;
     Trace.parts := [protocol.TextPart content] |}.

Definition noChoicesError : error := errorString "no choices in OpenAI response".

(** What a non-streaming run does with the response [resp] of its completion
    call: one artifact with the first choice's content, or a generation error
    and a failed task when there is no choice. *)
Definition nonStreamingResult (resp : openai.ChatCompletionResponse)
    (o : Outcome (option error)) (t : list Event) : Prop :=
  match openai.Choices resp with
  | choice :: _ =>
      Trace.shape <$> Trace.artifacts t
      = [processedShape (openai.Content (openai.Message choice))]
  | [] =>
      o = Done (Some noChoicesError)
      /\ Trace.artifacts t = []
      /\ last (Trace.statuses t)
         = Some (protocol.TaskStateFailed, Some (failedToProcess noChoicesError))
  end.

(** The precondition under which indexing [Choices[0]] is safe: every
    classification response and every frame of a stream holds a choice. *)
Definition classificationsHaveChoices (env : Env) : Prop :=
  forall n text resp,
    openai_CreateChatCompletion env n (intentRequest env text) = inl resp ->
    openai.Choices resp <> [].

Definition framesHaveChoices (env : Env) : Prop :=
  forall n req stream,
    openai_CreateChatCompletionStream env n req = inl stream ->
    Forall (fun response => openai.StreamChoices response <> []) (openai.frames stream).

Definition noPanic {A} (o : Outcome A) : Prop := forall msg, o <> Panic msg.

Module Scenario.

(** The classifier answers without a choice. *)
Definition unclassified : Env :=
  Sample.withChat (Sample.env false "XiaoMei" [])
    (fun _ _ => inl Sample.noChoices)
    (openai_CreateChatCompletionStream (Sample.env false "XiaoMei" [])).

(** The second frame of the stream has no choice. *)
Definition emptyFrame : Env :=
  Sample.withChat (Sample.env true "XiaoMei" [])
    (openai_CreateChatCompletion (Sample.env true "XiaoMei" []))
    (fun _ _ =>
       inl {| openai.frames := [Sample.frame "Hi"; Sample.noStreamChoices];
              openai.final := io_EOF |}).

(** The generation call of a non-streaming run answers without a choice. *)
Definition ungenerated : Env :=
  Sample.withChat (Sample.env false "XiaoMei" [])
    (fun n _ =>
       match n with
       | O => inl (Sample.answer "XiaoMei")
       | _ => inl Sample.noChoices
       end)
    (openai_CreateChatCompletionStream (Sample.env false "XiaoMei" [])).

(** A stream of two increments; the context is canceled after the first
    has been emitted and before the second is received. *)
Definition canceledMidStream : Env :=
  Sample.canceledFrom 1 (Sample.env true "XiaoMei" ["Hel"; "lo"]).


(** The update to completed fails. *)
Definition lastUpdateFails : Env :=
  withHandle (Sample.env true "XiaoMei" ["Hel"; "lo"])
    (fun _ state _ =>
       match state with
       | protocol.TaskStateCompleted => Some Sample.transport
       | _ => None
       end)
    (fun _ _ => None).


End Scenario.

(** The status update of a cancellation. *)
Definition canceled : protocol.TaskState * option protocol.Message :=
  (protocol.TaskStateCanceled, None).

(** ** Runs that differ in what the handle returns *)







(** A predicate on events that the skeleton of a trace preserves. *)
Definition stable (p : Event -> bool) : Prop :=
  forall e,
    match Trace.skeleton e with
    | Some e' => p e' = p e
    | None => p e = false
    end.

(** The last event of a trace is not a failure still to be logged. *)
Definition settled (t : list Event) : Prop :=
  match last t with
  | Some e => Trace.reported e = None
  | None => True
  end.

Definition logged (t : list Event) : Prop := Trace.failuresLogged t /\ settled t.

(** ** Further observers of a trace *)

Module Obs.

(** The status updates with what the handle returned. *)
Definition updates (tr : list Event)
  : list (protocol.TaskState * option protocol.Message * option error) :=
  omap (fun e => match e with
                 | EvUpdateStatus s m r => Some (s, m, r)
                 | _ => None
                 end) tr.

(** The requests sent to the model backend, each with whether it opens a
    stream. *)
Definition requests (tr : list Event) : list (bool * openai.ChatCompletionRequest) :=
  omap (fun e => match e with
                 | EvCreateChatCompletion req _ => Some (false, req)
                 | EvCreateChatCompletionStream req _ => Some (true, req)
                 | _ => None
                 end) tr.

(** What the polls of [ctx.Err()] returned. *)
Definition polls (tr : list Event) : list (option error) :=
  omap (fun e => match e with EvCtxErr r => Some r | _ => None end) tr.

Definition isStreamClose (e : Event) : bool :=
  match e with EvStreamClose => true | _ => false end.

(** The streams opened with success. *)
Definition isOpened (e : Event) : bool :=
  match e with EvCreateChatCompletionStream _ None => true | _ => false end.

Definition firstTokenFormat : string := "Task %s: Time to first token: %v".

Definition isFirstTokenLog (e : Event) : bool :=
  match e with
  | EvLog format _ => bool_decide (format = firstTokenFormat)
  | _ => false
  end.

(** Every [Recv] comes right after a poll of the context that returned nil.
    [ok] tells whether the event before [tr] was such a poll. *)
Fixpoint polled (ok : bool) (tr : list Event) : Prop :=
  match tr with
  | [] => True
  | e :: tr' =>
      match e with EvRecv _ => ok = true | _ => True end
      /\ polled (match e with EvCtxErr None => true | _ => false end) tr'
  end.

(** The metadata entry [key] of an artifact. *)
Definition meta (key : string) (a : artifact.Artifact) : option Value :=
  artifact.Metadata a !! key.


End Obs.

(** The two requests of a run on the text [text]: the classification, then
    the generation for the persona [intent]. *)
Definition runRequests (env : Env) (intent text : string)
  : list (bool * openai.ChatCompletionRequest) :=
  [ (false, intentRequest env text);
    (handle_IsStreamingRequest env,
     completionRequest env intent text (handle_IsStreamingRequest env)) ].

Definition isPersona (intent : string) : Prop :=
  intent = "XiaoMei" \/ intent = "XiaoShuai".

(** What every run of a path shows: its requests, its calls on the voice
    backend, its streams and its polls. *)
Definition pathObs (env : Env) (taskID text : string) (streaming : bool)
    (t : list Event) : Prop :=
  (exists intent,
     isPersona intent
     /\ Obs.requests t
        `prefix_of` [ (false, intentRequest env text);
                      (streaming, completionRequest env intent text streaming) ])
  /\ (length (Trace.voiceCalls t) <= 1)%nat
  /\ (GoInt.len taskID <= 64 -> Trace.voiceCalls t = [])
  /\ Ev.count Obs.isStreamClose t = Ev.count Obs.isOpened t
  /\ (Ev.count Obs.isOpened t <= 1)%nat
  /\ Obs.polled false t.

(** A run that stopped at a failed classification call. *)
Definition classificationFailed (cause : error) (o : Outcome (option error))
    (t : list Event) : Prop :=
  o = Done (Some (Errorf_w "intent detection failed: "
                    (Errorf_w "intent detection failed: " cause)))
  /\ Trace.artifacts t = []
  /\ Trace.modelCalls t = 1%nat
  /\ Trace.voiceCalls t = [].

(** Further runs, in which a collaborator fails. *)
Module Faults.

(** The model backend refuses every call. *)
Definition modelDown (streaming : bool) : Env :=
  Sample.withChat (Sample.env streaming "XiaoMei" ["Hel"; "lo"])
    (fun _ _ => inr Sample.transport)
    (fun _ _ => inr Sample.transport).


End Faults.

(** One update to canceled for each poll of the context that returned an
    error. *)
Definition cancellations (t : list Event)
  : list (protocol.TaskState * option protocol.Message) :=
  omap (fun r => match r with Some _ => Some canceled | None => None end) (Obs.polls t).


(** The states the task is set to, in order. *)
Definition states (tr : list Event) : list protocol.TaskState :=
  omap (fun e => match e with EvUpdateStatus s _ _ => Some s | _ => None end) tr.

(** What the handle returned to the updates to completed. *)
Definition completions (tr : list Event) : list (option error) :=
  omap (fun e => match e with
                 | EvUpdateStatus protocol.TaskStateCompleted _ r => Some r
                 | _ => None
                 end) tr.

(** A sequence of states after its leading updates to working. *)
Fixpoint ending (l : list protocol.TaskState) : list protocol.TaskState :=
  match l with
  | protocol.TaskStateWorking :: l' => ending l'
  | _ => l
  end.

(** The endings of the runs of [Process]. *)
Definition endings : list (list protocol.TaskState) :=
  [ [];
    [protocol.TaskStateFailed];
    [protocol.TaskStateCompleted];
    [protocol.TaskStateCompleted; protocol.TaskStateFailed];
    [protocol.TaskStateCanceled; protocol.TaskStateFailed] ].

(** How a run that returned [e] reported it. *)
Definition reportedAs (e : error) (t : list Event) : Prop :=
  (exists text,
     last (Trace.statuses t)
     = Some (protocol.TaskStateFailed,
             Some (protocol.NewMessage protocol.MessageRoleAgent [protocol.TextPart text]))
     /\ (text = Error e \/ text = "Failed to process with OpenAI: " +:+ Error e))
  \/ (exists m, Obs.updates t = [(protocol.TaskStateWorking, m, Some e)])
  \/ (EvIsStreamingRequest false ∈ t
      /\ exists m cause,
           last (Obs.updates t) = Some (protocol.TaskStateCompleted, m, Some cause)
           /\ e = Errorf_w "failed to update final task status: " cause).

(** Every artifact appended in [tr] names the model and the mode
    [streaming], and carries as its time stamp the reading of the clock made
    right before the append.  [prev] is that reading when the event before
    [tr] was one. *)
Fixpoint stamped (env : Env) (streaming : bool) (prev : option Z) (tr : list Event)
  : Prop :=
  match tr with
  | [] => True
  | e :: tr' =>
      match e with
      | EvAddArtifact a _ =>
          Obs.meta "is_streaming" a = Some (VBool streaming)
          /\ Obs.meta "model" a = Some (VString (openaiModel env))
          /\ exists now, prev = Some now /\ Obs.meta "timestamp" a = Some (VInt now)
      | _ => True
      end
      /\ stamped env streaming (match e with EvTimeNow now => Some now | _ => None end) tr'
  end.

(** The errors the collaborators returned to calls whose error the pipeline
    may return: the model backend, the stream, the context and the status
    updates. *)
Definition failures (tr : list Event) : list error :=
  omap (fun e => match e with
                 | EvCreateChatCompletion _ (inr err) => Some err
                 | EvCreateChatCompletionStream _ (Some err) => Some err
                 | EvRecv (inr err) => Some err
                 | EvCtxErr (Some err) => Some err
                 | EvUpdateStatus _ _ (Some err) => Some err
                 | _ => None
                 end) tr.

(** The errors [errors.Unwrap] reaches from [e], [e] first. *)
Fixpoint chain (e : error) : list error :=
  e :: match e with
       | wrapError _ e' => chain e'
       | _ => []
       end.

(** [e] wraps [cause] and its text ends with the text of [cause]. *)
Definition wraps (e cause : error) : Prop :=
  cause ∈ chain e /\ exists prefix, Error e = prefix +:+ Error cause.

(** The error [e] comes from a failure of a collaborator in [t]. *)
Definition caused (e : error) (t : list Event) : Prop :=
  exists cause, cause ∈ failures t /\ wraps e cause.

(** A run ended by indexing the empty list of choices of the response it
    had just got: the response to the classification, its only call on the
    model backend, or a frame of the stream, after which only the deferred
    close of the stream ran. *)
Definition unwound (t : list Event) : Prop :=
  (exists req resp,
     [EvCreateChatCompletion req (inl resp)] `suffix_of` t
     /\ openai.Choices resp = []
     /\ Trace.modelCalls t = 1%nat)
  \/ (exists response,
        [EvRecv (inl response); EvStreamClose] `suffix_of` t
        /\ openai.StreamChoices response = []).

(** ** The environment variables

    [strconv.Atoi] reads an optional sign and decimal digits; it fails with
    a syntax error on anything else and with a range error, and the nearest
    bound as value, when the number does not fit an [int]. *)

Module strconv.

Inductive NumError : Type := ErrSyntax | ErrRange.

Definition digit (c : ascii) : option Z :=
  let n := Z.of_N (N_of_ascii c) in
  if (48 <=? n) && (n <=? 57) then Some (n - 48) else None.

Fixpoint digits (acc : Z) (s : string) : option Z :=
  match s with
  | EmptyString => Some acc
  | String c s' =>
      match digit c with
      | Some d => digits (acc * 10 + d) s'
      | None => None
      end
  end.

Definition Atoi (s : string) : Z * option NumError :=
  match s with
  | EmptyString => (0, Some ErrSyntax)
  | String c rest =>
      let neg := bool_decide (c = "-"%char) in
      let body := if neg || bool_decide (c = "+"%char) then rest else s in
      match body with
      | EmptyString => (0, Some ErrSyntax)
      | _ =>
          match digits 0 body with
          | None => (0, Some ErrSyntax)
          | Some n =>
              if neg
              then if n >? - GoInt.min_int
                   then (GoInt.min_int, Some ErrRange)
                   else (- n, None)
              else if n >? GoInt.max_int
                   then (GoInt.max_int, Some ErrRange)
                   else (n, None)
          end
      end
  end.

End strconv.

(** [getenv] is [os.Getenv]: the value of a variable, empty when it is not
    set. *)
Definition getEnvOrDefault (getenv : string -> string) (key defaultValue : string)
  : string :=
  let value := getenv key in
  if decide (value <> "") then value else defaultValue.

Definition getEnvIntOrDefault (getenv : string -> string) (key : string)
    (defaultValue : Z) : Z :=
  let value := getenv key in
  if decide (value <> "")
  then
    match strconv.Atoi value with
    | (intValue, None) => intValue
    | (_, Some _) => defaultValue
    end
  else defaultValue.

(** The status updates of a non-streaming run that succeeds. *)
Definition nonStreamingStatuses : list (protocol.TaskState * option protocol.Message) :=
  [ (protocol.TaskStateWorking,
     Some (protocol.NewMessage protocol.MessageRoleAgent
             [protocol.TextPart "Processing your text with OpenAI..."]));
    (protocol.TaskStateCompleted,
     Some (protocol.NewMessage protocol.MessageRoleAgent
             [protocol.TextPart "Processing complete. OpenAI response received."])) ].

(** An artifact of a stream is named after its index, and its metadata
    carry the index, or for the closing artifact the number of chunks. *)
Definition numbered (a : artifact.Artifact) : Prop :=
  artifact.Name a = Some ("Chunk " +:+ Strings.itoa (artifact.Index a + 1))
  /\ match artifact.LastChunk a with
     | None => Obs.meta "chunk_index" a = Some (VInt (artifact.Index a))
     | Some _ => Obs.meta "total_chunks" a = Some (VInt (artifact.Index a + 1))
     end.



(** * Properties *)

(** ** Go's [int] and strings *)

Lemma GoInt_wrap_small z : GoInt.min_int <= z <= GoInt.max_int -> GoInt.wrap z = z.
Proof.
  unfold GoInt.wrap, GoInt.min_int, GoInt.max_int. intros Hz.
  rewrite Z.mod_small; lia.
Qed.

Lemma GoInt_add_small a b :
  GoInt.min_int <= a + b <= GoInt.max_int -> GoInt.add a b = a + b.
Proof. apply GoInt_wrap_small. Qed.

Lemma GoInt_sub_small a b :
  GoInt.min_int <= a - b <= GoInt.max_int -> GoInt.sub a b = a - b.
Proof. apply GoInt_wrap_small. Qed.

Example TrimSpace_ex1 :
  Strings.TrimSpace (" " +:+ String (ascii_of_nat 10) "XiaoMei  ") = "XiaoMei".
Proof. reflexivity. Qed.

Example TrimSpace_ex2 :
  Strings.TrimSpace
    (String (ascii_of_nat 226) (String (ascii_of_nat 128) (String (ascii_of_nat 131)
      ("XiaoShuai" +:+ String (ascii_of_nat 194) (String (ascii_of_nat 160) "")))))
  = "XiaoShuai".
Proof. reflexivity. Qed.

Example TrimSpace_ex3 : Strings.TrimSpace "Xiao Mei" = "Xiao Mei".
Proof. reflexivity. Qed.

Example itoa_ex : Strings.itoa 12 = "12" /\ Strings.itoa 0 = "0" /\ Strings.itoa (-3) = "-3".
Proof. repeat split; vm_compute; reflexivity. Qed.

(** ** Rules of the weakest precondition *)

Lemma wp_elim {A} (m : M A) h Q o tr : wp m h Q -> m h = (o, tr) -> Q o tr.
Proof. unfold wp. intros HQ Hm. rewrite Hm in HQ. exact HQ. Qed.

Lemma wp_mono {A} (m : M A) h (P Q : Outcome A -> list Event -> Prop) :
  wp m h P -> (forall o t, P o t -> Q o t) -> wp m h Q.
Proof. unfold wp. auto. Qed.

Lemma wp_and {A} (m : M A) h (P Q : Outcome A -> list Event -> Prop) :
  wp m h P -> wp m h Q -> wp m h (fun o t => P o t /\ Q o t).
Proof. unfold wp. auto. Qed.

Lemma wp_ret {A} (a : A) h Q : Q (Done a) [] -> wp (ret a) h Q.
Proof. exact id. Qed.

Lemma wp_panic {A} msg h (Q : Outcome A -> list Event -> Prop) :
  Q (Panic msg) [] -> wp (panic msg) h Q.
Proof. exact id. Qed.

Lemma wp_call {A} (f : list Event -> A) ev h Q :
  Q (Done (f h)) [ev (f h)] -> wp (call f ev) h Q.
Proof. exact id. Qed.

Lemma wp_call_any {A} (f : list Event -> A) ev h (Q : Outcome A -> list Event -> Prop) :
  (forall r, Q (Done r) [ev r]) -> wp (call f ev) h Q.
Proof. intros HQ. apply HQ. Qed.

Lemma wp_bind {A B} (m : M A) (f : A -> M B) h Q :
  wp m h (fun o t1 =>
            match o with
            | Done a => wp (f a) (h ++ t1) (fun o2 t2 => Q o2 (t1 ++ t2))
            | Panic msg => Q (Panic msg) t1
            end) ->
  wp (bind m f) h Q.
Proof.
  unfold wp, bind. destruct (m h) as [[a|msg] t1]; simpl; [|auto].
  destruct (f a (h ++ t1)) as [o2 t2]; simpl. auto.
Qed.

Lemma wp_defer {A} (d : M ()) (m : M A) h Q :
  wp m h (fun o t1 => wp d (h ++ t1) (fun _ t2 => Q o (t1 ++ t2))) ->
  wp (defer d m) h Q.
Proof.
  unfold wp, defer. destruct (m h) as [o t1]; simpl.
  destruct (d (h ++ t1)) as [o2 t2]; simpl. auto.
Qed.

(** Evaluates the decidable tests on closed terms. *)
Ltac bd_compute :=
  repeat match goal with
    | |- context [bool_decide ?P] =>
        let b := eval vm_compute in (bool_decide P) in
        lazymatch b with
        | true => change (bool_decide P) with true
        | false => change (bool_decide P) with false
        end
    end.

(** One step of symbolic execution. *)
Ltac wp_prim :=
  unfold logPrintf, emit, IsStreamingRequest, UpdateStatus, AddArtifact,
    CreateChatCompletion, CreateChatCompletionStream, ctxErr, timeNow.

Ltac wp_step :=
  lazymatch goal with
  | |- wp (ret _) _ _ => apply wp_ret
  | |- wp (panic _) _ _ => apply wp_panic
  | |- wp (call _ _) _ _ => apply wp_call
  | |- wp (bind _ _) _ _ => apply wp_bind
  | |- wp (defer _ _) _ _ => apply wp_defer
  | |- wp (match decide ?P with _ => _ end) _ _ =>
      destruct (decide P); [try congruence | try congruence]
  | |- wp (match ?x with _ => _ end) _ _ => destruct x eqn:?
  | |- wp (logPrintf _ _) _ _ => wp_prim
  | |- wp (emit _) _ _ => wp_prim
  | |- wp IsStreamingRequest _ _ => wp_prim
  | |- wp (UpdateStatus _ _ _) _ _ => wp_prim
  | |- wp (AddArtifact _ _) _ _ => wp_prim
  | |- wp (CreateChatCompletion _ _) _ _ => wp_prim
  | |- wp (CreateChatCompletionStream _ _) _ _ => wp_prim
  | |- wp (ctxErr _) _ _ => wp_prim
  | |- wp (timeNow _) _ _ => wp_prim
  end; cbv beta iota zeta; bd_compute; cbv iota.

Ltac wp_run := repeat wp_step.

(** The same, with what the collaborators return left abstract. *)
Ltac wp_step_abs :=
  lazymatch goal with
  | |- wp (call _ _) _ _ =>
      let r := fresh "r" in
      apply wp_call_any; intros r; cbv beta iota zeta;
      lazymatch type of r with
      | unit => destruct r
      | _ => idtac
      end
  | _ => wp_step
  end.

Ltac wp_run_abs := repeat wp_step_abs.

(** Rewrites the tests a trace observer makes with what is known of them. *)
Ltac use_eqns :=
  repeat match goal with
    | H : openai.StreamChoices _ = _ |- _ => rewrite !H
    | H : openai.Choices _ = _ |- _ => rewrite !H
    | H : ?c = "" |- context [decide (?c = "")] =>
        rewrite (decide_True (P := c = "")) by exact H
    | H : ?c <> "" |- context [decide (?c = "")] =>
        rewrite (decide_False (P := c = "")) by exact H
    end.

Lemma wp_outcome_trace {A} (m : M A) h Q : wp m h Q <-> Q (outcome m h) (trace m h).
Proof. reflexivity. Qed.

(** ** Text extraction and validation *)

Lemma extractTextParts_no_text parts :
  (forall text, protocol.TextPart text ∉ parts) -> extractTextParts parts = "".
Proof.
  induction parts as [|p parts IH]; intros Hno; [reflexivity|].
  destruct p as [text|kind]; simpl.
  - exfalso. apply (Hno text). left.
  - apply IH. intros text Hin. apply (Hno text). right. exact Hin.
Qed.

Lemma extractTextParts_first pre text post :
  (forall t, protocol.TextPart t ∉ pre) ->
  extractTextParts (pre ++ protocol.TextPart text :: post) = text.
Proof.
  induction pre as [|p pre IH]; intros Hno; [reflexivity|].
  destruct p as [t|kind]; simpl.
  - exfalso. apply (Hno t). left.
  - apply IH. intros t Hin. apply (Hno t). right. exact Hin.
Qed.

Lemma Process_empty_text env taskID message h :
  extractText message = "" ->
  wp (Process env taskID message) h validationFailure.
Proof.
  intros Hempty. unfold Process. rewrite Hempty.
  wp_run. repeat split.
Qed.

(** ** Intent detection *)

Ltac case_intent c :=
  unfold resolvedIntent, voiceTypeOf;
  destruct (decide (Strings.TrimSpace c = "XiaoMei")) as [->|?];
  [ | destruct (decide (Strings.TrimSpace c = "XiaoShuai")) as [->|?];
      [ | rewrite !(bool_decide_eq_true_2 (Strings.TrimSpace c <> _)) by assumption ] ];
  bd_compute; cbn [andb].

Ltac wp_voice :=
  unfold UpdateAIConversationXiaoMei, UpdateAIConversationXiaoShuai, UpdateAIConversation.

Lemma resolvedIntent_cases content :
  resolvedIntent content = "XiaoMei" \/ resolvedIntent content = "XiaoShuai".
Proof. case_intent content; auto. Qed.

Lemma resolvedIntent_default content :
  Strings.TrimSpace content <> "XiaoMei" ->
  Strings.TrimSpace content <> "XiaoShuai" ->
  resolvedIntent content = "XiaoMei".
Proof.
  intros H1 H2. unfold resolvedIntent.
  rewrite !bool_decide_eq_true_2 by assumption. reflexivity.
Qed.

Lemma detectIntent_frame env text taskID h :
  wp (detectIntent env text taskID) h (fun o tr =>
    o = detectIntentOutcome env text h
    /\ Trace.chatCalls tr = [(intentRequest env text, classified env text h)]
    /\ Trace.artifacts tr = []
    /\ Trace.statuses tr = []
    /\ Trace.received tr = []
    /\ Trace.increments tr = []
    /\ Trace.failuresLogged tr).
Proof.
  unfold detectIntent, detectIntentOutcome, classified.
  wp_step. wp_step. wp_step.
  destruct (openai_CreateChatCompletion env _ _) as [resp|err]; cbv iota;
    [destruct (openai.Choices resp) as [|choice rest]; cbv iota|].
  2: case_intent (openai.Content (openai.Message choice)).
  all: wp_run; wp_voice; wp_run.
  all: simpl; tauto.
Qed.


(** ** The streaming receive loop *)

Ltac not_elem :=
  repeat (apply not_elem_of_cons; split; [congruence|]);
  first [apply not_elem_of_nil | assumption].

(** When the loop is left by [break], the stream has ended with [io.EOF],
    each increment was announced by a progress update and, as long as the
    counter does not overflow, each increment has its content artifact. *)
Lemma recvLoop_break env taskID final startTime frames :
  forall chunkIndex fullResponse first h,
  wp (recvLoop env taskID frames final startTime chunkIndex fullResponse first) h
    (fun o t =>
       match o with
       | Done (Break chunkIndex' _) =>
           inr io_EOF ∈ Trace.received t
           /\ Trace.statuses t = Trace.progress <$> Trace.increments t
           /\ (0 <= chunkIndex ->
               chunkIndex + Z.of_nat (length (Trace.increments t)) <= GoInt.max_int ->
               chunkIndex' = chunkIndex + Z.of_nat (length (Trace.increments t))
               /\ Trace.shape <$> Trace.artifacts t
                  = Trace.shapesFrom chunkIndex (Trace.increments t))
       | _ => inr io_EOF ∉ Trace.received t
       end).
Proof.
  induction frames as [|response rest IH]; intros chunkIndex fullResponse first h;
    simpl recvLoop; wp_run_abs.
  all: try (eapply wp_mono; [apply IH|]; intros [[chunkIndex' fullResponse'|err]|msg] t).
  all: simpl; use_eqns; simpl; try (subst final).
  all: lazymatch goal with
       | |- _ ∉ _ => not_elem
       | |- _ ∉ _ -> _ ∉ _ => intros ?; not_elem
       | |- _ /\ _ -> _ =>
           intros (Hin & Hst & Hix);
           split; [right; exact Hin|];
           split; [first [exact Hst | rewrite Hst; reflexivity]|];
           intros Hge Hle;
           first
             [ exact (Hix Hge Hle)
             | rewrite GoInt_add_small in Hix
                 by (unfold GoInt.min_int, GoInt.max_int in *; lia);
               destruct Hix as [-> Hsh]; [lia|lia|];
               split; [lia|]; f_equal; exact Hsh ]
       | |- _ => split; [left|split; [reflexivity|intros; split; [lia|reflexivity]]]
       end.
Qed.

(** ** Observers of a trace distribute over its parts *)

Lemma artifacts_app t1 t2 :
  Trace.artifacts (t1 ++ t2) = Trace.artifacts t1 ++ Trace.artifacts t2.
Proof. apply omap_app. Qed.
Lemma statuses_app t1 t2 :
  Trace.statuses (t1 ++ t2) = Trace.statuses t1 ++ Trace.statuses t2.
Proof. apply omap_app. Qed.
Lemma received_app t1 t2 :
  Trace.received (t1 ++ t2) = Trace.received t1 ++ Trace.received t2.
Proof. apply omap_app. Qed.
Lemma increments_app t1 t2 :
  Trace.increments (t1 ++ t2) = Trace.increments t1 ++ Trace.increments t2.
Proof. apply omap_app. Qed.
Lemma chatCalls_app t1 t2 :
  Trace.chatCalls (t1 ++ t2) = Trace.chatCalls t1 ++ Trace.chatCalls t2.
Proof. apply omap_app. Qed.
Lemma calls_app t1 t2 :
  Trace.calls (t1 ++ t2) = Trace.calls t1 ++ Trace.calls t2.
Proof. apply omap_app. Qed.

Ltac trace_simpl :=
  repeat (progress (simpl;
    rewrite ?artifacts_app, ?statuses_app, ?received_app, ?increments_app,
      ?chatCalls_app, ?calls_app, ?app_nil_r)).

(** ** The streaming path *)

(** A stream that ends with [io.EOF] gets its content artifacts, its closing
    artifact when it had increments, and the update to completed. *)
Lemma processWithOpenAIStreaming_eof env taskID text h :
  wp (processWithOpenAIStreaming env taskID text) h (fun o t =>
    let n := length (Trace.increments t) in
    (o = Done None -> inr io_EOF ∈ Trace.received t)
    /\ (inr io_EOF ∈ Trace.received t ->
        Z.of_nat n <= GoInt.max_int ->
        Trace.statuses t
        = (Trace.progress <$> Trace.increments t)
          ++ [(protocol.TaskStateCompleted, Some (completeMessage n))]
        /\ Trace.shape <$> Trace.artifacts t
           = Trace.shapesFrom 0 (Trace.increments t) ++ closing n)).
Proof.
  unfold processWithOpenAIStreaming. wp_step.
  eapply wp_mono; [apply detectIntent_frame|].
  intros o t (_ & _ & Ha & Hs & Hr & Hi & _).
  destruct o as [[intent [err|]]|msg]; wp_run_abs.
  all: lazymatch goal with
       | |- wp (recvLoop _ _ _ _ _ _ _ _) _ _ =>
           eapply wp_mono; [apply recvLoop_break|];
           intros [[chunkIndex fullResponse|err']|msg'] t2 Hloop; wp_run_abs
       | |- _ => idtac
       end.
  all: trace_simpl; rewrite ?Ha, ?Hs, ?Hr, ?Hi; trace_simpl.
  all: lazymatch goal with
       | Hloop : _ /\ _ |- _ =>
           destruct Hloop as (Hin & Hst & Hix);
           split; [intros _; exact Hin|];
           intros _ Hle; destruct Hix as [-> Hsh]; [lia|lia|];
           rewrite ?fmap_app, Hst, Hsh; rewrite Z.add_0_l in *;
           split; [reflexivity|];
           match goal with
           | H : (_ >? _) = _ |- _ =>
               rewrite Z.gtb_ltb in H;
               first [apply Z.ltb_lt in H | apply Z.ltb_ge in H]
           end;
           destruct (length (Trace.increments t2)) as [|n] eqn:Hn;
           [ first [lia | rewrite ?app_nil_r; reflexivity]
           | first
               [ lia
               | f_equal; unfold closing, Trace.closingShape, Trace.shape; simpl;
                 rewrite GoInt_sub_small
                   by (unfold GoInt.min_int, GoInt.max_int in *; lia);
                 reflexivity ] ]
       | Hloop : _ ∉ _ |- _ =>
           split; [discriminate|]; intros Hin; exfalso; exact (Hloop Hin)
       | |- _ =>
           split; [discriminate|]; intros Hin; apply elem_of_nil in Hin; destruct Hin
       end.
Qed.

(** ** The non-streaming path *)

Lemma processNonStreaming_spec env taskID text h :
  wp (processNonStreaming env taskID text) h (fun o t =>
    Trace.received t = []
    /\ forall req resp,
         Trace.chatCalls t !! 1%nat = Some (req, inl resp) ->
         nonStreamingResult resp o t).
Proof.
  unfold processNonStreaming. wp_run_abs.
  2: { unfold processWithOpenAINonStreaming. wp_step.
       eapply wp_mono; [apply detectIntent_frame|].
       intros o t (_ & Hc & Ha & Hs & Hr & _).
       destruct o as [[intent [err|]]|msg]; wp_run_abs.
       all: trace_simpl; rewrite ?Ha, ?Hs, ?Hr, ?Hc; trace_simpl.
       all: (split; [reflexivity|]); intros req resp Hcall; try discriminate.
       all: injection Hcall as <- ->; unfold nonStreamingResult; use_eqns.
       all: trace_simpl; rewrite ?Ha, ?Hs; trace_simpl.
       all: repeat split; reflexivity. }
  trace_simpl. split; [reflexivity|]. intros req resp Hcall. discriminate.
Qed.

Lemma recvLoop_chatCalls env taskID final startTime frames :
  forall chunkIndex fullResponse first h,
  wp (recvLoop env taskID frames final startTime chunkIndex fullResponse first) h
    (fun _ t => Trace.chatCalls t = []).
Proof.
  induction frames as [|response rest IH]; intros chunkIndex fullResponse first h;
    simpl recvLoop; wp_run_abs.
  all: try (eapply wp_mono; [apply IH|]; intros o t Ht).
  all: trace_simpl; auto.
Qed.

Lemma processWithOpenAIStreaming_chatCalls env taskID text h :
  wp (processWithOpenAIStreaming env taskID text) h
    (fun _ t => length (Trace.chatCalls t) = 1%nat).
Proof.
  unfold processWithOpenAIStreaming. wp_step.
  eapply wp_mono; [apply detectIntent_frame|].
  intros o t (_ & Hc & _).
  destruct o as [[intent [err|]]|msg]; wp_run_abs.
  all: lazymatch goal with
       | |- wp (recvLoop _ _ _ _ _ _ _ _) _ _ =>
           eapply wp_mono; [apply recvLoop_chatCalls|];
           intros [[chunkIndex fullResponse|err']|msg'] t2 Hloop; wp_run_abs
       | |- _ => idtac
       end.
  all: trace_simpl; rewrite ?Hc, ?Hloop; reflexivity.
Qed.

(** ** The pipeline *)

Lemma Process_nonStreamingResult env taskID message h :
  wp (Process env taskID message) h (fun o t =>
    forall req resp,
      Trace.chatCalls t !! 1%nat = Some (req, inl resp) ->
      nonStreamingResult resp o t).
Proof.
  unfold Process. wp_run_abs.
  - simpl. discriminate.
  - eapply wp_mono; [apply processNonStreaming_spec|].
    intros o t [_ Hres]. trace_simpl. exact Hres.
  - simpl. discriminate.
  - eapply wp_mono; [apply processWithOpenAIStreaming_chatCalls|].
    intros o t Hlen. cbv beta in Hlen.
    destruct (Trace.chatCalls t) as [|c [|c' l]] eqn:Hc; try discriminate.
    destruct o as [[err|]|msg]; wp_run_abs; trace_simpl.
    all: rewrite Hc; simpl; discriminate.
Qed.

Lemma Process_eof env taskID message h :
  wp (Process env taskID message) h (fun o t =>
    let n := length (Trace.increments t) in
    (handle_IsStreamingRequest env = true -> o = Done None ->
     inr io_EOF ∈ Trace.received t)
    /\ (inr io_EOF ∈ Trace.received t ->
        Z.of_nat n <= GoInt.max_int ->
        Trace.shape <$> Trace.artifacts t
        = Trace.shapesFrom 0 (Trace.increments t) ++ closing n
        /\ exists rest,
             Trace.statuses t
             = (protocol.TaskStateWorking, Some startingMessage)
               :: (Trace.progress <$> Trace.increments t)
               ++ (protocol.TaskStateCompleted, Some (completeMessage n)) :: rest
             /\ (o = Done None -> rest = []))).
Proof.
  unfold Process. wp_run.
  4: { eapply wp_mono; [apply processWithOpenAIStreaming_eof|].
       intros o t [Hnil Heof].
       destruct o as [[err|]|msg]; wp_run; trace_simpl.
       all: split; [intros _ Ho; first [discriminate | exact (Hnil eq_refl)]|].
       all: intros Hin Hle; destruct (Heof Hin Hle) as [Hst Hsh].
       all: split; [exact Hsh|]; rewrite Hst.
       all: eexists; split; [rewrite <- ?app_assoc; reflexivity|].
       all: intros Ho; first [discriminate Ho | reflexivity]. }
  - trace_simpl. split; [discriminate|]. intros Hin. apply elem_of_nil in Hin as [].
  - eapply wp_mono; [apply processNonStreaming_spec|].
    intros o t [Hr _]. trace_simpl. rewrite Hr.
    split; [intros Hs; rewrite Hs in *; discriminate|].
    intros Hin. apply elem_of_nil in Hin as [].
  - trace_simpl. split; [discriminate|]. intros Hin. apply elem_of_nil in Hin as [].
Qed.

Lemma gtb_of_nat (k : nat) : (Z.of_nat k >? 0) = bool_decide (0 < k)%nat.
Proof.
  destruct k; [reflexivity|].
  rewrite bool_decide_eq_true_2 by lia. reflexivity.
Qed.

Lemma shapesFrom_imap contents : forall k : nat,
  Trace.shapesFrom (Z.of_nat k) contents
  = imap (fun i => Trace.contentShape (k + i)) contents.
Proof.
  induction contents as [|c cs IH]; intros k; [reflexivity|].
  simpl. f_equal.
  - unfold Trace.contentShape. rewrite Nat.add_0_r, gtb_of_nat. reflexivity.
  - replace (Z.of_nat k + 1) with (Z.of_nat (S k)) by lia.
    rewrite IH. apply imap_ext. intros i x _. simpl. f_equal. lia.
Qed.

(** ** Absence of panics *)

Lemma noPanic_Done {A} (a : A) : noPanic (Done a).
Proof. intros msg. discriminate. Qed.

Lemma detectIntent_noPanic env text taskID h :
  classificationsHaveChoices env ->
  noPanic (outcome (detectIntent env text taskID) h).
Proof.
  intros Hsafe. destruct (detectIntent_frame env text taskID h) as [Ho _].
  unfold outcome. rewrite Ho. unfold detectIntentOutcome, classified.
  destruct (openai_CreateChatCompletion env _ _) as [resp|err] eqn:Hresp;
    [|apply noPanic_Done].
  destruct (openai.Choices resp) as [|choice rest] eqn:Hchoices; [|apply noPanic_Done].
  exfalso. exact (Hsafe _ _ _ Hresp Hchoices).
Qed.

Lemma recvLoop_noPanic env taskID final startTime frames :
  Forall (fun response => openai.StreamChoices response <> []) frames ->
  forall chunkIndex fullResponse first h,
  wp (recvLoop env taskID frames final startTime chunkIndex fullResponse first) h
    (fun o _ => noPanic o).
Proof.
  induction 1 as [|response rest Hresponse Hrest IH];
    intros chunkIndex fullResponse first h; simpl recvLoop; wp_run_abs.
  all: try (eapply wp_mono; [apply IH|]; intros o t Ho; exact Ho).
  all: try apply noPanic_Done.
  all: contradiction.
Qed.

Lemma processWithOpenAIStreaming_noPanic env taskID text h :
  classificationsHaveChoices env -> framesHaveChoices env ->
  wp (processWithOpenAIStreaming env taskID text) h (fun o _ => noPanic o).
Proof.
  intros Hclass Hframes. unfold processWithOpenAIStreaming. wp_step.
  pose proof (detectIntent_noPanic env text taskID h Hclass) as Hd.
  unfold outcome in Hd. unfold wp at 1.
  destruct (detectIntent env text taskID h) as [[[intent [err|]]|msg] t]; simpl in *;
    [| |exfalso; exact (Hd msg eq_refl)].
  all: wp_run.
  all: lazymatch goal with
       | |- wp (recvLoop _ _ _ _ _ _ _ _) _ _ =>
           eapply wp_mono;
           [apply recvLoop_noPanic; eapply Hframes; eassumption|];
           intros [[chunkIndex fullResponse|err']|msg'] t2 Hloop; wp_run_abs
       | |- _ => idtac
       end.
  all: try apply noPanic_Done.
  all: exfalso; exact (Hloop _ eq_refl).
Qed.

Lemma processNonStreaming_noPanic env taskID text h :
  classificationsHaveChoices env ->
  wp (processNonStreaming env taskID text) h (fun o _ => noPanic o).
Proof.
  intros Hclass. unfold processNonStreaming. wp_run_abs; [apply noPanic_Done|].
  unfold processWithOpenAINonStreaming. wp_step.
  match goal with |- wp (detectIntent _ _ _) ?h' _ =>
    pose proof (detectIntent_noPanic env text taskID h' Hclass) as Hd;
    unfold outcome in Hd; unfold wp at 1;
    destruct (detectIntent env text taskID h') as [[[intent [err|]]|msg] t]; simpl in *;
    [| |exfalso; exact (Hd msg eq_refl)]
  end.
  all: wp_run_abs; apply noPanic_Done.
Qed.

Lemma Process_noPanic env taskID message h :
  classificationsHaveChoices env -> framesHaveChoices env ->
  wp (Process env taskID message) h (fun o _ => noPanic o).
Proof.
  intros Hclass Hframes. unfold Process. wp_run_abs.
  all: try apply noPanic_Done.
  - eapply wp_mono; [apply processNonStreaming_noPanic; assumption|].
    intros o t Ho. exact Ho.
  - eapply wp_mono; [apply processWithOpenAIStreaming_noPanic; assumption|].
    intros [[err|]|msg] t Ho; wp_run_abs; try apply noPanic_Done.
    exact Ho.
Qed.

(** ** Cancellation *)

Ltac elem_cases H :=
  repeat (apply elem_of_cons in H as [H|H]; [discriminate H|]);
  try (apply elem_of_nil in H; destruct H).

(** The loop sets the task to canceled only when it returns the context's
    error. *)
Lemma recvLoop_canceled env taskID final startTime frames :
  forall chunkIndex fullResponse first h,
  wp (recvLoop env taskID frames final startTime chunkIndex fullResponse first) h
    (fun o t =>
       canceled ∈ Trace.statuses t ->
       exists err, o = Done (Return err) /\ last (Trace.statuses t) = Some canceled).
Proof.
  induction frames as [|response rest IH]; intros chunkIndex fullResponse first h;
    simpl recvLoop; wp_run_abs.
  all: try (eapply wp_mono; [apply IH|]; intros o t Ht).
  all: trace_simpl; intros Hin.
  all: try (elem_cases Hin; fail).
  all: try (eexists; split; reflexivity).
  all: try (apply elem_of_cons in Hin as [Hin|Hin]; [discriminate Hin|]).
  all: destruct (Ht Hin) as (err & -> & Hlast); exists err; split; [reflexivity|].
  all: try exact Hlast.
  all: destruct (Trace.statuses t); [discriminate Hlast|exact Hlast].
Qed.

Lemma processWithOpenAIStreaming_canceled env taskID text h :
  wp (processWithOpenAIStreaming env taskID text) h
    (fun o t =>
       canceled ∈ Trace.statuses t ->
       exists err, o = Done (Some err) /\ last (Trace.statuses t) = Some canceled).
Proof.
  unfold processWithOpenAIStreaming. wp_step.
  eapply wp_mono; [apply detectIntent_frame|].
  intros o t (_ & _ & _ & Hs & _).
  destruct o as [[intent [err|]]|msg]; wp_run_abs.
  all: lazymatch goal with
       | |- wp (recvLoop _ _ _ _ _ _ _ _) _ _ =>
           eapply wp_mono; [apply recvLoop_canceled|];
           intros [[chunkIndex fullResponse|err']|msg'] t2 Hloop; wp_run_abs
       | |- _ => idtac
       end.
  all: trace_simpl; rewrite ?Hs; trace_simpl; intros Hin.
  all: try (elem_cases Hin; fail).
  all: try (apply elem_of_app in Hin as [Hin|Hin]; [|elem_cases Hin]).
  all: destruct (Hloop Hin) as (err & Heq & Hlast); try discriminate Heq.
  exists err'. split; [reflexivity|exact Hlast].
Qed.

Lemma processNonStreaming_statuses env taskID text h :
  wp (processNonStreaming env taskID text) h
    (fun _ t => canceled ∉ Trace.statuses t).
Proof.
  unfold processNonStreaming. wp_run_abs.
  2: { unfold processWithOpenAINonStreaming. wp_step.
       eapply wp_mono; [apply detectIntent_frame|].
       intros o t (_ & _ & _ & Hs & _).
       destruct o as [[intent [err|]]|msg]; wp_run_abs.
       all: trace_simpl; rewrite ?Hs; trace_simpl.
       all: intros Hin; elem_cases Hin. }
  trace_simpl. intros Hin; elem_cases Hin.
Qed.

(** Whenever the pipeline sets the task to canceled, it returns an error and
    its last status update sets the task to failed. *)
Lemma Process_canceled_then_failed env taskID message h :
  canceled ∈ Trace.statuses (trace (Process env taskID message) h) ->
  exists err,
    outcome (Process env taskID message) h = Done (Some err)
    /\ last (Trace.statuses (trace (Process env taskID message) h))
       = Some (protocol.TaskStateFailed, Some (failedToProcess err)).
Proof.
  apply (proj1 (wp_outcome_trace (Process env taskID message) h
    (fun o t => canceled ∈ Trace.statuses t ->
       exists err, o = Done (Some err)
         /\ last (Trace.statuses t)
            = Some (protocol.TaskStateFailed, Some (failedToProcess err))))).
  unfold Process. wp_run_abs.
  all: trace_simpl.
  all: try (intros Hin; elem_cases Hin; fail).
  - eapply wp_mono; [apply processNonStreaming_statuses|].
    intros o t Hno. trace_simpl. intros Hin. destruct (Hno Hin).
  - eapply wp_mono; [apply processWithOpenAIStreaming_canceled|].
    intros [[err|]|msg] t Hc; wp_run_abs; trace_simpl.
    all: intros Hin; apply elem_of_cons in Hin as [Hin|Hin]; [discriminate Hin|].
    all: try (apply elem_of_app in Hin as [Hin|Hin]; [|elem_cases Hin]).
    all: try (rewrite app_nil_r in Hin).
    all: destruct (Hc Hin) as (err0 & Heq & Hlast); try discriminate Heq.
    exists err. split; [reflexivity|].
    rewrite last_cons, last_snoc. reflexivity.
Qed.
(** ** Failures of the handle are logged *)

Lemma logged_nil : logged [].
Proof. split; exact I. Qed.

Lemma settled_app t1 t2 : settled t1 -> settled t2 -> settled (t1 ++ t2).
Proof.
  unfold settled. intros H1 H2.
  destruct t2 as [|e t2] using rev_ind; [rewrite app_nil_r; exact H1|].
  rewrite app_assoc, last_snoc. rewrite last_snoc in H2. exact H2.
Qed.

Lemma failuresLogged_app t1 t2 :
  Trace.failuresLogged t1 -> settled t1 -> Trace.failuresLogged t2 ->
  Trace.failuresLogged (t1 ++ t2).
Proof.
  induction t1 as [|e t1 IH]; intros H1 Hs H2; [exact H2|].
  destruct H1 as [He H1]. simpl. split.
  - destruct (Trace.reported e) as [err|] eqn:Hr; [|exact I].
    destruct t1 as [|e' t1]; [|exact He].
    unfold settled in Hs. simpl in Hs. congruence.
  - apply IH; [exact H1| |exact H2].
    unfold settled in *. destruct t1 as [|e' t1]; [exact I|].
    rewrite last_cons_cons in Hs. exact Hs.
Qed.

Lemma logged_app t1 t2 : logged t1 -> logged t2 -> logged (t1 ++ t2).
Proof.
  intros [H1 S1] [H2 S2]. split.
  - apply failuresLogged_app; assumption.
  - apply settled_app; assumption.
Qed.

Lemma logged_cons_quiet e t : Trace.reported e = None -> logged t -> logged (e :: t).
Proof.
  intros He Ht. apply (logged_app [e] t); [|exact Ht].
  split; [simpl; rewrite He; auto|]. unfold settled. simpl. exact He.
Qed.

Lemma logged_cons_failure e err format args t :
  Trace.reported e = Some err ->
  In (VError err) args ->
  logged (EvLog format args :: t) ->
  logged (e :: EvLog format args :: t).
Proof.
  intros He Hin [Hl Hs]. split.
  - split; [rewrite He; exact Hin|exact Hl].
  - unfold settled in *. rewrite last_cons_cons. exact Hs.
Qed.

Ltac logged :=
  rewrite <- ?app_assoc; simpl;
  repeat first
    [ apply logged_nil
    | assumption
    | apply logged_app; [assumption|]
    | eapply logged_cons_failure; [reflexivity | simpl; auto 10 | ]
    | apply logged_cons_quiet; [reflexivity|] ].






(** ** Runs that differ in what the handle returns *)

Lemma count_app p h1 h2 :
  Ev.count p (h1 ++ h2) = (Ev.count p h1 + Ev.count p h2)%nat.
Proof. induction h1 as [|e h1 IH]; simpl; [reflexivity | rewrite IH; lia]. Qed.



Ltac stable :=
  intros e; destruct e; simpl; try reflexivity;
  destruct (bool_decide _); reflexivity.

Lemma stable_isAddArtifact : stable Ev.isAddArtifact. Proof. stable. Qed.
















Section Handles.

Context (env : Env).
Context (us : nat -> protocol.TaskState -> option protocol.Message -> option error).
Context (aa : nat -> artifact.Artifact -> option error).













Hypothesis Hcompleted :
  forall n message,
    us n protocol.TaskStateCompleted message
    = handle_UpdateStatus env n protocol.TaskStateCompleted message.









Section First.

(** The handles agree on the first status update of the run when it is the
    update to working. *)
Context (k : nat).
Hypothesis Hfirst :
  forall m,
    us k protocol.TaskStateWorking m
    = handle_UpdateStatus env k protocol.TaskStateWorking m.



End First.

End Handles.


(** * The claims *)

(** C1.  A streaming run that succeeds and receives [N > 0] non-empty
    content increments appends, through the handle, one content artifact per
    increment, with the indices [0 .. N-1] in order, the append flag false on
    index [0] and true on the others, and then one closing artifact with
    [lastChunk = true], no parts and index [N-1]: [N + 1] artifacts in all.
    ([N] is below the range of Go's [int].) *)
Theorem C1_streaming_artifacts env taskID message h (N : nat) :
  handle_IsStreamingRequest env = true ->
  outcome (Process env taskID message) h = Done None ->
  length (Trace.increments (trace (Process env taskID message) h)) = N ->
  (0 < N)%nat ->
  Z.of_nat N <= GoInt.max_int ->
  Trace.shape <$> Trace.artifacts (trace (Process env taskID message) h)
  = imap Trace.contentShape (Trace.increments (trace (Process env taskID message) h))
    ++ [Trace.closingShape N]
  /\ length (Trace.artifacts (trace (Process env taskID message) h)) = (N + 1)%nat.
Proof.
  intros Hstreaming Hok HN Hpos Hmax.
  destruct (Process_eof env taskID message h) as [Heof Hres].
  specialize (Heof Hstreaming Hok).
  fold (trace (Process env taskID message) h) in Heof, Hres.
  rewrite HN in Hres. destruct (Hres Heof Hmax) as [Hsh _].
  rewrite (shapesFrom_imap _ 0) in Hsh. destruct N as [|n]; [lia|].
  split; [exact Hsh|].
  apply (f_equal length) in Hsh.
  rewrite length_fmap, length_app, length_imap, HN in Hsh. exact Hsh.
Qed.

Lemma C1_witness :
  let env := Sample.env true "XiaoMei" ["Hel"; ""; "lo"] in
  let t := trace (Process env Sample.shortID Sample.hello) [] in
  Trace.increments t = ["Hel"; "lo"]
  /\ Trace.shape <$> Trace.artifacts t
     = [Trace.contentShape 0 "Hel"; Trace.contentShape 1 "lo"; Trace.closingShape 2]
  /\ length (Trace.artifacts t) = 3%nat.
Proof.
  split; [vm_compute; reflexivity|].
  apply (C1_streaming_artifacts (Sample.env true "XiaoMei" ["Hel"; ""; "lo"])
           Sample.shortID Sample.hello [] 2).
  - reflexivity.
  - vm_compute; reflexivity.
  - vm_compute; reflexivity.
  - lia.
  - vm_compute; discriminate.
Defined.

(** C2.  The context is canceled after the first increment of a stream of
    two has been emitted and before the second is received.  The loop sets
    the task to canceled and appends nothing after the artifact of index 0;
    but [Process] then handles the returned error like any other and sets
    the task to failed: a failed status transition follows the
    cancellation. *)
Theorem C2_canceled_then_failed :
  outcome (Process Scenario.canceledMidStream Sample.shortID Sample.hello) []
  = Done (Some context_Canceled)
  /\ Trace.received (trace (Process Scenario.canceledMidStream Sample.shortID Sample.hello) [])
     = [inl (Sample.frame "Hel")]
  /\ Trace.shape
     <$> Trace.artifacts (trace (Process Scenario.canceledMidStream Sample.shortID Sample.hello) [])
     = [Trace.contentShape 0 "Hel"]
  /\ Trace.statuses (trace (Process Scenario.canceledMidStream Sample.shortID Sample.hello) [])
     = [ (protocol.TaskStateWorking, Some startingMessage);
         Trace.progress "Hel";
         (protocol.TaskStateCanceled, None);
         (protocol.TaskStateFailed,
          Some (protocol.NewMessage protocol.MessageRoleAgent
                  [protocol.TextPart "Failed to process with OpenAI: context canceled"])) ].
Proof. vm_compute. repeat split. Qed.

(** C3 is stated at the end of the file, after the lemmas on the status
    updates that it needs. *)

(** C4.  A message without a text part fails validation: the pipeline
    returns the validation error, its one status update sets the task to
    failed with a message that quotes the error, and the model backend is not
    called. *)
Theorem C4_no_text_part_fails_validation env taskID message h :
  (forall text, protocol.TextPart text ∉ protocol.Parts message) ->
  outcome (Process env taskID message) h
  = Done (Some (errorString "input message must contain text"))
  /\ Trace.statuses (trace (Process env taskID message) h)
     = [ (protocol.TaskStateFailed,
          Some (protocol.NewMessage protocol.MessageRoleAgent
                  [protocol.TextPart "input message must contain text"])) ]
  /\ Trace.modelCalls (trace (Process env taskID message) h) = 0%nat.
Proof.
  intros Hno. apply Process_empty_text.
  apply extractTextParts_no_text. exact Hno.
Qed.

Lemma C4_witness :
  let message :=
    protocol.NewMessage protocol.MessageRoleUser
      [protocol.OtherPart "file"; protocol.OtherPart "data"] in
  let env := Sample.env false "XiaoMei" [] in
  outcome (Process env Sample.shortID message) []
  = Done (Some (errorString "input message must contain text"))
  /\ Trace.modelCalls (trace (Process env Sample.shortID message) []) = 0%nat.
Proof.
  cbv zeta.
  destruct (C4_no_text_part_fails_validation (Sample.env false "XiaoMei" [])
              Sample.shortID
              (protocol.NewMessage protocol.MessageRoleUser
                 [protocol.OtherPart "file"; protocol.OtherPart "data"]) [])
    as (Ho & _ & Hcalls).
  - intros text Hin. simpl in Hin.
    apply elem_of_cons in Hin as [Hin|Hin]; [discriminate|].
    apply elem_of_cons in Hin as [Hin|Hin]; [discriminate|].
    apply elem_of_nil in Hin. exact Hin.
  - split; [exact Ho|exact Hcalls].
Defined.

(** C5.  When the classification call succeeds and the trimmed content of
    its first choice is neither ["XiaoMei"] nor ["XiaoShuai"], [detectIntent]
    returns the default persona ["XiaoMei"] and no error. *)
Theorem C5_unrecognised_answer_defaults env text taskID h resp choice rest :
  classified env text h = inl resp ->
  openai.Choices resp = choice :: rest ->
  Strings.TrimSpace (openai.Content (openai.Message choice)) <> "XiaoMei" ->
  Strings.TrimSpace (openai.Content (openai.Message choice)) <> "XiaoShuai" ->
  outcome (detectIntent env text taskID) h = Done ("XiaoMei", None).
Proof.
  intros Hresp Hchoices Hmei Hshuai.
  destruct (detectIntent_frame env text taskID h) as [Ho _].
  unfold outcome. rewrite Ho. unfold detectIntentOutcome.
  rewrite Hresp, Hchoices, resolvedIntent_default by assumption. reflexivity.
Qed.

Lemma C5_witness :
  outcome (detectIntent (Sample.env true " I think xiaomei. " []) "hello" Sample.shortID) []
  = Done ("XiaoMei", None).
Proof.
  apply (C5_unrecognised_answer_defaults _ _ _ _
           (Sample.answer " I think xiaomei. ") (Sample.choice " I think xiaomei. ") []).
  - reflexivity.
  - reflexivity.
  - vm_compute. discriminate.
  - vm_compute. discriminate.
Defined.



(** C7.  In a run whose second completion call (the generation call of the
    non-streaming path) returns a response: with at least one choice, exactly
    one artifact is appended, with [lastChunk = true], index 0 and the first
    choice's content as its only part; with no choice, the run returns the
    generation error, appends nothing and sets the task to failed. *)
Theorem C7_non_streaming_artifact env taskID message h req resp :
  Trace.chatCalls (trace (Process env taskID message) h) !! 1%nat
  = Some (req, inl resp) ->
  match openai.Choices resp with
  | choice :: _ =>
      Trace.shape <$> Trace.artifacts (trace (Process env taskID message) h)
      = [ {| Trace.index := 0;
             Trace.append := None;
             Trace.lastChunk := Some true;
             Trace.parts := [protocol.TextPart (openai.Content (openai.Message choice))] |} ]
  | [] =>
      outcome (Process env taskID message) h
      = Done (Some (errorString "no choices in OpenAI response"))
      /\ Trace.artifacts (trace (Process env taskID message) h) = []
      /\ last (Trace.statuses (trace (Process env taskID message) h))
         = Some (protocol.TaskStateFailed,
                 Some (failedToProcess (errorString "no choices in OpenAI response")))
  end.
Proof.
  intros Hcall.
  exact (Process_nonStreamingResult env taskID message h req resp Hcall).
Qed.

Lemma C7_witness :
  let env := Sample.env false "XiaoMei" [] in
  Trace.shape <$> Trace.artifacts (trace (Process env Sample.shortID Sample.hello) [])
  = [processedShape "Hi there"].
Proof.
  cbv zeta.
  apply (C7_non_streaming_artifact (Sample.env false "XiaoMei" []) Sample.shortID
           Sample.hello [] (completionRequest (Sample.env false "XiaoMei" []) "XiaoMei" "hello" false)
           (Sample.answer "Hi there")).
  vm_compute. reflexivity.
Defined.

(** C8.  A streaming run whose stream ends normally without any non-empty
    content increment appends no artifact, hence no closing artifact, and
    still updates the task to completed, with the summary message that states
    the count, 0; when the run returns no error that update is the last. *)
Theorem C8_empty_stream_completes env taskID message h :
  inr io_EOF ∈ Trace.received (trace (Process env taskID message) h) ->
  Trace.increments (trace (Process env taskID message) h) = [] ->
  Trace.artifacts (trace (Process env taskID message) h) = []
  /\ completeMessage 0
     = protocol.NewMessage protocol.MessageRoleAgent
         [protocol.TextPart "Processing complete. Received 0 chunks."]
  /\ exists rest,
       Trace.statuses (trace (Process env taskID message) h)
       = [ (protocol.TaskStateWorking, Some startingMessage);
           (protocol.TaskStateCompleted, Some (completeMessage 0)) ] ++ rest
       /\ (outcome (Process env taskID message) h = Done None -> rest = []).
Proof.
  intros Heof Hnone.
  destruct (Process_eof env taskID message h) as [_ Hres].
  fold (trace (Process env taskID message) h) in Hres.
  fold (outcome (Process env taskID message) h) in Hres.
  rewrite Hnone in Hres. specialize (Hres Heof).
  destruct Hres as [Hsh (rest & Hst & Hrest)]; [simpl; unfold GoInt.max_int; lia|].
  split; [|split; [reflexivity|]].
  - simpl in Hsh. apply fmap_nil_inv in Hsh. exact Hsh.
  - exists rest. split; [exact Hst|exact Hrest].
Qed.

Lemma C8_witness :
  let env := Sample.env true "XiaoShuai" [""; ""] in
  let t := trace (Process env Sample.shortID Sample.hello) [] in
  inr io_EOF ∈ Trace.received t
  /\ Trace.increments t = []
  /\ Trace.artifacts t = []
  /\ Trace.statuses t
     = [ (protocol.TaskStateWorking, Some startingMessage);
         (protocol.TaskStateCompleted, Some (completeMessage 0)) ].
Proof.
  assert (Heof : inr io_EOF ∈ Trace.received
            (trace (Process (Sample.env true "XiaoShuai" [""; ""])
                      Sample.shortID Sample.hello) [])).
  { vm_compute. right. right. left. }
  assert (Hnone : Trace.increments
            (trace (Process (Sample.env true "XiaoShuai" [""; ""])
                      Sample.shortID Sample.hello) []) = []).
  { vm_compute. reflexivity. }
  destruct (C8_empty_stream_completes _ _ _ _ Heof Hnone) as (Ha & _ & rest & Hst & Hrest).
  cbv zeta. split; [exact Heof|]. split; [exact Hnone|]. split; [exact Ha|].
  rewrite Hst, Hrest; [reflexivity|]. vm_compute. reflexivity.
Defined.

(** C9.  [detectIntent] and the receive loop index [Choices[0]] unguarded.
    When every classification response and every frame of a stream holds a
    choice, no run of the pipeline panics; a classification response or a
    frame without a choice makes the run panic with an index out of range;
    the generation call of the non-streaming path is guarded: without a
    choice it gives an error, not a panic. *)
Theorem C9_choices_precondition :
  (forall env taskID message h,
     classificationsHaveChoices env ->
     framesHaveChoices env ->
     noPanic (outcome (Process env taskID message) h))
  /\ outcome (Process Scenario.unclassified Sample.shortID Sample.hello) []
     = Panic index_out_of_range
  /\ outcome (Process Scenario.emptyFrame Sample.shortID Sample.hello) []
     = Panic index_out_of_range
  /\ outcome (Process Scenario.ungenerated Sample.shortID Sample.hello) []
     = Done (Some noChoicesError).
Proof.
  split; [|vm_compute; repeat split].
  intros env taskID message h Hclass Hframes.
  exact (Process_noPanic env taskID message h Hclass Hframes).
Qed.

Lemma C9_witness :
  classificationsHaveChoices (Sample.env true "XiaoMei" ["Hel"; "lo"])
  /\ framesHaveChoices (Sample.env true "XiaoMei" ["Hel"; "lo"])
  /\ noPanic (outcome (Process (Sample.env true "XiaoMei" ["Hel"; "lo"])
                         Sample.shortID Sample.hello) []).
Proof.
  assert (Hclass : classificationsHaveChoices (Sample.env true "XiaoMei" ["Hel"; "lo"])).
  { intros n text resp Hresp. simpl in Hresp.
    destruct n; injection Hresp as <-; discriminate. }
  assert (Hframes : framesHaveChoices (Sample.env true "XiaoMei" ["Hel"; "lo"])).
  { intros n req stream Hstream. simpl in Hstream. injection Hstream as <-.
    simpl. repeat constructor; discriminate. }
  split; [exact Hclass|]. split; [exact Hframes|].
  exact (proj1 C9_choices_precondition _ Sample.shortID Sample.hello [] Hclass Hframes).
Defined.

(** C10.  [extractText] returns the text of the first part of text kind,
    whatever comes after it and even when that text is empty; so a message
    whose first text part is empty fails validation, also when a later text
    part is not empty. *)
Theorem C10_first_text_part_decides env taskID role pre text post h :
  (forall t, protocol.TextPart t ∉ pre) ->
  extractText (protocol.NewMessage role (pre ++ protocol.TextPart text :: post)) = text
  /\ (text = "" ->
      validationFailure
        (outcome (Process env taskID
                    (protocol.NewMessage role (pre ++ protocol.TextPart text :: post))) h)
        (trace (Process env taskID
                  (protocol.NewMessage role (pre ++ protocol.TextPart text :: post))) h)).
Proof.
  intros Hpre.
  assert (Hx : extractText
                 (protocol.NewMessage role (pre ++ protocol.TextPart text :: post)) = text).
  { apply extractTextParts_first. exact Hpre. }
  split; [exact Hx|].
  intros ->. apply Process_empty_text. exact Hx.
Qed.

Lemma C10_witness :
  let message :=
    protocol.NewMessage protocol.MessageRoleUser
      [protocol.OtherPart "file"; protocol.TextPart ""; protocol.TextPart "hello"] in
  let env := Sample.env true "XiaoMei" ["Hi"] in
  extractText message = ""
  /\ validationFailure (outcome (Process env Sample.shortID message) [])
       (trace (Process env Sample.shortID message) []).
Proof.
  cbv zeta.
  destruct (C10_first_text_part_decides (Sample.env true "XiaoMei" ["Hi"])
              Sample.shortID protocol.MessageRoleUser
              [protocol.OtherPart "file"] "" [protocol.TextPart "hello"] [])
    as [Hx Hfail].
  - intros t Hin. apply elem_of_cons in Hin as [Hin|Hin]; [discriminate|].
    apply elem_of_nil in Hin. exact Hin.
  - split; [exact Hx|]. apply Hfail. reflexivity.
Defined.

(** * Further properties of the code *)

Lemma updates_app t1 t2 : Obs.updates (t1 ++ t2) = Obs.updates t1 ++ Obs.updates t2.
Proof. apply omap_app. Qed.
Lemma requests_app t1 t2 : Obs.requests (t1 ++ t2) = Obs.requests t1 ++ Obs.requests t2.
Proof. apply omap_app. Qed.
Lemma polls_app t1 t2 : Obs.polls (t1 ++ t2) = Obs.polls t1 ++ Obs.polls t2.
Proof. apply omap_app. Qed.
Lemma voiceCalls_app t1 t2 :
  Trace.voiceCalls (t1 ++ t2) = Trace.voiceCalls t1 ++ Trace.voiceCalls t2.
Proof. apply omap_app. Qed.

Ltac obs_simpl :=
  repeat (progress (simpl;
    rewrite ?artifacts_app, ?statuses_app, ?received_app, ?increments_app,
      ?chatCalls_app, ?calls_app, ?updates_app, ?requests_app, ?polls_app,
      ?voiceCalls_app, ?count_app, ?app_nil_r)).

(** ** The persona registry *)

Lemma getAssistantPrompt_other intent :
  ~ isPersona intent -> getAssistantPrompt intent = "".
Proof.
  intros Hno. unfold getAssistantPrompt, prompts.
  rewrite !list_to_map_cons, list_to_map_nil.
  rewrite !lookup_insert_ne, lookup_empty; [reflexivity| |];
    intros <-; apply Hno; [right|left]; reflexivity.
Qed.

Lemma getAssistantPrompt_persona intent :
  isPersona intent -> getAssistantPrompt intent <> "".
Proof. intros [-> | ->]; vm_compute; discriminate. Qed.

(** ** Intent detection, further *)

Lemma detectIntent_obs env text taskID h :
  wp (detectIntent env text taskID) h (fun _ t =>
    Obs.requests t = [(false, intentRequest env text)]
    /\ Obs.polls t = []
    /\ Obs.updates t = []
    /\ Ev.count Obs.isStreamClose t = 0%nat
    /\ Ev.count Obs.isOpened t = 0%nat
    /\ Ev.count Obs.isFirstTokenLog t = 0%nat
    /\ Obs.polled false t
    /\ (length (Trace.voiceCalls t) <= 1)%nat
    /\ (GoInt.len taskID <= 64 -> Trace.voiceCalls t = [])).
Proof.
  unfold detectIntent. wp_run_abs; wp_voice; wp_run_abs.
  all: obs_simpl; repeat split; try reflexivity; try lia; try (intros; lia).
Qed.

(** ** The receive loop, further *)

Lemma polled_weaken b t : Obs.polled false t -> Obs.polled b t.
Proof. destruct t as [|e t]; [auto|]. intros [He Ht]. split; [|exact Ht].
  destruct e; try exact I. discriminate He. Qed.

Lemma polled_app b t1 t2 :
  Obs.polled b t1 -> Obs.polled false t2 -> Obs.polled b (t1 ++ t2).
Proof.
  revert b. induction t1 as [|e t1 IH]; intros b H1 H2; simpl.
  - apply polled_weaken. exact H2.
  - destruct H1 as [He H1]. split; [exact He|]. apply IH; assumption.
Qed.

Ltac polled :=
  rewrite <- ?app_assoc; simpl;
  repeat first
    [ exact I
    | reflexivity
    | split
    | apply polled_weaken; assumption
    | apply polled_app; [apply polled_weaken; assumption|] ].

Lemma recvLoop_obs env taskID final startTime frames :
  forall chunkIndex fullResponse first h,
  wp (recvLoop env taskID frames final startTime chunkIndex fullResponse first) h
    (fun _ t =>
       Obs.requests t = []
       /\ Trace.voiceCalls t = []
       /\ Ev.count Obs.isStreamClose t = 0%nat
       /\ Ev.count Obs.isOpened t = 0%nat
       /\ Obs.polled false t).
Proof.
  induction frames as [|response rest IH]; intros chunkIndex fullResponse first h;
    simpl recvLoop; wp_run_abs.
  all: try (eapply wp_mono; [apply IH|]; intros o t (Hr & Hv & Hc & Ho & Hp)).
  all: obs_simpl; rewrite ?Hr, ?Hv, ?Hc, ?Ho.
  all: repeat (split; [reflexivity|]).
  all: polled.
Qed.

Lemma detectIntentOutcome_persona env text h intent :
  detectIntentOutcome env text h = Done (intent, None) -> isPersona intent.
Proof.
  unfold detectIntentOutcome.
  destruct (classified env text h) as [resp|err]; [|discriminate].
  destruct (openai.Choices resp) as [|choice rest]; [discriminate|].
  intros [= <-]. apply resolvedIntent_cases.
Qed.

Lemma detectIntentOutcome_error env text h intent err :
  detectIntentOutcome env text h = Done (intent, Some err) ->
  intent = ""
  /\ exists cause,
       classified env text h = inr cause
       /\ err = Errorf_w "intent detection failed: " cause.
Proof.
  unfold detectIntentOutcome.
  destruct (classified env text h) as [resp|cause].
  - destruct (openai.Choices resp); discriminate.
  - intros [= <- <-]. split; [reflexivity|]. exists cause. split; reflexivity.
Qed.

(** ** The two paths, further *)

Ltac prefix := first [ exists []; reflexivity | eexists; reflexivity ].

Lemma processWithOpenAIStreaming_obs env taskID text h :
  wp (processWithOpenAIStreaming env taskID text) h (fun _ t =>
    pathObs env taskID text true t
    /\ (Ev.count Obs.isOpened t = 1%nat -> last t = Some EvStreamClose)).
Proof.
  unfold processWithOpenAIStreaming, pathObs. wp_step.
  eapply wp_mono; [apply wp_and; [apply detectIntent_frame|apply detectIntent_obs]|].
  intros o t [(Ho & _) (Hr & _ & _ & Hc & Hop & _ & Hp & Hv & Hs)].
  destruct o as [[intent [err|]]|msg]; wp_run_abs.
  all: lazymatch goal with
       | |- wp (recvLoop _ _ _ _ _ _ _ _) _ _ =>
           eapply wp_mono; [apply recvLoop_obs|];
           intros [[chunkIndex fullResponse|err']|msg'] t2 (Hr2 & Hv2 & Hc2 & Ho2 & Hp2);
           wp_run_abs
       | |- _ => idtac
       end.
  all: obs_simpl; rewrite ?Hr, ?Hc, ?Hop, ?Hr2, ?Hv2, ?Hc2, ?Ho2; obs_simpl.
  all: split; [split|].
  all: try (exists "XiaoMei"; split; [left; reflexivity|prefix]).
  all: try (exists intent; split;
            [exact (detectIntentOutcome_persona _ _ _ _ (eq_sym Ho))|prefix]).
  all: try (repeat split; first [exact Hv | exact Hs | lia | polled]; fail).
  all: try (intros Hone; first [discriminate Hone | lia]).
  all: intros _; repeat (rewrite ?last_app, ?last_cons; simpl); reflexivity.
Qed.

Lemma processNonStreaming_obs env taskID text h :
  wp (processNonStreaming env taskID text) h (fun _ t =>
    pathObs env taskID text false t /\ Ev.count Obs.isOpened t = 0%nat).
Proof.
  unfold processNonStreaming, pathObs. wp_run_abs.
  2: { unfold processWithOpenAINonStreaming. wp_step.
       eapply wp_mono; [apply wp_and; [apply detectIntent_frame|apply detectIntent_obs]|].
       intros o t [(Ho & _) (Hr & _ & _ & Hc & Hop & _ & Hp & Hv & Hs)].
       destruct o as [[intent [err|]]|msg]; wp_run_abs.
       all: obs_simpl; rewrite ?Hr, ?Hc, ?Hop; obs_simpl.
       all: split; [split|reflexivity].
       all: try (exists "XiaoMei"; split; [left; reflexivity|prefix]).
       all: try (exists intent; split;
                 [exact (detectIntentOutcome_persona _ _ _ _ (eq_sym Ho))|prefix]).
       all: repeat split; first [exact Hv | exact Hs | lia | polled]. }
  obs_simpl. split; [split|reflexivity].
  - exists "XiaoMei". split; [left; reflexivity|]. eexists. reflexivity.
  - repeat split; first [lia | intros; reflexivity].
Qed.

Lemma Process_obs env taskID message h :
  wp (Process env taskID message) h (fun _ t =>
    pathObs env taskID (extractText message) (handle_IsStreamingRequest env) t).
Proof.
  unfold Process. wp_run.
  - unfold pathObs. obs_simpl. split.
    + exists "XiaoMei". split; [left; reflexivity|]. eexists. reflexivity.
    + repeat split; first [lia | intros; reflexivity].
  - apply negb_true_iff in Heqb. rewrite Heqb.
    eapply wp_mono; [apply processNonStreaming_obs|].
    intros o t [(Hreq & Hv & Hs & Hc & Ho & Hp) _]. unfold pathObs. obs_simpl.
    repeat split; first [exact Hreq | exact Hv | exact Hs | exact Hc | exact Ho | polled].
  - unfold pathObs. obs_simpl. split.
    + exists "XiaoMei". split; [left; reflexivity|]. eexists. reflexivity.
    + repeat split; first [lia | intros; reflexivity].
  - apply negb_false_iff in Heqb. rewrite Heqb.
    eapply wp_mono; [apply processWithOpenAIStreaming_obs|].
    intros o t [(Hreq & Hv & Hs & Hc & Ho & Hp) _]. unfold pathObs.
    destruct o as [[err|]|msg]; wp_run_abs; obs_simpl.
    all: rewrite ?Nat.add_0_r.
    all: repeat split;
           first [exact Hreq | exact Hv | exact Hs | exact Hc | exact Ho | polled].
Qed.

Lemma polled_lookup t : forall b i r,
  Obs.polled b t ->
  t !! i = Some (EvRecv r) ->
  match i with
  | O => b = true
  | S j => t !! j = Some (EvCtxErr None)
  end.
Proof.
  induction t as [|e t IH]; intros b i r Hp Hi; [discriminate Hi|].
  destruct Hp as [He Hp]. destruct i as [|i]; simpl in Hi.
  - injection Hi as ->. exact He.
  - specialize (IH _ i r Hp Hi). destruct i as [|i]; [|exact IH].
    simpl. destruct e as [| | | | | | | |[err|]| |]; try discriminate IH. reflexivity.
Qed.

(** ** Properties of whole runs *)

(** X1.  A run sends the model backend at most two requests, in this order:
    the classification of the extracted text, then one generation request
    that pairs the prompt of a persona of the enumeration, which is not
    empty, with the extracted text, and that opens a stream exactly when the
    handle says the request is streaming. *)
Theorem X1_requests_of_a_run env taskID message h :
  exists intent,
    isPersona intent
    /\ getAssistantPrompt intent <> ""
    /\ Obs.requests (trace (Process env taskID message) h)
       `prefix_of` runRequests env intent (extractText message).
Proof.
  destruct (Process_obs env taskID message h) as [(intent & Hp & Hreq) _].
  exists intent. split; [exact Hp|]. split; [|exact Hreq].
  apply getAssistantPrompt_persona. exact Hp.
Qed.

(** X2.  [getAssistantPrompt] reads a map with two keys: it gives the empty
    string exactly for the intents outside the enumeration, and different
    prompts for the two personas. *)
Theorem X2_assistant_prompt_lookup intent :
  (getAssistantPrompt intent = "" <-> ~ isPersona intent)
  /\ getAssistantPrompt "XiaoMei" <> getAssistantPrompt "XiaoShuai".
Proof.
  split; [|vm_compute; discriminate].
  split.
  - intros Hempty Hp. exact (getAssistantPrompt_persona intent Hp Hempty).
  - apply getAssistantPrompt_other.
Qed.

(** X3.  A run calls the voice backend at most once, and never when the
    task identifier has at most 64 bytes. *)
Theorem X3_voice_backend_at_most_once env taskID message h :
  (length (Trace.voiceCalls (trace (Process env taskID message) h)) <= 1)%nat
  /\ (GoInt.len taskID <= 64 ->
      Trace.voiceCalls (trace (Process env taskID message) h) = []).
Proof.
  destruct (Process_obs env taskID message h) as (_ & Hv & Hs & _).
  split; [exact Hv|exact Hs].
Qed.

Lemma X3_witness :
  GoInt.len Sample.shortID <= 64
  /\ Trace.voiceCalls
       (trace (Process (Sample.env true "XiaoShuai" ["Hi"]) Sample.shortID Sample.hello) [])
     = [].
Proof.
  assert (Hlen : GoInt.len Sample.shortID <= 64) by (vm_compute; discriminate).
  split; [exact Hlen|].
  exact (proj2 (X3_voice_backend_at_most_once
                  (Sample.env true "XiaoShuai" ["Hi"]) Sample.shortID Sample.hello [])
               Hlen).
Defined.

(** X4.  [processWithOpenAIStreaming] opens at most one stream and closes
    what it opened, once: when the stream was opened, closing it is the last
    thing the function does, however the loop ended (end of stream, receive
    error, cancellation or panic). *)
Theorem X4_stream_closed_last env taskID text h :
  (Ev.count Obs.isOpened (trace (processWithOpenAIStreaming env taskID text) h) <= 1)%nat
  /\ Ev.count Obs.isStreamClose (trace (processWithOpenAIStreaming env taskID text) h)
     = Ev.count Obs.isOpened (trace (processWithOpenAIStreaming env taskID text) h)
  /\ (Ev.count Obs.isOpened (trace (processWithOpenAIStreaming env taskID text) h) = 1%nat ->
      last (trace (processWithOpenAIStreaming env taskID text) h) = Some EvStreamClose).
Proof.
  destruct (processWithOpenAIStreaming_obs env taskID text h)
    as [(_ & _ & _ & Hc & Ho & _) Hlast].
  split; [exact Ho|]. split; [exact Hc|exact Hlast].
Qed.

Lemma X4_witness :
  Ev.count Obs.isOpened
    (trace (processWithOpenAIStreaming Scenario.emptyFrame Sample.shortID "hello") []) = 1%nat
  /\ outcome (processWithOpenAIStreaming Scenario.emptyFrame Sample.shortID "hello") []
     = Panic index_out_of_range
  /\ last (trace (processWithOpenAIStreaming Scenario.emptyFrame Sample.shortID "hello") [])
     = Some EvStreamClose.
Proof.
  assert (Hopen : Ev.count Obs.isOpened
            (trace (processWithOpenAIStreaming Scenario.emptyFrame Sample.shortID "hello") [])
            = 1%nat) by (vm_compute; reflexivity).
  split; [exact Hopen|]. split; [vm_compute; reflexivity|].
  exact (proj2 (proj2 (X4_stream_closed_last Scenario.emptyFrame Sample.shortID "hello" []))
               Hopen).
Defined.

(** X5.  Cancellation is polled before every receive: in the trace of a run
    each [Recv] comes right after a call of [ctx.Err()] that returned nil. *)
Theorem X5_receive_follows_nil_poll env taskID message i r :
  trace (Process env taskID message) [] !! i = Some (EvRecv r) ->
  exists j,
    i = S j /\ trace (Process env taskID message) [] !! j = Some (EvCtxErr None).
Proof.
  intros Hi.
  destruct (Process_obs env taskID message []) as (_ & _ & _ & _ & _ & Hp).
  pose proof (polled_lookup _ false i r Hp Hi) as H.
  destruct i as [|j]; [discriminate H|]. exists j. split; [reflexivity|exact H].
Qed.

Lemma X5_witness :
  exists j,
    13%nat = S j
    /\ trace (Process (Sample.env true "XiaoMei" ["Hel"; "lo"]) Sample.shortID Sample.hello) []
       !! j = Some (EvCtxErr None).
Proof.
  apply (X5_receive_follows_nil_poll (Sample.env true "XiaoMei" ["Hel"; "lo"])
           Sample.shortID Sample.hello 13 (inl (Sample.frame "Hel"))).
  vm_compute. reflexivity.
Defined.

(** ** Failure of the classification *)

Lemma detectIntent_failed env text taskID h cause :
  classified env text h = inr cause ->
  detectIntent env text taskID h
  = (Done ("", Some (Errorf_w "intent detection failed: " cause)),
     [EvCreateChatCompletion (intentRequest env text) (inr cause)]).
Proof.
  unfold classified. intros Hc.
  unfold detectIntent, bind, CreateChatCompletion, call, ret. simpl.
  rewrite Hc. reflexivity.
Qed.

(** X6.  [detectIntent] returns a persona of the enumeration and no error,
    or the empty string and an error; it returns an error exactly when the
    classification call failed, the error wraps the cause, and nothing was
    done after the failed call: no voice update. *)
Theorem X6_detectIntent_result env text taskID h intent err :
  outcome (detectIntent env text taskID) h = Done (intent, err) ->
  match err with
  | None => isPersona intent
  | Some err =>
      intent = ""
      /\ exists cause,
           err = wrapError ("intent detection failed: " +:+ Error cause) cause
           /\ trace (detectIntent env text taskID) h
              = [EvCreateChatCompletion (intentRequest env text) (inr cause)]
  end.
Proof.
  intros Ho. destruct (detectIntent_frame env text taskID h) as [Hd _].
  unfold outcome in Ho. rewrite Ho in Hd. destruct err as [err|].
  - destruct (detectIntentOutcome_error _ _ _ _ _ (eq_sym Hd)) as (-> & cause & Hc & ->).
    split; [reflexivity|]. exists cause. split; [reflexivity|].
    unfold trace. rewrite (detectIntent_failed _ _ _ _ _ Hc). reflexivity.
  - exact (detectIntentOutcome_persona _ _ _ _ (eq_sym Hd)).
Qed.

Lemma X6_witness :
  outcome (detectIntent (Sample.env true " XiaoShuai " []) "hello" Sample.shortID) []
  = Done ("XiaoShuai", None)
  /\ isPersona "XiaoShuai".
Proof.
  split; [reflexivity|].
  exact (X6_detectIntent_result (Sample.env true " XiaoShuai " []) "hello" Sample.shortID []
           "XiaoShuai" None eq_refl).
Defined.

Lemma wp_detectIntent_cases env text taskID h
    (Q : Outcome (string * option error) -> list Event -> Prop) :
  (forall cause,
     classified env text h = inr cause ->
     Q (Done ("", Some (Errorf_w "intent detection failed: " cause)))
       [EvCreateChatCompletion (intentRequest env text) (inr cause)]) ->
  (forall resp o t,
     classified env text h = inl resp ->
     Trace.chatCalls t = [(intentRequest env text, inl resp)] ->
     Q o t) ->
  wp (detectIntent env text taskID) h Q.
Proof.
  intros Hfail Hok. destruct (classified env text h) as [resp|cause] eqn:Hc.
  - eapply wp_mono; [apply detectIntent_frame|].
    intros o t (_ & Hcalls & _). rewrite Hc in Hcalls. exact (Hok resp o t eq_refl Hcalls).
  - unfold wp. rewrite (detectIntent_failed _ _ _ _ _ Hc). apply Hfail. reflexivity.
Qed.

Lemma processWithOpenAIStreaming_classfail env taskID text h :
  wp (processWithOpenAIStreaming env taskID text) h (fun o t =>
    forall req cause,
      Trace.chatCalls t !! 0%nat = Some (req, inr cause) ->
      classificationFailed cause o t /\ Trace.statuses t = []).
Proof.
  unfold processWithOpenAIStreaming. wp_step.
  apply wp_detectIntent_cases.
  - intros cause Hc. wp_run_abs. simpl. intros req cause' [= <- <-].
    repeat split.
  - intros resp o t Hc Hcalls.
    destruct o as [[intent [err|]]|msg]; wp_run_abs.
    all: lazymatch goal with
         | |- wp (recvLoop _ _ _ _ _ _ _ _) _ _ =>
             eapply wp_mono; [apply recvLoop_chatCalls|];
             intros [[chunkIndex fullResponse|err']|msg'] t2 Hloop; wp_run_abs
         | |- _ => idtac
         end.
    all: trace_simpl; rewrite Hcalls; simpl; intros req cause Hcall; discriminate Hcall.
Qed.

Lemma processNonStreaming_classfail env taskID text h :
  wp (processNonStreaming env taskID text) h (fun o t =>
    forall req cause,
      Trace.chatCalls t !! 0%nat = Some (req, inr cause) ->
      classificationFailed cause o t
      /\ last (Trace.statuses t)
         = Some (protocol.TaskStateFailed,
                 Some (failedToProcess
                         (Errorf_w "intent detection failed: "
                            (Errorf_w "intent detection failed: " cause))))).
Proof.
  unfold processNonStreaming. wp_run_abs.
  { simpl. intros req cause Hcall. discriminate Hcall. }
  unfold processWithOpenAINonStreaming. wp_step.
  apply wp_detectIntent_cases.
  - intros cause Hc. wp_run_abs. simpl. intros req cause' [= <- <-].
    repeat split.
  - intros resp o t Hc Hcalls.
    destruct o as [[intent [err|]]|msg]; wp_run_abs.
    all: trace_simpl; rewrite Hcalls; simpl; intros req cause Hcall; discriminate Hcall.
Qed.

Lemma modelCalls_app t1 t2 :
  Trace.modelCalls (t1 ++ t2) = (Trace.modelCalls t1 + Trace.modelCalls t2)%nat.
Proof. apply count_app. Qed.

(** X7.  When the classification call of a run fails, the run stops there:
    it makes no other call on the model backend, calls the voice backend not
    at all, appends no artifact, and returns the cause wrapped twice, by
    [detectIntent] and by its caller; the last status update sets the task to
    failed with a message that prints that error. *)
Theorem X7_classification_failure env taskID message h req cause :
  Trace.chatCalls (trace (Process env taskID message) h) !! 0%nat
  = Some (req, inr cause) ->
  outcome (Process env taskID message) h
  = Done (Some (Errorf_w "intent detection failed: "
                  (Errorf_w "intent detection failed: " cause)))
  /\ Trace.modelCalls (trace (Process env taskID message) h) = 1%nat
  /\ Trace.voiceCalls (trace (Process env taskID message) h) = []
  /\ Trace.artifacts (trace (Process env taskID message) h) = []
  /\ last (Trace.statuses (trace (Process env taskID message) h))
     = Some (protocol.TaskStateFailed,
             Some (protocol.NewMessage protocol.MessageRoleAgent
                     [protocol.TextPart
                        ("Failed to process with OpenAI: "
                         +:+ "intent detection failed: intent detection failed: "
                         +:+ Error cause)])).
Proof.
  revert req cause.
  apply (proj1 (wp_outcome_trace (Process env taskID message) h
    (fun o t => forall req cause,
       Trace.chatCalls t !! 0%nat = Some (req, inr cause) ->
       o = Done (Some (Errorf_w "intent detection failed: "
                         (Errorf_w "intent detection failed: " cause)))
       /\ Trace.modelCalls t = 1%nat
       /\ Trace.voiceCalls t = []
       /\ Trace.artifacts t = []
       /\ last (Trace.statuses t)
          = Some (protocol.TaskStateFailed,
                  Some (protocol.NewMessage protocol.MessageRoleAgent
                          [protocol.TextPart
                             ("Failed to process with OpenAI: "
                              +:+ "intent detection failed: intent detection failed: "
                              +:+ Error cause)]))))).
  unfold Process. wp_run_abs.
  - simpl. intros req cause Hcall. discriminate Hcall.
  - eapply wp_mono; [apply processNonStreaming_classfail|].
    intros o t Hres. trace_simpl. intros req cause Hcall.
    destruct (Hres req cause Hcall) as [(Ho & Ha & Hm & Hv) Hlast].
    unfold Trace.modelCalls in *. simpl.
    rewrite ?voiceCalls_app, ?count_app, ?Ha, ?Hm, ?Hv.
    repeat split; try assumption; try lia.
    all: try (rewrite Hlast; reflexivity).
  - simpl. intros req cause Hcall. discriminate Hcall.
  - eapply wp_mono; [apply processWithOpenAIStreaming_classfail|].
    intros o t Hres.
    destruct o as [[err|]|msg]; wp_run_abs; trace_simpl.
    all: intros req cause Hcall.
    all: destruct (Hres req cause Hcall) as [(Ho & Ha & Hm & Hv) Hs].
    all: try discriminate Ho.
    injection Ho as ->. unfold Trace.modelCalls in *. simpl.
    rewrite ?voiceCalls_app, ?count_app, ?Ha, ?Hm, ?Hv, ?Hs. simpl.
    repeat split; try assumption; try lia.
Qed.

Lemma X7_witness :
  Trace.chatCalls (trace (Process (Faults.modelDown true) Sample.shortID Sample.hello) []) !! 0%nat
  = Some (intentRequest (Faults.modelDown true) "hello", inr Sample.transport)
  /\ outcome (Process (Faults.modelDown true) Sample.shortID Sample.hello) []
     = Done (Some (Errorf_w "intent detection failed: "
                     (Errorf_w "intent detection failed: " Sample.transport)))
  /\ Trace.modelCalls (trace (Process (Faults.modelDown true) Sample.shortID Sample.hello) []) = 1%nat.
Proof.
  split; [reflexivity|].
  destruct (X7_classification_failure (Faults.modelDown true) Sample.shortID Sample.hello []
              (intentRequest (Faults.modelDown true) "hello") Sample.transport eq_refl)
    as (Ho & Hm & _).
  split; [exact Ho|exact Hm].
Defined.

(** ** Cancellation, further *)

Lemma recvLoop_polls env taskID final startTime frames :
  forall chunkIndex fullResponse first h,
  wp (recvLoop env taskID frames final startTime chunkIndex fullResponse first) h
    (fun o t =>
       forall e,
         Some e ∈ Obs.polls t ->
         o = Done (Return e)
         /\ last (Obs.polls t) = Some (Some e)
         /\ last (Trace.statuses t) = Some canceled).
Proof.
  induction frames as [|response rest IH]; intros chunkIndex fullResponse first h;
    simpl recvLoop; wp_run_abs.
  all: try (eapply wp_mono; [apply IH|]; intros o t Ht).
  all: obs_simpl; intros e' Hin.
  all: apply elem_of_cons in Hin as [Hin|Hin]; try discriminate Hin.
  all: try (apply elem_of_nil in Hin; destruct Hin).
  all: try (injection Hin as ->; repeat split; fail).
  all: destruct (Ht e' Hin) as (-> & Hl & Hs); split; [reflexivity|].
  all: split; [destruct (Obs.polls t); [discriminate Hl|exact Hl]|].
  all: try exact Hs.
  all: destruct (Trace.statuses t); [discriminate Hs|exact Hs].
Qed.

Lemma processWithOpenAIStreaming_polls env taskID text h :
  wp (processWithOpenAIStreaming env taskID text) h
    (fun o t =>
       forall e,
         Some e ∈ Obs.polls t ->
         o = Done (Some e)
         /\ last (Obs.polls t) = Some (Some e)
         /\ last (Trace.statuses t) = Some canceled).
Proof.
  unfold processWithOpenAIStreaming. wp_step.
  eapply wp_mono; [apply wp_and; [apply detectIntent_frame|apply detectIntent_obs]|].
  intros o t [(_ & _ & _ & Hs & _) (_ & Hp & _)].
  destruct o as [[intent [err|]]|msg]; wp_run_abs.
  all: lazymatch goal with
       | |- wp (recvLoop _ _ _ _ _ _ _ _) _ _ =>
           eapply wp_mono; [apply recvLoop_polls|];
           intros [[chunkIndex fullResponse|err']|msg'] t2 Hloop; wp_run_abs
       | |- _ => idtac
       end.
  all: obs_simpl; rewrite ?Hp, ?Hs; obs_simpl; intros e' Hin.
  all: try (apply elem_of_nil in Hin; destruct Hin).
  all: destruct (Hloop e' Hin) as (Ho & Hl & Hst); try discriminate Ho.
  injection Ho as ->. repeat split; assumption.
Qed.

Lemma processNonStreaming_polls env taskID text h :
  wp (processNonStreaming env taskID text) h (fun _ t => Obs.polls t = []).
Proof.
  unfold processNonStreaming. wp_run_abs; [reflexivity|].
  unfold processWithOpenAINonStreaming. wp_step.
  eapply wp_mono; [apply detectIntent_obs|].
  intros o t (_ & Hp & _).
  destruct o as [[intent [err|]]|msg]; wp_run_abs.
  all: obs_simpl; rewrite ?Hp; reflexivity.
Qed.

(** X8.  When a poll of the context returns an error, the run returns that
    very error, not wrapped; the poll is the last one of the run, the task is
    set to canceled, and the last status update then prints the context's
    error in a failure message. *)
Theorem X8_cancellation_returns_context_error env taskID message h e :
  Some e ∈ Obs.polls (trace (Process env taskID message) h) ->
  outcome (Process env taskID message) h = Done (Some e)
  /\ last (Obs.polls (trace (Process env taskID message) h)) = Some (Some e)
  /\ canceled ∈ Trace.statuses (trace (Process env taskID message) h)
  /\ last (Trace.statuses (trace (Process env taskID message) h))
     = Some (protocol.TaskStateFailed, Some (failedToProcess e)).
Proof.
  revert e.
  apply (proj1 (wp_outcome_trace (Process env taskID message) h
    (fun o t => forall e,
       Some e ∈ Obs.polls t ->
       o = Done (Some e)
       /\ last (Obs.polls t) = Some (Some e)
       /\ canceled ∈ Trace.statuses t
       /\ last (Trace.statuses t)
          = Some (protocol.TaskStateFailed, Some (failedToProcess e))))).
  unfold Process. wp_run_abs.
  - simpl. intros e' Hin. apply elem_of_nil in Hin. destruct Hin.
  - eapply wp_mono; [apply processNonStreaming_polls|].
    intros o t Hp. obs_simpl. rewrite Hp. intros e' Hin.
    apply elem_of_nil in Hin. destruct Hin.
  - simpl. intros e' Hin. apply elem_of_nil in Hin. destruct Hin.
  - eapply wp_mono; [apply processWithOpenAIStreaming_polls|].
    intros o t Hres.
    destruct o as [[err|]|msg]; wp_run_abs; obs_simpl; intros e' Hin.
    all: destruct (Hres e' Hin) as (Ho & Hl & Hst); try discriminate Ho.
    injection Ho as ->. split; [reflexivity|]. split; [exact Hl|].
    split.
    + right. apply elem_of_app. left. apply last_Some_elem_of. exact Hst.
    + rewrite last_cons, last_snoc. reflexivity.
Qed.

Lemma X8_witness :
  outcome (Process Scenario.canceledMidStream Sample.shortID Sample.hello) []
  = Done (Some context_Canceled)
  /\ last (Obs.polls (trace (Process Scenario.canceledMidStream Sample.shortID Sample.hello) []))
     = Some (Some context_Canceled).
Proof.
  destruct (X8_cancellation_returns_context_error Scenario.canceledMidStream
              Sample.shortID Sample.hello [] context_Canceled) as (Ho & Hl & _).
  - vm_compute. right. left.
  - split; [exact Ho|exact Hl].
Defined.

(** ** Streams that do not reach their end *)

Lemma cancellations_app t1 t2 :
  cancellations (t1 ++ t2) = cancellations t1 ++ cancellations t2.
Proof. unfold cancellations. rewrite polls_app. apply omap_app. Qed.

Lemma recvLoop_partial env taskID final startTime frames :
  forall chunkIndex fullResponse first h,
  wp (recvLoop env taskID frames final startTime chunkIndex fullResponse first) h
    (fun o t =>
       Trace.statuses t = (Trace.progress <$> Trace.increments t) ++ cancellations t
       /\ (length (cancellations t) <= 1)%nat
       /\ (0 <= chunkIndex ->
           chunkIndex + Z.of_nat (length (Trace.increments t)) <= GoInt.max_int ->
           Trace.shape <$> Trace.artifacts t
           = Trace.shapesFrom chunkIndex (Trace.increments t))).
Proof.
  induction frames as [|response rest IH]; intros chunkIndex fullResponse first h;
    simpl recvLoop; wp_run_abs.
  all: try (eapply wp_mono; [apply IH|]; intros o t (Hst & Hc & Hsh)).
  all: obs_simpl; use_eqns; simpl.
  all: rewrite ?cancellations_app; simpl.
  all: try (repeat split; first [reflexivity | lia | intros; reflexivity]; fail).
  all: change (cancellations (?e :: ?t)) with (cancellations t) in *.
  all: split; [first [exact Hst | rewrite Hst; reflexivity]|].
  all: split; [exact Hc|].
  all: intros Hge Hle; first
         [ exact (Hsh Hge Hle)
         | rewrite GoInt_add_small in Hsh
             by (unfold GoInt.min_int, GoInt.max_int in *; lia);
           f_equal; apply Hsh; lia ].
Qed.

(** X9.  A run of [processWithOpenAIStreaming] that does not reach the end
    of its stream keeps what it has emitted and adds nothing to it: one
    content artifact per increment received, no closing artifact, one
    progress update per increment and then, if the context was canceled,
    the one update to canceled; it does not return nil. *)
Theorem X9_partial_stream env taskID text h :
  Z.of_nat (length (Trace.increments (trace (processWithOpenAIStreaming env taskID text) h)))
  <= GoInt.max_int ->
  inr io_EOF ∉ Trace.received (trace (processWithOpenAIStreaming env taskID text) h) ->
  Trace.shape <$> Trace.artifacts (trace (processWithOpenAIStreaming env taskID text) h)
  = imap Trace.contentShape
      (Trace.increments (trace (processWithOpenAIStreaming env taskID text) h))
  /\ Trace.statuses (trace (processWithOpenAIStreaming env taskID text) h)
     = (Trace.progress
          <$> Trace.increments (trace (processWithOpenAIStreaming env taskID text) h))
       ++ cancellations (trace (processWithOpenAIStreaming env taskID text) h)
  /\ (length (cancellations (trace (processWithOpenAIStreaming env taskID text) h)) <= 1)%nat
  /\ outcome (processWithOpenAIStreaming env taskID text) h <> Done None.
Proof.
  apply (proj1 (wp_outcome_trace (processWithOpenAIStreaming env taskID text) h
    (fun o t =>
       Z.of_nat (length (Trace.increments t)) <= GoInt.max_int ->
       inr io_EOF ∉ Trace.received t ->
       Trace.shape <$> Trace.artifacts t = imap Trace.contentShape (Trace.increments t)
       /\ Trace.statuses t = (Trace.progress <$> Trace.increments t) ++ cancellations t
       /\ (length (cancellations t) <= 1)%nat
       /\ o <> Done None))).
  unfold processWithOpenAIStreaming. wp_step.
  eapply wp_mono; [apply wp_and; [apply detectIntent_frame|apply detectIntent_obs]|].
  intros o t [(_ & _ & Ha & Hs & Hr & Hi & _) (_ & Hp & _)].
  assert (Hcan : cancellations t = []) by (unfold cancellations; rewrite Hp; reflexivity).
  destruct o as [[intent [err|]]|msg]; wp_run_abs.
  all: lazymatch goal with
       | |- wp (recvLoop _ _ _ _ _ _ _ _) _ _ =>
           eapply wp_mono;
             [apply wp_and; [apply recvLoop_break|apply recvLoop_partial]|];
           intros [[chunkIndex fullResponse|err']|msg'] t2 [Hbrk (Hst & Hc & Hsh)];
           wp_run_abs
       | |- _ => idtac
       end.
  all: unfold cancellations in *.
  all: obs_simpl; rewrite ?Ha, ?Hs, ?Hr, ?Hi, ?Hp, ?omap_app; obs_simpl.
  all: intros Hle Hno.
  all: try (exfalso; apply Hno; repeat (apply elem_of_app; left);
            repeat (apply elem_of_app; right); try (right; right);
            destruct Hbrk as [Hin _]; exact Hin).
  all: try (repeat split; first [reflexivity | simpl; lia | discriminate]; fail).
  all: rewrite <- (shapesFrom_imap _ 0).
  all: split; [apply Hsh; lia|]; split; [exact Hst|]; split; [exact Hc|discriminate].
Qed.

Lemma X9_witness :
  Trace.statuses (trace (processWithOpenAIStreaming Scenario.canceledMidStream
                           Sample.shortID "hello") [])
  = [Trace.progress "Hel"; canceled]
  /\ length (Trace.artifacts (trace (processWithOpenAIStreaming Scenario.canceledMidStream
                                       Sample.shortID "hello") [])) = 1%nat.
Proof.
  destruct (X9_partial_stream Scenario.canceledMidStream Sample.shortID "hello" [])
    as (Hsh & Hst & _).
  - vm_compute. discriminate.
  - vm_compute. intros Hin. elem_cases Hin.
  - split; [exact Hst|].
    apply (f_equal length) in Hsh. rewrite length_fmap in Hsh. exact Hsh.
Defined.

(** ** The metadata of the artifacts *)




(** ** The time to the first token *)

Lemma recvLoop_firstToken env taskID final startTime frames :
  forall chunkIndex fullResponse first h,
  wp (recvLoop env taskID frames final startTime chunkIndex fullResponse first) h
    (fun _ t =>
       Ev.count Obs.isFirstTokenLog t
       = if first then 0%nat else Nat.min 1 (length (Trace.increments t))).
Proof.
  induction frames as [|response rest IH]; intros chunkIndex fullResponse first h;
    simpl recvLoop; wp_run_abs.
  all: try (eapply wp_mono; [apply IH|]; intros o t Ht).
  all: obs_simpl; use_eqns; simpl; bd_compute; simpl.
  all: try (destruct first; reflexivity).
  all: try (destruct first; exact Ht).
  all: destruct first; try discriminate; simpl in *; rewrite ?Ht; try reflexivity.
Qed.

Lemma processWithOpenAIStreaming_firstToken env taskID text h :
  wp (processWithOpenAIStreaming env taskID text) h (fun _ t =>
    Ev.count Obs.isFirstTokenLog t = Nat.min 1 (length (Trace.increments t))).
Proof.
  unfold processWithOpenAIStreaming. wp_step.
  eapply wp_mono; [apply wp_and; [apply detectIntent_frame|apply detectIntent_obs]|].
  intros o t [(_ & _ & _ & _ & _ & Hi & _) (_ & _ & _ & _ & _ & Hf & _)].
  destruct o as [[intent [err|]]|msg]; wp_run_abs.
  all: lazymatch goal with
       | |- wp (recvLoop _ _ _ _ _ _ _ _) _ _ =>
           eapply wp_mono; [apply recvLoop_firstToken|];
           intros [[chunkIndex fullResponse|err']|msg'] t2 Hloop; wp_run_abs
       | |- _ => idtac
       end.
  all: obs_simpl; rewrite ?Hi, ?Hf; obs_simpl; bd_compute; simpl.
  all: rewrite ?Hloop; simpl; rewrite ?Nat.add_0_r; reflexivity.
Qed.

Lemma processNonStreaming_firstToken env taskID text h :
  wp (processNonStreaming env taskID text) h (fun _ t =>
    Ev.count Obs.isFirstTokenLog t = 0%nat /\ Trace.increments t = []).
Proof.
  unfold processNonStreaming. wp_run_abs; [split; reflexivity|].
  unfold processWithOpenAINonStreaming. wp_step.
  eapply wp_mono; [apply wp_and; [apply detectIntent_frame|apply detectIntent_obs]|].
  intros o t [(_ & _ & _ & _ & _ & Hi & _) (_ & _ & _ & _ & _ & Hf & _)].
  destruct o as [[intent [err|]]|msg]; wp_run_abs.
  all: obs_simpl; rewrite ?Hi, ?Hf; obs_simpl; bd_compute; simpl.
  all: split; reflexivity.
Qed.

(** X11.  The time to the first token is logged once in a run that received
    a non-empty increment, and not at all in any other run: a second
    increment does not log it again, and empty frames do not count. *)
Theorem X11_first_token_logged_once env taskID message h :
  Ev.count Obs.isFirstTokenLog (trace (Process env taskID message) h)
  = Nat.min 1 (length (Trace.increments (trace (Process env taskID message) h))).
Proof.
  apply (proj1 (wp_outcome_trace (Process env taskID message) h
    (fun _ t =>
       Ev.count Obs.isFirstTokenLog t = Nat.min 1 (length (Trace.increments t))))).
  unfold Process. wp_run_abs.
  all: try (eapply wp_mono; [apply processNonStreaming_firstToken|];
            intros o t [Hf Hi]).
  all: try (eapply wp_mono; [apply processWithOpenAIStreaming_firstToken|];
            intros o t Hf; destruct o as [[err|]|msg]; wp_run_abs).
  all: obs_simpl; bd_compute; simpl; rewrite ?Hi, ?Hf; simpl; rewrite ?Nat.add_0_r.
  all: reflexivity.
Qed.

(** ** The state of the task *)

Lemma states_app t1 t2 : states (t1 ++ t2) = states t1 ++ states t2.
Proof. apply omap_app. Qed.

Lemma completions_app t1 t2 : completions (t1 ++ t2) = completions t1 ++ completions t2.
Proof. apply omap_app. Qed.

Lemma updates_nil t : Obs.updates t = [] -> states t = [] /\ completions t = [].
Proof.
  induction t as [|e t IH]; [split; reflexivity|].
  destruct e; simpl; try exact IH. discriminate.
Qed.

Lemma ending_app_nil l1 l2 : ending l1 = [] -> ending (l1 ++ l2) = ending l2.
Proof.
  induction l1 as [|s l1 IH]; [reflexivity|].
  destruct s; simpl; try discriminate. exact IH.
Qed.

Lemma ending_app_cons l1 l2 s l :
  ending l1 = s :: l -> ending (l1 ++ l2) = s :: l ++ l2.
Proof.
  induction l1 as [|s1 l1 IH]; [discriminate|].
  destruct s1; simpl; try (intros [= <- <-]; reflexivity). exact IH.
Qed.

Ltac upd_simpl :=
  repeat (progress (simpl;
    rewrite ?states_app, ?completions_app, ?updates_app, ?polls_app, ?app_nil_r)).

Lemma recvLoop_states env taskID final startTime frames :
  forall chunkIndex fullResponse first h,
  wp (recvLoop env taskID frames final startTime chunkIndex fullResponse first) h
    (fun o t =>
       completions t = []
       /\ (ending (states t) = []
           \/ ending (states t) = [protocol.TaskStateCanceled]
              /\ exists e, o = Done (Return e))).
Proof.
  induction frames as [|response rest IH]; intros chunkIndex fullResponse first h;
    simpl recvLoop; wp_run_abs.
  all: try (eapply wp_mono; [apply IH|]; intros o t [Hc He]).
  all: upd_simpl.
  all: try (split; [reflexivity|left; reflexivity]).
  all: try (split; [reflexivity|right; split; [reflexivity|eexists; reflexivity]]).
  all: split; assumption.
Qed.

Ltac elem_of_list :=
  repeat first [apply list_elem_of_here | apply list_elem_of_further].

Lemma processWithOpenAIStreaming_states env taskID text h :
  wp (processWithOpenAIStreaming env taskID text) h (fun o t =>
    (o = Done None <-> completions t = [None])
    /\ (length (completions t) <= 1)%nat
    /\ match o with
       | Done None => ending (states t) = [protocol.TaskStateCompleted]
       | Done (Some _) =>
           ending (states t) = []
           \/ ending (states t) = [protocol.TaskStateCanceled]
           \/ ending (states t) = [protocol.TaskStateCompleted]
       | Panic _ => ending (states t) = []
       end).
Proof.
  unfold processWithOpenAIStreaming. wp_step.
  eapply wp_mono; [apply detectIntent_obs|].
  intros o t (_ & _ & Hu & _).
  destruct (updates_nil t Hu) as [Hs Hc].
  destruct o as [[intent [err|]]|msg]; wp_run_abs.
  all: lazymatch goal with
       | |- wp (recvLoop _ _ _ _ _ _ _ _) _ _ =>
           eapply wp_mono; [apply recvLoop_states|];
           intros [[chunkIndex fullResponse|err']|msg'] t2 [Hc2 He2]; wp_run_abs
       | |- _ => idtac
       end.
  all: upd_simpl; rewrite ?Hs, ?Hc, ?Hc2; upd_simpl.
  all: try (destruct He2 as [He2|[He2 [e' He']]]; [|discriminate He']).
  all: try (destruct He2 as [He2|[He2 [e' He']]]).
  all: rewrite ?(ending_app_nil _ _ He2); simpl.
  all: try (split; [split; discriminate|]; split; [lia|]; auto; fail).
  all: try (split; [split; reflexivity|]; split; [lia|]; auto; fail).
  all: split; [split; discriminate|]; split; [lia|]; rewrite He2; auto.
Qed.

Lemma processNonStreaming_states env taskID text h :
  wp (processNonStreaming env taskID text) h (fun o t =>
    (o = Done None <-> completions t = [None])
    /\ (length (completions t) <= 1)%nat
    /\ ending (states t) ∈ endings
    /\ (o = Done None -> ending (states t) = [protocol.TaskStateCompleted])
    /\ (forall msg, o = Panic msg -> ending (states t) = [])).
Proof.
  unfold processNonStreaming. wp_run_abs.
  2: unfold processWithOpenAINonStreaming; wp_step;
     eapply wp_mono; [apply detectIntent_obs|];
     intros o t (_ & _ & Hu & _);
     destruct (updates_nil t Hu) as [Hs Hc];
     destruct o as [[intent [err|]]|msg]; wp_run_abs.
  all: upd_simpl; rewrite ?Hs, ?Hc; upd_simpl.
  all: split; [split; first [discriminate | reflexivity]|].
  all: split; [lia|].
  all: split; [unfold endings; elem_of_list|].
  all: split; [first [discriminate | reflexivity]|].
  all: intros msg0; first [discriminate | reflexivity].
Qed.

(** X12.  [Process] returns nil exactly when the handle accepted the update
    to completed; a run makes that update at most once. *)
Theorem X12_nil_iff_completion_accepted env taskID message h :
  (outcome (Process env taskID message) h = Done None
   <-> completions (trace (Process env taskID message) h) = [None])
  /\ (length (completions (trace (Process env taskID message) h)) <= 1)%nat.
Proof.
  apply (proj1 (wp_outcome_trace (Process env taskID message) h
    (fun o t =>
       (o = Done None <-> completions t = [None])
       /\ (length (completions t) <= 1)%nat))).
  unfold Process. wp_run_abs.
  all: try (eapply wp_mono; [apply processNonStreaming_states|];
            intros o t (Hiff & Hlen & _)).
  all: try (eapply wp_mono; [apply processWithOpenAIStreaming_states|];
            intros o t (Hiff & Hlen & _); destruct o as [[err|]|msg]; wp_run_abs).
  all: upd_simpl.
  all: try (split; [split; discriminate|simpl; lia]).
  all: try (split; [exact Hiff|exact Hlen]).
  all: split; [|exact Hlen].
  all: try (split; [discriminate|]; intros Hc; apply Hiff in Hc; discriminate Hc).
  all: split; [intros _; apply Hiff; reflexivity|reflexivity].
Qed.

(** X13.  The states a run of [Process] sets the task to are updates to
    working followed by one of five endings: nothing, failed, completed,
    completed then failed, canceled then failed.  A run that returns nil ends
    with completed; a run that panics has set nothing but working. *)
Theorem X13_state_sequence env taskID message h :
  ending (states (trace (Process env taskID message) h)) ∈ endings
  /\ (outcome (Process env taskID message) h = Done None ->
      ending (states (trace (Process env taskID message) h))
      = [protocol.TaskStateCompleted])
  /\ (forall msg,
        outcome (Process env taskID message) h = Panic msg ->
        ending (states (trace (Process env taskID message) h)) = []).
Proof.
  apply (proj1 (wp_outcome_trace (Process env taskID message) h
    (fun o t =>
       ending (states t) ∈ endings
       /\ (o = Done None -> ending (states t) = [protocol.TaskStateCompleted])
       /\ (forall msg, o = Panic msg -> ending (states t) = [])))).
  unfold Process. wp_run_abs.
  all: try (eapply wp_mono; [apply processNonStreaming_states|];
            intros o t (_ & _ & Hin & Hnil & Hpanic)).
  all: try (eapply wp_mono; [apply processWithOpenAIStreaming_states|];
            intros o t (_ & _ & Hend); destruct o as [[err|]|msg]; wp_run_abs).
  all: upd_simpl.
  all: try (split; [exact Hin|split; [exact Hnil|exact Hpanic]]).
  all: try (split; [unfold endings; elem_of_list|]; split;
            [first [discriminate | reflexivity]
            |intros msg0; first [discriminate | reflexivity]]; fail).
  all: try (destruct Hend as [Hend|[Hend|Hend]]).
  all: rewrite ?(ending_app_nil _ _ Hend), ?(ending_app_cons _ _ _ _ Hend), ?Hend; simpl.
  all: split; [unfold endings; elem_of_list|]; split;
         [first [discriminate | reflexivity | intros _; reflexivity]
         |intros msg0; first [discriminate | reflexivity | intros _; reflexivity]].
Qed.

(** ** Errors and the failed state *)

Lemma processNonStreaming_reported env taskID text h :
  wp (processNonStreaming env taskID text) h (fun o t =>
    forall e,
      o = Done (Some e) ->
      (last (Trace.statuses t) = Some (protocol.TaskStateFailed, Some (failedToProcess e)))
      \/ (exists m, Obs.updates t = [(protocol.TaskStateWorking, m, Some e)])
      \/ (exists m cause,
            last (Obs.updates t) = Some (protocol.TaskStateCompleted, m, Some cause)
            /\ e = Errorf_w "failed to update final task status: " cause)).
Proof.
  unfold processNonStreaming. wp_run_abs.
  2: unfold processWithOpenAINonStreaming; wp_step;
     eapply wp_mono; [apply wp_and; [apply detectIntent_frame|apply detectIntent_obs]|];
     intros o t [(_ & _ & _ & Hs & _) (_ & _ & Hu & _)];
     destruct o as [[intent [err|]]|msg]; wp_run_abs.
  all: obs_simpl; rewrite ?Hs, ?Hu; obs_simpl.
  all: intros e' He'; try discriminate He'; injection He' as <-.
  all: try (left; reflexivity).
  all: try (right; left; eexists; reflexivity).
  all: right; right; eexists; eexists; split; reflexivity.
Qed.

(** X14.  An error [Process] returns has been reported to the handle: the
    last status update sets failed with a message that prints the error.
    There are two exceptions, both rejections by the handle itself: of the
    first update to working, which is then the only update and whose error
    is returned as it is, and, in non-streaming mode, of the update to
    completed, after which no update to failed is made. *)
Theorem X14_errors_reported env taskID message h e :
  outcome (Process env taskID message) h = Done (Some e) ->
  reportedAs e (trace (Process env taskID message) h).
Proof.
  revert e.
  apply (proj1 (wp_outcome_trace (Process env taskID message) h
    (fun o t => forall e, o = Done (Some e) -> reportedAs e t))).
  unfold Process, reportedAs. wp_run_abs.
  all: try (eapply wp_mono; [apply processNonStreaming_reported|];
            intros o t Hrep).
  all: try (eapply wp_mono; [apply processWithOpenAIStreaming_obs|];
            intros o t _; destruct o as [[err|]|msg]; wp_run_abs).
  all: obs_simpl; intros e' He'; try discriminate He'.
  all: try (injection He' as <-).
  all: try (left; eexists; split; [reflexivity|left; reflexivity]).
  all: try (right; left; eexists; reflexivity).
  all: try (left; eexists; split;
            [rewrite last_cons, last_snoc; reflexivity|right; reflexivity]).
  destruct (Hrep e' He') as [Hl|[[m Hm]|(m & cause & Hl & He)]].
  - left. eexists. split; [exact Hl|right; reflexivity].
  - right. left. exists m. exact Hm.
  - right. right. split.
    + destruct r; [discriminate|]. apply list_elem_of_further, list_elem_of_further,
        list_elem_of_here.
    + exists m, cause. split; assumption.
Qed.

Lemma X14_witness :
  outcome (Process Scenario.lastUpdateFails Sample.shortID Sample.hello) []
  = Done (Some (Errorf_w "failed to update final task status: " Sample.transport))
  /\ reportedAs (Errorf_w "failed to update final task status: " Sample.transport)
       (trace (Process Scenario.lastUpdateFails Sample.shortID Sample.hello) []).
Proof.
  split; [reflexivity|].
  apply (X14_errors_reported Scenario.lastUpdateFails Sample.shortID Sample.hello []).
  reflexivity.
Defined.

(** ** Mode, model and time stamp of the artifacts *)

Lemma stamped_weaken env b prev t : stamped env b None t -> stamped env b prev t.
Proof.
  destruct t as [|e t]; [auto|]. intros [He Ht]. split; [|exact Ht].
  destruct e; try exact I. destruct He as (_ & _ & now & Hnow & _). discriminate Hnow.
Qed.

Lemma stamped_app env b prev t1 t2 :
  stamped env b prev t1 -> stamped env b None t2 -> stamped env b prev (t1 ++ t2).
Proof.
  revert prev. induction t1 as [|e t1 IH]; intros prev H1 H2; simpl.
  - apply stamped_weaken. exact H2.
  - destruct H1 as [He H1]. split; [exact He|]. apply IH; assumption.
Qed.

Lemma stamped_no_artifacts env b t : Trace.artifacts t = [] -> stamped env b None t.
Proof.
  generalize (@None Z).
  induction t as [|e t IH]; intros prev Ha; [exact I|].
  destruct e; simpl in *; try discriminate Ha; split; try exact I; apply IH; exact Ha.
Qed.

Ltac stamped :=
  rewrite <- ?app_assoc; simpl;
  repeat first
    [ exact I
    | reflexivity
    | eexists; split; reflexivity
    | split
    | apply stamped_weaken; assumption
    | apply stamped_app; [apply stamped_weaken; assumption|] ].

Lemma recvLoop_stamped env taskID final startTime frames :
  forall chunkIndex fullResponse first h,
  wp (recvLoop env taskID frames final startTime chunkIndex fullResponse first) h
    (fun _ t => stamped env true None t).
Proof.
  induction frames as [|response rest IH]; intros chunkIndex fullResponse first h;
    simpl recvLoop; wp_run_abs.
  all: try (eapply wp_mono; [apply IH|]; intros o t Ht).
  all: stamped.
Qed.

Lemma processWithOpenAIStreaming_stamped env taskID text h :
  wp (processWithOpenAIStreaming env taskID text) h (fun _ t => stamped env true None t).
Proof.
  unfold processWithOpenAIStreaming. wp_step.
  eapply wp_mono; [apply detectIntent_frame|].
  intros o t (_ & _ & Ha & _). apply (stamped_no_artifacts env true) in Ha.
  destruct o as [[intent [err|]]|msg]; wp_run_abs.
  all: lazymatch goal with
       | |- wp (recvLoop _ _ _ _ _ _ _ _) _ _ =>
           eapply wp_mono; [apply recvLoop_stamped|];
           intros [[chunkIndex fullResponse|err']|msg'] t2 Hloop; wp_run_abs
       | |- _ => idtac
       end.
  all: stamped.
Qed.

Lemma processNonStreaming_stamped env taskID text h :
  wp (processNonStreaming env taskID text) h (fun _ t => stamped env false None t).
Proof.
  unfold processNonStreaming. wp_run_abs.
  2: unfold processWithOpenAINonStreaming; wp_step;
     eapply wp_mono; [apply detectIntent_frame|];
     intros o t (_ & _ & Ha & _); apply (stamped_no_artifacts env false) in Ha;
     destruct o as [[intent [err|]]|msg]; wp_run_abs.
  all: stamped.
Qed.

Lemma Process_stamped env taskID message h :
  wp (Process env taskID message) h (fun _ t =>
    stamped env (handle_IsStreamingRequest env) None t).
Proof.
  unfold Process. wp_run.
  - stamped.
  - apply negb_true_iff in Heqb. rewrite Heqb.
    eapply wp_mono; [apply processNonStreaming_stamped|]. intros o t Ht. stamped.
  - stamped.
  - apply negb_false_iff in Heqb. rewrite Heqb.
    eapply wp_mono; [apply processWithOpenAIStreaming_stamped|]. intros o t Ht.
    destruct o as [[err|]|msg]; wp_run_abs; stamped.
Qed.

Lemma stamped_lookup env b t : forall prev i a r,
  stamped env b prev t ->
  t !! i = Some (EvAddArtifact a r) ->
  Obs.meta "is_streaming" a = Some (VBool b)
  /\ Obs.meta "model" a = Some (VString (openaiModel env))
  /\ exists now,
       Obs.meta "timestamp" a = Some (VInt now)
       /\ match i with
          | O => prev = Some now
          | S j => t !! j = Some (EvTimeNow now)
          end.
Proof.
  induction t as [|e t IH]; intros prev i a r Hp Hi; [discriminate Hi|].
  destruct Hp as [He Hp]. destruct i as [|i]; simpl in Hi.
  - injection Hi as ->. destruct He as (Hs & Hm & now & Hnow & Ht).
    split; [exact Hs|]. split; [exact Hm|]. exists now. split; assumption.
  - destruct (IH _ i a r Hp Hi) as (Hs & Hm & now & Ht & Hprev).
    split; [exact Hs|]. split; [exact Hm|]. exists now. split; [exact Ht|].
    destruct i as [|i]; [|exact Hprev].
    simpl. destruct e; try discriminate Hprev. injection Hprev as ->. reflexivity.
Qed.

(** X15.  Every artifact a run appends, on either path, records in its
    metadata the mode the handle reported ([is_streaming]) and the configured
    model, and its [timestamp] is the reading of the clock made immediately
    before the append. *)
Theorem X15_artifact_provenance env taskID message i a r :
  trace (Process env taskID message) [] !! i = Some (EvAddArtifact a r) ->
  Obs.meta "is_streaming" a = Some (VBool (handle_IsStreamingRequest env))
  /\ Obs.meta "model" a = Some (VString (openaiModel env))
  /\ exists j now,
       i = S j
       /\ trace (Process env taskID message) [] !! j = Some (EvTimeNow now)
       /\ Obs.meta "timestamp" a = Some (VInt now).
Proof.
  intros Hi.
  destruct (stamped_lookup _ _ _ None i a r (Process_stamped env taskID message []) Hi)
    as (Hs & Hm & now & Ht & Hprev).
  split; [exact Hs|]. split; [exact Hm|].
  destruct i as [|j]; [discriminate Hprev|]. exists j, now. repeat split; assumption.
Qed.

Lemma X15_witness :
  exists j now,
    19%nat = S j
    /\ trace (Process (Sample.env true "XiaoMei" ["Hel"; "lo"]) Sample.shortID Sample.hello) []
       !! j = Some (EvTimeNow now)
    /\ Obs.meta "timestamp"
         (chunkArtifact (Sample.env true "XiaoMei" ["Hel"; "lo"]) 0 "Hel" "Hel"
            1700000000000000002)
       = Some (VInt now).
Proof.
  apply (X15_artifact_provenance (Sample.env true "XiaoMei" ["Hel"; "lo"])
           Sample.shortID Sample.hello 19
           (chunkArtifact (Sample.env true "XiaoMei" ["Hel"; "lo"]) 0 "Hel" "Hel"
              1700000000000000002) None).
  vm_compute. reflexivity.
Defined.

(** ** Where the errors come from *)

Lemma failures_app t1 t2 : failures (t1 ++ t2) = failures t1 ++ failures t2.
Proof. apply omap_app. Qed.

Lemma append_assoc_l (a b c : string) : a +:+ (b +:+ c) = (a +:+ b) +:+ c.
Proof.
  induction a as [|x a IH]; [reflexivity|].
  change (String x (a +:+ (b +:+ c)) = String x ((a +:+ b) +:+ c)).
  rewrite IH. reflexivity.
Qed.

Lemma wraps_refl e : wraps e e.
Proof.
  split; [destruct e; apply list_elem_of_here|]. exists "". reflexivity.
Qed.

Lemma wraps_Errorf_w prefix e cause :
  wraps e cause -> wraps (Errorf_w prefix e) cause.
Proof.
  intros [Hin [p Hp]]. split.
  - apply list_elem_of_further. exact Hin.
  - exists (prefix +:+ p). simpl. rewrite Hp. apply append_assoc_l.
Qed.

Lemma caused_app_l e t1 t2 : caused e t1 -> caused e (t1 ++ t2).
Proof.
  intros (cause & Hin & Hw). exists cause. split; [|exact Hw].
  rewrite failures_app. apply elem_of_app. left. exact Hin.
Qed.

Lemma caused_app_r e t1 t2 : caused e t2 -> caused e (t1 ++ t2).
Proof.
  intros (cause & Hin & Hw). exists cause. split; [|exact Hw].
  rewrite failures_app. apply elem_of_app. right. exact Hin.
Qed.

Lemma caused_cons e ev t : caused e t -> caused e (ev :: t).
Proof. apply (caused_app_r e [ev] t). Qed.

Lemma caused_here e cause t :
  cause ∈ failures t -> wraps e cause -> caused e t.
Proof. intros Hin Hw. exists cause. split; assumption. Qed.

Ltac caused :=
  rewrite <- ?app_assoc;
  repeat first
    [ assumption
    | apply caused_app_l; assumption
    | apply caused_app_r
    | apply caused_cons ].

Ltac caused_now :=
  eapply caused_here; cycle 1;
  [ repeat apply wraps_Errorf_w; apply wraps_refl
  | rewrite <- ?app_assoc;
    repeat (progress (simpl; rewrite ?failures_app));
    repeat first [apply list_elem_of_here | apply list_elem_of_further
                 | apply elem_of_app; right] ].

Lemma detectIntent_caused env text taskID h :
  wp (detectIntent env text taskID) h (fun o t =>
    forall intent err, o = Done (intent, Some err) -> caused err t).
Proof.
  unfold detectIntent. wp_run_abs; wp_voice; wp_run_abs.
  all: intros intent0 err0 Ho; try discriminate Ho.
  injection Ho as _ <-. caused_now.
Qed.

Lemma recvLoop_caused env taskID final startTime frames :
  forall chunkIndex fullResponse first h,
  wp (recvLoop env taskID frames final startTime chunkIndex fullResponse first) h
    (fun o t => forall e, o = Done (Return e) -> caused e t).
Proof.
  induction frames as [|response rest IH]; intros chunkIndex fullResponse first h;
    simpl recvLoop; wp_run_abs.
  all: try (eapply wp_mono; [apply IH|]; intros o t Ht).
  all: intros e' He'; try discriminate He'.
  all: try (specialize (Ht e' He'); repeat apply caused_cons; exact Ht).
  all: injection He' as <-; caused_now.
Qed.

Lemma processWithOpenAIStreaming_caused env taskID text h :
  wp (processWithOpenAIStreaming env taskID text) h (fun o t =>
    forall e, o = Done (Some e) -> caused e t).
Proof.
  unfold processWithOpenAIStreaming. wp_step.
  eapply wp_mono; [apply detectIntent_caused|].
  intros o t Hd.
  destruct o as [[intent [err|]]|msg]; wp_run_abs.
  all: lazymatch goal with
       | |- wp (recvLoop _ _ _ _ _ _ _ _) _ _ =>
           eapply wp_mono; [apply recvLoop_caused|];
           intros [[chunkIndex fullResponse|err']|msg'] t2 Hloop; wp_run_abs
       | |- _ => idtac
       end.
  all: intros e' He'; try discriminate He'; injection He' as <-.
  all: try (destruct (Hd _ _ eq_refl) as (cause & Hin & Hw);
            apply caused_app_l; exists cause; split; [exact Hin|];
            apply wraps_Errorf_w; exact Hw).
  all: try (specialize (Hloop _ eq_refl); caused; fail).
  all: caused_now.
Qed.

Lemma processNonStreaming_caused env taskID text h :
  wp (processNonStreaming env taskID text) h (fun o t =>
    forall e, o = Done (Some e) -> e = noChoicesError \/ caused e t).
Proof.
  unfold processNonStreaming. wp_run_abs.
  2: unfold processWithOpenAINonStreaming; wp_step;
     eapply wp_mono; [apply detectIntent_caused|];
     intros o t Hd;
     destruct o as [[intent [err|]]|msg]; wp_run_abs.
  all: intros e' He'; try discriminate He'; injection He' as <-.
  all: try (left; reflexivity).
  all: right.
  all: try (destruct (Hd _ _ eq_refl) as (cause & Hin & Hw);
            assert (Hc : caused (Errorf_w "intent detection failed: " err) t)
              by (exists cause; split; [exact Hin|apply wraps_Errorf_w; exact Hw]);
            simpl; caused; fail).
  all: caused_now.
Qed.

(** X16.  An error [Process] returns is the validation error, the error
    for a completion without choices, or it comes from a collaborator: it is,
    or wraps through [%w], an error that the model backend, the stream, the
    context or a status update returned in this run, and its text ends with
    the text of that error. *)
Theorem X16_error_provenance env taskID message h e :
  outcome (Process env taskID message) h = Done (Some e) ->
  e = errorString errMsg
  \/ e = noChoicesError
  \/ exists cause,
       cause ∈ failures (trace (Process env taskID message) h)
       /\ cause ∈ chain e
       /\ exists prefix, Error e = prefix +:+ Error cause.
Proof.
  revert e.
  apply (proj1 (wp_outcome_trace (Process env taskID message) h
    (fun o t => forall e,
       o = Done (Some e) ->
       e = errorString errMsg \/ e = noChoicesError \/ caused e t))).
  unfold Process. wp_run_abs.
  all: try (eapply wp_mono; [apply processNonStreaming_caused|]; intros o t Hc).
  all: try (eapply wp_mono; [apply processWithOpenAIStreaming_caused|];
            intros o t Hc; destruct o as [[err|]|msg]; wp_run_abs).
  all: intros e' He'; try discriminate He'.
  all: try (injection He' as <-).
  all: try (left; reflexivity).
  all: try (destruct (Hc _ He') as [Hn|Hn]; [right; left; exact Hn|]).
  all: try (specialize (Hc _ eq_refl) as Hn).
  all: right; right.
  all: try (caused; fail).
  all: caused_now.
Qed.

Lemma X16_witness :
  exists cause,
    cause ∈ failures (trace (Process (Faults.modelDown false) Sample.shortID Sample.hello) [])
    /\ cause ∈ chain (Errorf_w "intent detection failed: "
                        (Errorf_w "intent detection failed: " Sample.transport))
    /\ exists prefix,
         Error (Errorf_w "intent detection failed: "
                  (Errorf_w "intent detection failed: " Sample.transport))
         = prefix +:+ Error cause.
Proof.
  destruct (X16_error_provenance (Faults.modelDown false) Sample.shortID Sample.hello []
              (Errorf_w "intent detection failed: "
                 (Errorf_w "intent detection failed: " Sample.transport)) eq_refl)
    as [H|[H|H]]; [discriminate H|discriminate H|exact H].
Defined.

(** ** Panics *)

Lemma detectIntent_panic env text taskID h :
  wp (detectIntent env text taskID) h (fun o t =>
    forall msg,
      o = Panic msg ->
      msg = index_out_of_range
      /\ exists req resp,
           t = [EvCreateChatCompletion req (inl resp)] /\ openai.Choices resp = []).
Proof.
  unfold detectIntent. wp_run_abs; wp_voice; wp_run_abs.
  all: intros msg0 Ho; try discriminate Ho.
  injection Ho as <-. split; [reflexivity|]. eexists; eexists. split; [reflexivity|assumption].
Qed.

Ltac suffix :=
  rewrite <- ?app_assoc;
  repeat first
    [ assumption
    | reflexivity
    | apply suffix_cons_r
    | apply suffix_app_r ].

Lemma recvLoop_panic env taskID final startTime frames :
  forall chunkIndex fullResponse first h,
  wp (recvLoop env taskID frames final startTime chunkIndex fullResponse first) h
    (fun o t =>
       forall msg,
         o = Panic msg ->
         msg = index_out_of_range
         /\ exists response,
              [EvRecv (inl response)] `suffix_of` t /\ openai.StreamChoices response = []).
Proof.
  induction frames as [|response rest IH]; intros chunkIndex fullResponse first h;
    simpl recvLoop; wp_run_abs.
  all: try (eapply wp_mono; [apply IH|]; intros o t Ht).
  all: intros msg0 Ho; try discriminate Ho.
  all: try (destruct (Ht msg0 Ho) as (-> & f & Hsuf & Hf); split; [reflexivity|];
            exists f; split; [|exact Hf]; suffix).
  injection Ho as <-. split; [reflexivity|].
  eexists. split; [|eassumption]. suffix.
Qed.

Lemma processWithOpenAIStreaming_panic env taskID text h :
  wp (processWithOpenAIStreaming env taskID text) h (fun o t =>
    forall msg, o = Panic msg -> msg = index_out_of_range /\ unwound t).
Proof.
  unfold processWithOpenAIStreaming. wp_step.
  eapply wp_mono; [apply detectIntent_panic|].
  intros o t Hd.
  destruct o as [[intent [err|]]|msg]; wp_run_abs.
  all: lazymatch goal with
       | |- wp (recvLoop _ _ _ _ _ _ _ _) _ _ =>
           eapply wp_mono; [apply recvLoop_panic|];
           intros [[chunkIndex fullResponse|err']|msg'] t2 Hloop; wp_run_abs
       | |- _ => idtac
       end.
  all: intros msg0 Ho; try discriminate Ho; injection Ho as <-.
  - destruct (Hloop _ eq_refl) as (-> & f & Hsuf & Hf). split; [reflexivity|].
    right. exists f. split; [|exact Hf].
    rewrite <- ?app_assoc. apply suffix_app_r.
    do 3 apply suffix_cons_r. apply (suffix_app _ _ [EvStreamClose]) in Hsuf. exact Hsuf.
  - destruct (Hd _ eq_refl) as (-> & req & resp & -> & Hresp). split; [reflexivity|].
    left. exists req, resp. split; [reflexivity|]. split; [exact Hresp|reflexivity].
Qed.

Lemma processNonStreaming_panic env taskID text h :
  wp (processNonStreaming env taskID text) h (fun o t =>
    forall msg, o = Panic msg -> msg = index_out_of_range /\ unwound t).
Proof.
  unfold processNonStreaming. wp_run_abs.
  2: unfold processWithOpenAINonStreaming; wp_step;
     eapply wp_mono; [apply detectIntent_panic|];
     intros o t Hd;
     destruct o as [[intent [err|]]|msg]; wp_run_abs.
  all: intros msg0 Ho; try discriminate Ho; injection Ho as <-.
  destruct (Hd _ eq_refl) as (-> & req & resp & -> & Hresp). split; [reflexivity|].
  left. exists req, resp. split; [suffix|]. split; [exact Hresp|reflexivity].
Qed.

Lemma unwound_app t1 t2 :
  Trace.modelCalls t1 = 0%nat -> unwound t2 -> unwound (t1 ++ t2).
Proof.
  intros H1 [(req & resp & Hsuf & Hresp & Hm)|(f & Hsuf & Hf)].
  - left. exists req, resp. split; [apply suffix_app_r; exact Hsuf|].
    split; [exact Hresp|]. unfold Trace.modelCalls in *. rewrite count_app, H1, Hm.
    reflexivity.
  - right. exists f. split; [apply suffix_app_r; exact Hsuf|exact Hf].
Qed.

(** X17.  [Process] panics in one way only: with an index out of range, on
    a response without choices that it had just got.  That response is the
    answer to the classification, the only call made on the model backend
    so far, or a frame of the stream, and then nothing ran after the receive
    but the deferred close of the stream. *)
Theorem X17_panics env taskID message h msg :
  outcome (Process env taskID message) h = Panic msg ->
  msg = index_out_of_range /\ unwound (trace (Process env taskID message) h).
Proof.
  revert msg.
  apply (proj1 (wp_outcome_trace (Process env taskID message) h
    (fun o t => forall msg, o = Panic msg -> msg = index_out_of_range /\ unwound t))).
  unfold Process. wp_run_abs.
  all: try (eapply wp_mono; [apply processNonStreaming_panic|]; intros o t Hp).
  all: try (eapply wp_mono; [apply processWithOpenAIStreaming_panic|];
            intros o t Hp; destruct o as [[err|]|msg]; wp_run_abs).
  all: intros msg0 Ho; try discriminate Ho.
  all: first [ destruct (Hp _ Ho) as [-> Hu] | destruct (Hp _ eq_refl) as [Hm Hu];
               injection Ho as <-; subst ].
  all: split; [reflexivity|].
  all: repeat match goal with
         | |- unwound (?e :: ?t) => apply (unwound_app [e] t); [reflexivity|]
         | |- unwound (?t1 ++ ?t2) => apply (unwound_app t1 t2); [reflexivity|]
         end.
  all: exact Hu.
Qed.

Lemma X17_witness :
  outcome (Process Scenario.emptyFrame Sample.shortID Sample.hello) []
  = Panic index_out_of_range
  /\ unwound (trace (Process Scenario.emptyFrame Sample.shortID Sample.hello) []).
Proof.
  split; [reflexivity|].
  exact (proj2 (X17_panics Scenario.emptyFrame Sample.shortID Sample.hello []
                  index_out_of_range eq_refl)).
Defined.

(** ** The configuration of the voice *)

Lemma length_append (a b : string) :
  String.length (a +:+ b) = (String.length a + String.length b)%nat.
Proof.
  induction a as [|x a IH]; [reflexivity|].
  change (S (String.length (a +:+ b)) = S (String.length a + String.length b)).
  rewrite IH. reflexivity.
Qed.

Lemma append_inj_r (a b c : string) : a +:+ c = b +:+ c -> a = b.
Proof.
  revert b. induction a as [|x a IH]; intros [|y b] H.
  - reflexivity.
  - apply (f_equal String.length) in H. rewrite !length_append in H. simpl in H. lia.
  - apply (f_equal String.length) in H. rewrite !length_append in H. simpl in H. lia.
  - change (String x (a +:+ c) = String y (b +:+ c)) in H.
    injection H as -> H. f_equal. apply IH. exact H.
Qed.

(** X18.  For the same settings of the environment, [ttsConfig] gives
    different configurations for different voice types: what
    [UpdateAIConversationXiaoMei] sends to the voice backend is never what
    [UpdateAIConversationXiaoShuai] sends. *)
Theorem X18_voice_configurations_differ env (voiceType1 voiceType2 : Z) :
  voiceType1 <> voiceType2 ->
  ttsConfig env voiceType1 <> ttsConfig env voiceType2.
Proof.
  intros Hne Heq. apply Hne. clear Hne.
  unfold ttsConfig in Heq. cbv zeta in Heq.
  rewrite <- !append_assoc_l in Heq.
  repeat (apply (inj (append _)) in Heq).
  apply append_inj_r in Heq.
  unfold Strings.itoa in Heq. apply (inj pretty) in Heq. exact Heq.
Qed.

Lemma X18_witness :
  ttsConfig (Sample.env true "XiaoMei" []) VoiceTypeXiaoMei
  <> ttsConfig (Sample.env true "XiaoMei" []) VoiceTypeXiaoShuai.
Proof.
  apply (X18_voice_configurations_differ (Sample.env true "XiaoMei" [])
           VoiceTypeXiaoMei VoiceTypeXiaoShuai).
  discriminate.
Defined.

(** ** Reading integers from the environment *)

Lemma digit_pretty_N_char m :
  (m < 10)%N ->
  strconv.digit (pretty_N_char m) = Some (Z.of_N m)
  /\ pretty_N_char m <> "-"%char /\ pretty_N_char m <> "+"%char.
Proof.
  intros Hm.
  assert (m = 0 \/ m = 1 \/ m = 2 \/ m = 3 \/ m = 4 \/ m = 5 \/ m = 6 \/ m = 7
          \/ m = 8 \/ m = 9)%N as H by lia.
  repeat (destruct H as [->|H]; [repeat split; discriminate|]).
  subst m. repeat split; discriminate.
Qed.

Lemma digits_pretty_N_go x :
  forall s acc,
  exists w, strconv.digits acc (pretty_N_go x s)
            = strconv.digits (acc * 10 ^ w + Z.of_N x) s /\ 0 <= w.
Proof.
  induction x as [x IH] using (well_founded_induction N.lt_wf_0).
  intros s acc. destruct (decide (x = 0%N)) as [->|Hx].
  - exists 0. rewrite pretty_N_go_0. split; [f_equal; lia|lia].
  - rewrite pretty_N_go_step by lia.
    assert (Hlt : (x `div` 10 < x)%N) by (apply N.div_lt; lia).
    destruct (IH _ Hlt (String (pretty_N_char (x `mod` 10)) s) acc) as (w & Hw & Hpos).
    exists (w + 1). split; [|lia]. rewrite Hw. simpl.
    assert (Hmod : (x `mod` 10 < 10)%N) by (apply N.mod_lt; lia).
    destruct (digit_pretty_N_char _ Hmod) as (-> & _).
    f_equal. rewrite Z.pow_add_r, Z.pow_1_r by lia.
    rewrite N2Z.inj_div, N2Z.inj_mod. change (Z.of_N 10) with 10.
    pose proof (Z.div_mod (Z.of_N x) 10). lia.
Qed.

Lemma digits_pretty_N x : strconv.digits 0 (pretty_N_go x "") = Some (Z.of_N x).
Proof.
  destruct (digits_pretty_N_go x "" 0) as (w & -> & _). reflexivity.
Qed.

Lemma pretty_N_go_head x :
  forall s, (0 < x)%N ->
  exists m r, (m < 10)%N /\ pretty_N_go x s = String (pretty_N_char m) r.
Proof.
  induction x as [x IH] using (well_founded_induction N.lt_wf_0).
  intros s Hx. rewrite pretty_N_go_step by exact Hx.
  destruct (decide (x `div` 10 = 0)%N) as [->|Hd].
  - rewrite pretty_N_go_0. exists (x `mod` 10)%N, s. split; [|reflexivity].
    apply N.mod_lt. lia.
  - apply IH; [apply N.div_lt; lia|apply N.neq_0_lt_0; exact Hd].
Qed.

Lemma Atoi_pretty_positive p :
  strconv.Atoi (pretty (Npos p))
  = if Z.pos p >? GoInt.max_int
    then (GoInt.max_int, Some strconv.ErrRange)
    else (Z.pos p, None).
Proof.
  unfold pretty, pretty_N. rewrite decide_False by discriminate.
  pose proof (digits_pretty_N (Npos p)) as Hd.
  destruct (pretty_N_go_head (Npos p) "") as (m & r & Hm & Hr); [lia|].
  rewrite Hr in *. destruct (digit_pretty_N_char m Hm) as (_ & Hdash & Hplus).
  unfold strconv.Atoi.
  rewrite (bool_decide_eq_false_2 _ Hdash), (bool_decide_eq_false_2 _ Hplus).
  cbv [orb]. rewrite Hd. reflexivity.
Qed.

Lemma Atoi_itoa n :
  strconv.Atoi (Strings.itoa n)
  = if n >? GoInt.max_int then (GoInt.max_int, Some strconv.ErrRange)
    else if n <? GoInt.min_int then (GoInt.min_int, Some strconv.ErrRange)
    else (n, None).
Proof.
  unfold Strings.itoa. destruct n as [|p|p].
  - reflexivity.
  - change (pretty (Z.pos p)) with (pretty (Npos p)). rewrite Atoi_pretty_positive.
    destruct (Z.pos p >? GoInt.max_int); reflexivity.
  - change (pretty (Z.neg p)) with ("-" +:+ pretty (Npos p)).
    change ("-" +:+ pretty (Npos p)) with (String "-" (pretty (Npos p))).
    unfold pretty, pretty_N. rewrite decide_False by discriminate.
    pose proof (digits_pretty_N (Npos p)) as Hd.
    destruct (pretty_N_go_head (Npos p) "") as (m & r & Hm & Hr); [lia|].
    unfold strconv.Atoi. rewrite bool_decide_eq_true_2 by reflexivity. cbv [orb].
    rewrite Hr in *. rewrite Hd. cbv iota beta.
    change (Z.of_N (N.pos p)) with (Z.pos p).
    unfold GoInt.max_int, GoInt.min_int.
    repeat match goal with
           | |- context [?a >? ?b] => destruct (Z.gtb_spec a b)
           | |- context [?a <? ?b] => destruct (Z.ltb_spec a b)
           end; try reflexivity; exfalso; lia.
Qed.

(** X19.  A variable that holds the decimal form of an integer [n] gives
    [n] when [n] fits Go's [int], and the default when it does not:
    [getEnvIntOrDefault] undoes [%d], and a range error of [strconv.Atoi]
    falls back to the default like a syntax error. *)
Theorem X19_getEnvIntOrDefault_decimal getenv key defaultValue n :
  getenv key = Strings.itoa n ->
  getEnvIntOrDefault getenv key defaultValue
  = if (GoInt.min_int <=? n) && (n <=? GoInt.max_int) then n else defaultValue.
Proof.
  intros Hkey. unfold getEnvIntOrDefault. cbv zeta. rewrite Hkey.
  pose proof (Atoi_itoa n) as Ha.
  destruct (Z.leb_spec GoInt.min_int n) as [Hmin|Hmin];
    destruct (Z.leb_spec n GoInt.max_int) as [Hmax|Hmax]; cbv [andb].
  - destruct (Z.gtb_spec n GoInt.max_int) as [H1|_]; [lia|].
    destruct (Z.ltb_spec n GoInt.min_int) as [H2|_]; [lia|].
    destruct (decide (Strings.itoa n <> "")) as [_|He].
    + rewrite Ha. reflexivity.
    + apply dec_stable in He. rewrite He in Ha. discriminate Ha.
  - destruct (Z.gtb_spec n GoInt.max_int) as [_|H1]; [|lia].
    destruct (decide (Strings.itoa n <> "")); [rewrite Ha|]; reflexivity.
  - destruct (Z.gtb_spec n GoInt.max_int) as [H1|_];
      [unfold GoInt.min_int, GoInt.max_int in *; lia|].
    destruct (Z.ltb_spec n GoInt.min_int) as [_|H2]; [|lia].
    destruct (decide (Strings.itoa n <> "")); [rewrite Ha|]; reflexivity.
  - unfold GoInt.min_int, GoInt.max_int in *. lia.
Qed.

Lemma X19_witness :
  getEnvIntOrDefault (fun key => if decide (key = "SERVER_PORT") then "9090" else "")
    "SERVER_PORT" 8080
  = 9090.
Proof.
  apply (X19_getEnvIntOrDefault_decimal
           (fun key => if decide (key = "SERVER_PORT") then "9090" else "")
           "SERVER_PORT" 8080 9090).
  reflexivity.
Defined.

(** X20.  With a default that is not empty, [getEnvOrDefault] never
    returns the empty string, whatever the environment holds: a variable set
    to the empty string is taken for one that is not set. *)
Theorem X20_getEnvOrDefault_non_empty getenv key defaultValue :
  defaultValue <> "" ->
  getEnvOrDefault getenv key defaultValue <> "".
Proof.
  intros Hd. unfold getEnvOrDefault. cbv zeta.
  destruct (decide (getenv key <> "")) as [Hv|Hv]; assumption.
Qed.

Lemma X20_witness :
  getEnvOrDefault (fun key => if decide (key = "OPENAI_MODEL") then "" else "x")
    "OPENAI_MODEL" "gpt-3.5-turbo"
  <> "".
Proof.
  apply (X20_getEnvOrDefault_non_empty
           (fun key => if decide (key = "OPENAI_MODEL") then "" else "x")
           "OPENAI_MODEL" "gpt-3.5-turbo").
  discriminate.
Defined.

Lemma digits_not_decimal pre c post :
  strconv.digit c = None ->
  forall acc, strconv.digits acc (pre +:+ String c post) = None.
Proof.
  intros Hc. induction pre as [|x pre IH]; intros acc.
  - change ("" +:+ String c post) with (String c post). simpl. rewrite Hc. reflexivity.
  - change (String x pre +:+ String c post) with (String x (pre +:+ String c post)).
    simpl. destruct (strconv.digit x); [apply IH|reflexivity].
Qed.

(** X24.  A variable whose value holds a character that is not a decimal
    digit, other than a sign in the first place, gives the default:
    [getEnvIntOrDefault] trims no white space and reads no other notation,
    and it does not report the value it could not read. *)
Theorem X24_getEnvIntOrDefault_syntax getenv key defaultValue pre c post :
  getenv key = pre +:+ String c post ->
  strconv.digit c = None ->
  pre <> "" \/ (c <> "-"%char /\ c <> "+"%char) ->
  getEnvIntOrDefault getenv key defaultValue = defaultValue.
Proof.
  intros Hkey Hc Hsign. unfold getEnvIntOrDefault. cbv zeta. rewrite Hkey.
  destruct (decide (pre +:+ String c post <> "")) as [_|]; [|reflexivity].
  destruct pre as [|x pre].
  - destruct Hsign as [Hne|[Hdash Hplus]]; [congruence|].
    change ("" +:+ String c post) with (String c post). unfold strconv.Atoi.
    rewrite (bool_decide_eq_false_2 _ Hdash), (bool_decide_eq_false_2 _ Hplus).
    cbv [orb]. pose proof (digits_not_decimal "" c post Hc 0) as Hd.
    change ("" +:+ String c post) with (String c post) in Hd. rewrite Hd. reflexivity.
  - change (String x pre +:+ String c post) with (String x (pre +:+ String c post)).
    unfold strconv.Atoi.
    destruct (bool_decide (x = "-"%char) || bool_decide (x = "+"%char)).
    + rewrite (digits_not_decimal pre c post Hc 0).
      destruct (pre +:+ String c post); destruct (bool_decide (x = "-"%char)); reflexivity.
    + pose proof (digits_not_decimal (String x pre) c post Hc 0) as Hd.
      change (String x pre +:+ String c post)
        with (String x (pre +:+ String c post)) in Hd.
      rewrite Hd. reflexivity.
Qed.

Lemma X24_witness :
  getEnvIntOrDefault (fun key => if decide (key = "SERVER_PORT") then "8081 " else "")
    "SERVER_PORT" 8080
  = 8080.
Proof.
  apply (X24_getEnvIntOrDefault_syntax
           (fun key => if decide (key = "SERVER_PORT") then "8081 " else "")
           "SERVER_PORT" 8080 "8081" " "%char "").
  - reflexivity.
  - reflexivity.
  - left. discriminate.
Defined.

(** ** Runs that succeed *)

(** X21.  A streaming run that returns nil has made these status updates
    and no other: the starting update to working, one update to working per
    non-empty increment, carrying that increment as its text, in the order
    received, and the update to completed whose message states the number of
    increments. *)
Theorem X21_streaming_status_sequence env taskID message h :
  handle_IsStreamingRequest env = true ->
  outcome (Process env taskID message) h = Done None ->
  Z.of_nat (length (Trace.increments (trace (Process env taskID message) h)))
  <= GoInt.max_int ->
  Trace.statuses (trace (Process env taskID message) h)
  = (protocol.TaskStateWorking, Some startingMessage)
    :: (Trace.progress <$> Trace.increments (trace (Process env taskID message) h))
    ++ [ (protocol.TaskStateCompleted,
          Some (completeMessage
                  (length (Trace.increments (trace (Process env taskID message) h))))) ].
Proof.
  intros Hstreaming Hok Hmax.
  destruct (Process_eof env taskID message h) as [Heof Hres].
  specialize (Heof Hstreaming Hok).
  destruct (Hres Heof Hmax) as (_ & rest & Hst & Hrest).
  rewrite (Hrest Hok) in Hst. exact Hst.
Qed.

Lemma X21_witness :
  Trace.statuses
    (trace (Process (Sample.env true "XiaoMei" ["Hel"; "lo"]) Sample.shortID Sample.hello) [])
  = [ (protocol.TaskStateWorking, Some startingMessage);
      Trace.progress "Hel";
      Trace.progress "lo";
      (protocol.TaskStateCompleted, Some (completeMessage 2)) ].
Proof.
  apply (X21_streaming_status_sequence (Sample.env true "XiaoMei" ["Hel"; "lo"])
           Sample.shortID Sample.hello []).
  - reflexivity.
  - reflexivity.
  - vm_compute. discriminate.
Defined.

Lemma detectIntent_modelCalls env text taskID h :
  wp (detectIntent env text taskID) h (fun _ t => Trace.modelCalls t = 1%nat).
Proof.
  unfold detectIntent. wp_run_abs; wp_voice; wp_run_abs.
  all: reflexivity.
Qed.

Lemma processNonStreaming_success env taskID text h :
  wp (processNonStreaming env taskID text) h (fun o t =>
    o = Done None ->
    Trace.statuses t = nonStreamingStatuses
    /\ Trace.modelCalls t = 2%nat
    /\ exists req resp choice rest now,
         Trace.chatCalls t !! 1%nat = Some (req, inl resp)
         /\ openai.Choices resp = choice :: rest
         /\ Trace.artifacts t
            = [processedArtifact env (openai.Content (openai.Message choice)) now]).
Proof.
  unfold processNonStreaming. wp_run_abs.
  2: unfold processWithOpenAINonStreaming; wp_step;
     eapply wp_mono;
       [apply wp_and; [apply detectIntent_frame|apply detectIntent_modelCalls]|];
     intros o t [(_ & Hc & Ha & Hs & _) Hm];
     destruct o as [[intent [err|]]|msg]; wp_run_abs.
  all: intros Ho; try discriminate Ho.
  all: unfold Trace.modelCalls in *; obs_simpl; rewrite ?Ha, ?Hs, ?Hc, ?Hm; obs_simpl.
  all: split; [reflexivity|]; split; [reflexivity|].
  all: do 5 eexists; split; [reflexivity|]; split; [eassumption|reflexivity].
Qed.

(** X22.  A non-streaming run that returns nil has made exactly two status
    updates, to working and to completed with their fixed messages, two calls
    on the model backend, and appended one artifact: the one built from the
    content of the first choice of the generation response. *)
Theorem X22_non_streaming_success env taskID message h :
  handle_IsStreamingRequest env = false ->
  outcome (Process env taskID message) h = Done None ->
  Trace.statuses (trace (Process env taskID message) h) = nonStreamingStatuses
  /\ Trace.modelCalls (trace (Process env taskID message) h) = 2%nat
  /\ exists req resp choice rest now,
       Trace.chatCalls (trace (Process env taskID message) h) !! 1%nat
       = Some (req, inl resp)
       /\ openai.Choices resp = choice :: rest
       /\ Trace.artifacts (trace (Process env taskID message) h)
          = [processedArtifact env (openai.Content (openai.Message choice)) now].
Proof.
  intros Hmode.
  apply (proj1 (wp_outcome_trace (Process env taskID message) h
    (fun o t =>
       o = Done None ->
       Trace.statuses t = nonStreamingStatuses
       /\ Trace.modelCalls t = 2%nat
       /\ exists req resp choice rest now,
            Trace.chatCalls t !! 1%nat = Some (req, inl resp)
            /\ openai.Choices resp = choice :: rest
            /\ Trace.artifacts t
               = [processedArtifact env (openai.Content (openai.Message choice)) now]))).
  unfold Process. wp_run.
  all: try (rewrite Hmode in *; discriminate).
  - intros Ho. discriminate Ho.
  - eapply wp_mono; [apply processNonStreaming_success|].
    intros o t Hres Ho. specialize (Hres Ho).
    unfold Trace.modelCalls in *. obs_simpl. exact Hres.
Qed.

Lemma X22_witness :
  Trace.statuses
    (trace (Process (Sample.env false "XiaoMei" []) Sample.shortID Sample.hello) [])
  = nonStreamingStatuses
  /\ Trace.modelCalls
       (trace (Process (Sample.env false "XiaoMei" []) Sample.shortID Sample.hello) [])
     = 2%nat.
Proof.
  destruct (X22_non_streaming_success (Sample.env false "XiaoMei" [])
              Sample.shortID Sample.hello [] eq_refl eq_refl) as (Hs & Hm & _).
  split; [exact Hs|exact Hm].
Defined.

(** ** The numbering of the chunks *)

Lemma recvLoop_numbered env taskID final startTime frames :
  forall chunkIndex fullResponse first h,
  wp (recvLoop env taskID frames final startTime chunkIndex fullResponse first) h
    (fun o t =>
       0 <= chunkIndex ->
       chunkIndex + Z.of_nat (length (Trace.increments t)) <= GoInt.max_int ->
       Forall numbered (Trace.artifacts t)).
Proof.
  induction frames as [|response rest IH]; intros chunkIndex fullResponse first h;
    simpl recvLoop; wp_run_abs.
  all: try (eapply wp_mono; [apply IH|]; intros o t Ht).
  all: obs_simpl; use_eqns; simpl.
  all: intros Hge Hle.
  all: try (apply Forall_nil_2).
  all: try (exact (Ht Hge Hle)).
  all: rewrite GoInt_add_small in Ht by (unfold GoInt.min_int, GoInt.max_int in *; lia).
  all: apply Forall_cons; split; [|apply Ht; lia].
  all: split; [|reflexivity].
  all: simpl; unfold stringPtr.
  all: rewrite GoInt_add_small by (unfold GoInt.min_int, GoInt.max_int in *; lia).
  all: reflexivity.
Qed.

(** X23.  Every artifact of a stream is named after its index: the content
    artifact of index [i] is ["Chunk i+1"] and carries [i] as [chunk_index];
    the closing artifact, whose index is that of the last content artifact,
    has the same name as that one and carries the number of chunks as
    [total_chunks].  (The number of increments is below the range of Go's
    [int].) *)
Theorem X23_chunk_numbering env taskID text h a :
  Z.of_nat (length (Trace.increments (trace (processWithOpenAIStreaming env taskID text) h)))
  <= GoInt.max_int ->
  a ∈ Trace.artifacts (trace (processWithOpenAIStreaming env taskID text) h) ->
  artifact.Name a = Some ("Chunk " +:+ Strings.itoa (artifact.Index a + 1))
  /\ match artifact.LastChunk a with
     | None => Obs.meta "chunk_index" a = Some (VInt (artifact.Index a))
     | Some _ => Obs.meta "total_chunks" a = Some (VInt (artifact.Index a + 1))
     end.
Proof.
  intros Hmax Hin. revert Hmax a Hin.
  apply (proj1 (wp_outcome_trace (processWithOpenAIStreaming env taskID text) h
    (fun _ t =>
       Z.of_nat (length (Trace.increments t)) <= GoInt.max_int ->
       forall a, a ∈ Trace.artifacts t -> numbered a))).
  unfold processWithOpenAIStreaming. wp_step.
  eapply wp_mono; [apply detectIntent_frame|].
  intros o t (_ & _ & Ha & _ & _ & Hi & _).
  destruct o as [[intent [err|]]|msg]; wp_run_abs.
  all: lazymatch goal with
       | |- wp (recvLoop _ _ _ _ _ _ _ _) _ _ =>
           eapply wp_mono;
             [apply wp_and; [apply recvLoop_break|apply recvLoop_numbered]|];
           intros [[chunkIndex fullResponse|err']|msg'] t2 [Hbrk Hnum]; wp_run_abs
       | |- _ => idtac
       end.
  all: obs_simpl; rewrite ?Ha, ?Hi; obs_simpl.
  all: intros Hmax a Hin.
  all: try (apply elem_of_nil in Hin; destruct Hin).
  all: try (exact (proj1 (Forall_forall _ _) (Hnum ltac:(lia) ltac:(lia)) a Hin)).
  all: apply elem_of_app in Hin as [Hin|Hin];
         [exact (proj1 (Forall_forall _ _) (Hnum ltac:(lia) ltac:(lia)) a Hin)|].
  all: apply list_elem_of_singleton in Hin; subst a.
  all: destruct Hbrk as (_ & _ & Hix); destruct (Hix ltac:(lia) ltac:(lia)) as [Hci _].
  all: apply Z.gtb_lt in Heqb.
  all: unfold numbered; simpl; unfold stringPtr.
  all: rewrite GoInt_sub_small by (unfold GoInt.min_int, GoInt.max_int in *; lia).
  all: rewrite Z.sub_add; split; reflexivity.
Qed.

Lemma X23_witness :
  artifact.Name
    (lastChunkArtifact (Sample.env true "XiaoMei" ["Hel"; "lo"]) 2 "Hello"
       1700000000000000004)
  = Some "Chunk 2".
Proof.
  apply (X23_chunk_numbering (Sample.env true "XiaoMei" ["Hel"; "lo"]) Sample.shortID
           "hello" []
           (lastChunkArtifact (Sample.env true "XiaoMei" ["Hel"; "lo"]) 2 "Hello"
              1700000000000000004)).
  - vm_compute. discriminate.
  - vm_compute. do 2 apply list_elem_of_further. apply list_elem_of_here.
Defined.

(** ** Rejections of the first and of the last status update *)








(** * The claim on the failures of the handle *)



